(** * segundoplano-backend: the telemetry API of [server.js]

    A shallow embedding of the Express handlers of [src/server.js] and of
    the part of Mongoose they rely on (schema casting and validation,
    [save], [find], [findOne], [deleteMany]), followed by the properties
    of the routes.

    - JavaScript numbers are IEEE-754 binary64 values ([spec_float]).
    - Strings are byte strings holding the UTF-8 form of the JavaScript
      string.
    - The document store is a record of four collections kept in
      insertion order; a query sorted by [createdAt] descending is a
      stable sort of that order (MongoDB leaves the order of documents
      with equal keys open; the statements never rely on it).
    - Every round trip to the store may reject: the store state carries
      the outcome of the coming round trips. *)

From Stdlib Require Import ZArith NArith List String Ascii Bool Lia.
From Stdlib Require Import Sorting.Sorted Sorting.Permutation.
From Stdlib Require Import SpecFloat.
From Stdlib Require Import Setoid.
Import ListNotations.
Local Open Scope string_scope.
Local Open Scope Z_scope.

(** ** Numbers *)

Definition number : Type := spec_float.

Definition zero : number := S754_zero false.
Definition one : number := S754_finite false 4503599627370496 (-52).

(** [isNaN n] *)
Definition isNaN (n : number) : bool :=
  match n with S754_nan => true | _ => false end.

(** [a >= b] on numbers: false as soon as one side is NaN. *)
Definition num_ge (a b : number) : bool := SFleb b a.

(** [a < b] on numbers. *)
Definition num_lt (a b : number) : bool := SFltb a b.

(** ** Values of a parsed JSON body *)

Local Unset Elimination Schemes.

Inductive value : Type :=
| VUndefined
| VNull
| VBool (b : bool)
| VNum (n : number)
| VStr (s : string)
| VArr (items : list value)
| VObj (props : list (string * value)).

Local Set Elimination Schemes.

(** [o.k] for the own properties of a parsed object (keys distinct);
    a key that is not there reads [undefined]. *)
Fixpoint prop (o : list (string * value)) (k : string) : value :=
  match o with
  | [] => VUndefined
  | (k', v) :: rest => if String.eqb k k' then v else prop rest k
  end.

(** JavaScript truthiness, the meaning of [!v] being false. *)
Definition truthy (v : value) : bool :=
  match v with
  | VUndefined | VNull => false
  | VBool b => b
  | VNum n =>
      match n with
      | S754_zero _ | S754_nan => false
      | _ => true
      end
  | VStr s => negb (String.eqb s "")
  | VArr _ | VObj _ => true
  end.

(** [typeof v === "number"] *)
Definition typeof_number (v : value) : bool :=
  match v with VNum _ => true | _ => false end.

(** [v === undefined] *)
Definition is_undefined (v : value) : bool :=
  match v with VUndefined => true | _ => false end.

(** ** [String.prototype.trim] on UTF-8 bytes *)

Definition byte (c : ascii) : N := N_of_ascii c.

(** White space and line terminators of one byte: TAB, LF, VT, FF, CR, SP. *)
Definition ws1 (a : ascii) : bool :=
  let x := byte a in
  ((9 <=? x) && (x <=? 13) || (x =? 32))%N.

(** U+00A0. *)
Definition ws2 (a b : ascii) : bool :=
  ((byte a =? 194) && (byte b =? 160))%N.

(** U+1680, U+2000..U+200A, U+2028, U+2029, U+202F, U+205F, U+3000, U+FEFF. *)
Definition ws3 (a b c : ascii) : bool :=
  let x := byte a in
  let y := byte b in
  let z := byte c in
  ((x =? 225) && (y =? 154) && (z =? 128)
   || (x =? 226) && (y =? 128)
      && ((128 <=? z) && (z <=? 138) || (z =? 168) || (z =? 169) || (z =? 175))
   || (x =? 226) && (y =? 129) && (z =? 159)
   || (x =? 227) && (y =? 128) && (z =? 128)
   || (x =? 239) && (y =? 187) && (z =? 191))%N.

Fixpoint trimStart (s : string) : string :=
  match s with
  | EmptyString => s
  | String a r =>
      if ws1 a then trimStart r
      else
        match r with
        | EmptyString => s
        | String b r2 =>
            if ws2 a b then trimStart r2
            else
              match r2 with
              | EmptyString => s
              | String c r3 => if ws3 a b c then trimStart r3 else s
              end
        end
  end.

Fixpoint trimEnd (s : string) : string :=
  match s with
  | EmptyString => EmptyString
  | String a r =>
      if String.eqb (trimStart s) "" then EmptyString
      else String a (trimEnd r)
  end.

Definition String_trim (s : string) : string := trimEnd (trimStart s).

(** ** Mongoose schemas *)

Inductive schematype : Type := TString | TNumber | TDate.

(** The one default function of the schemas: [Date.now]. *)
Inductive defaultfn : Type := DateNow.

Record schemapath : Type := {
  type : schematype;
  required : bool;
  trim : bool;
  min : option number;
  enum : option (list string);
  index : bool;
  default : option defaultfn
}.

Definition path (t : schematype) : schemapath :=
  {| type := t; required := false; trim := false; min := None;
     enum := None; index := false; default := None |}.

Definition with_required (p : schemapath) : schemapath :=
  {| type := type p; required := true; trim := trim p; min := min p;
     enum := enum p; index := index p; default := default p |}.

Definition with_trim (p : schemapath) : schemapath :=
  {| type := type p; required := required p; trim := true; min := min p;
     enum := enum p; index := index p; default := default p |}.

Definition with_min (n : number) (p : schemapath) : schemapath :=
  {| type := type p; required := required p; trim := trim p; min := Some n;
     enum := enum p; index := index p; default := default p |}.

Definition with_enum (l : list string) (p : schemapath) : schemapath :=
  {| type := type p; required := required p; trim := trim p; min := min p;
     enum := Some l; index := index p; default := default p |}.

Definition with_index (p : schemapath) : schemapath :=
  {| type := type p; required := required p; trim := trim p; min := min p;
     enum := enum p; index := true; default := default p |}.

Definition with_default (d : defaultfn) (p : schemapath) : schemapath :=
  {| type := type p; required := required p; trim := trim p; min := min p;
     enum := enum p; index := index p; default := Some d |}.

(** A schema: its paths in declaration order.  The four schemas all set
    [timestamps: true]. *)
Definition schema : Type := list (string * schemapath).

Definition conductorSchema : schema :=
  [ ("nombre", with_trim (with_required (path TString)));
    ("edad", with_min zero (with_required (path TNumber)));
    ("sexo", with_required (with_enum ["Masculino"; "Femenino"] (path TString)));
    ("turno", with_required (path TString));
    ("enfermedad", with_required (path TString)) ].

Definition ritmoSchema : schema :=
  [ ("conductorId", with_index (with_required (path TString)));
    ("bpm", with_min zero (with_required (path TNumber)));
    ("fecha", with_default DateNow (path TDate)) ].

Definition brujulaSchema : schema :=
  [ ("conductorId", with_index (with_required (path TString)));
    ("compass", with_required (path TNumber));
    ("fecha", with_default DateNow (path TDate)) ].

Definition ubicacionSchema : schema :=
  [ ("conductorId", with_index (with_required (path TString)));
    ("latitud", with_required (path TNumber));
    ("longitud", with_required (path TNumber));
    ("fecha", with_default DateNow (path TDate)) ].

Inductive model : Type := Conductor | Ritmo | Brujula | Ubicacion.

Definition schema_of (m : model) : schema :=
  match m with
  | Conductor => conductorSchema
  | Ritmo => ritmoSchema
  | Brujula => brujulaSchema
  | Ubicacion => ubicacionSchema
  end.

Definition modelName (m : model) : string :=
  match m with
  | Conductor => "Conductor"
  | Ritmo => "Ritmo"
  | Brujula => "Brujula"
  | Ubicacion => "Ubicacion"
  end.

(** ** Documents *)

(** A value held by a document path after casting.  A date is an
    instant in milliseconds since the epoch; in a JSON body it is sent
    as its ISO-8601 text. *)
Inductive fvalue : Type :=
| FString (s : string)
| FNumber (n : number)
| FDate (ms : Z).

Definition fields : Type := list (string * fvalue).

Fixpoint field (fs : fields) (k : string) : option fvalue :=
  match fs with
  | [] => None
  | (k', v) :: rest => if String.eqb k k' then Some v else field rest k
  end.

(** What a path can fail validation with. *)
Inductive verror : Type := ECast | ERequired | EMin | EEnum.

(** [new Model(obj)] before it is saved: the identifier is already
    there, cast failures are kept for validation. *)
Record draft : Type := {
  d_id : N;
  d_fields : fields;
  d_errors : list (string * verror)
}.

(** A saved document. *)
Record document : Type := {
  _id : N;
  doc_fields : fields;
  createdAt : Z;
  updatedAt : Z;
  __v : Z
}.

(** [err.message] *)
Inductive message : Type :=
| Text (s : string)
| ValidationFailed (name : string) (errors : list (string * verror)).

(** ** The store and the handlers' monad *)

(** The four collections in insertion order, the next identifier the
    driver hands out, and the outcome of the coming round trips
    ([Some msg]: the operation rejects with [msg]; past the end of the
    list every operation goes through). *)
Record store : Type := {
  conductores : list document;
  ritmos : list document;
  brujulas : list document;
  ubicaciones : list document;
  next_id : N;
  faults : list (option string)
}.

Definition collection (m : model) (s : store) : list document :=
  match m with
  | Conductor => conductores s
  | Ritmo => ritmos s
  | Brujula => brujulas s
  | Ubicacion => ubicaciones s
  end.

Definition set_collection (m : model) (l : list document) (s : store) : store :=
  match m with
  | Conductor =>
      {| conductores := l; ritmos := ritmos s; brujulas := brujulas s;
         ubicaciones := ubicaciones s; next_id := next_id s; faults := faults s |}
  | Ritmo =>
      {| conductores := conductores s; ritmos := l; brujulas := brujulas s;
         ubicaciones := ubicaciones s; next_id := next_id s; faults := faults s |}
  | Brujula =>
      {| conductores := conductores s; ritmos := ritmos s; brujulas := l;
         ubicaciones := ubicaciones s; next_id := next_id s; faults := faults s |}
  | Ubicacion =>
      {| conductores := conductores s; ritmos := ritmos s; brujulas := brujulas s;
         ubicaciones := l; next_id := next_id s; faults := faults s |}
  end.

Definition set_next_id (n : N) (s : store) : store :=
  {| conductores := conductores s; ritmos := ritmos s; brujulas := brujulas s;
     ubicaciones := ubicaciones s; next_id := n; faults := faults s |}.

Definition set_faults (f : list (option string)) (s : store) : store :=
  {| conductores := conductores s; ritmos := ritmos s; brujulas := brujulas s;
     ubicaciones := ubicaciones s; next_id := next_id s; faults := f |}.

(** An [async] computation: it returns or throws, and the store keeps
    what was done before the throw. *)
Definition M (A : Type) : Type := store -> (A + message) * store.

Definition ret {A : Type} (a : A) : M A := fun s => (inl a, s).

Definition throw {A : Type} (e : message) : M A := fun s => (inr e, s).

Definition bind {A B : Type} (m : M A) (k : A -> M B) : M B :=
  fun s =>
    match m s with
    | (inl a, s') => k a s'
    | (inr e, s') => (inr e, s')
    end.

Declare Scope async_scope.
Delimit Scope async_scope with async.
Notation "x <- m ;; k" := (bind m (fun x => k))
  (at level 61, m at next level, right associativity) : async_scope.
Notation "m ;; k" := (bind m (fun _ => k))
  (at level 61, right associativity) : async_scope.
Notation "' pat <- m ;; k" := (bind m (fun x => match x with pat => k end))
  (at level 61, pat pattern, m at next level, right associativity) : async_scope.
Local Open Scope async_scope.

(** One round trip to the store. *)
Definition roundtrip : M unit :=
  fun s =>
    match faults s with
    | [] => (inl tt, s)
    | None :: rest => (inl tt, set_faults rest s)
    | Some msg :: rest => (inr (Text msg), set_faults rest s)
    end.

(** Of two rejections, each with the position of its promise in the
    array handed to [Promise.all], the one that settled sooner. *)
Definition sooner (settles : nat -> nat) (p q : nat * message) : nat * message :=
  if (settles (fst q) <? settles (fst p))%nat then q else p.

(** [Promise.all] of three computations: each one runs; the result is
    the three values, or, when some are rejected, the rejection that
    settles first.  [settles i] is the instant at which the promise at
    position [i] settles. *)
Definition Promise_all {A B C : Type} (settles : nat -> nat)
    (a : M A) (b : M B) (c : M C) : M (A * B * C) :=
  fun s =>
    let '(ra, s1) := a s in
    let '(rb, s2) := b s1 in
    let '(rc, s3) := c s2 in
    match ra, rb, rc with
    | inl x, inl y, inl z => (inl (x, y, z), s3)
    | inr ea, inl _, inl _ => (inr ea, s3)
    | inl _, inr eb, inl _ => (inr eb, s3)
    | inl _, inl _, inr ec => (inr ec, s3)
    | inr ea, inr eb, inl _ =>
        (inr (snd (sooner settles (0%nat, ea) (1%nat, eb))), s3)
    | inr ea, inl _, inr ec =>
        (inr (snd (sooner settles (0%nat, ea) (2%nat, ec))), s3)
    | inl _, inr eb, inr ec =>
        (inr (snd (sooner settles (1%nat, eb) (2%nat, ec))), s3)
    | inr ea, inr eb, inr ec =>
        (inr (snd (sooner settles (sooner settles (0%nat, ea) (1%nat, eb))
                     (2%nat, ec))), s3)
    end.

(** ** Queries *)

(** [.sort({ createdAt: -1 })]: stable, most recent first. *)
Fixpoint insert_desc (d : document) (l : list document) : list document :=
  match l with
  | [] => [d]
  | x :: rest =>
      if createdAt x <=? createdAt d then d :: x :: rest
      else x :: insert_desc d rest
  end.

Fixpoint sort_desc (l : list document) : list document :=
  match l with
  | [] => []
  | d :: rest => insert_desc d (sort_desc rest)
  end.

(** The filter [{ conductorId }]. *)
Definition matches (conductorId : string) (d : document) : bool :=
  match field (doc_fields d) "conductorId" with
  | Some (FString s) => String.eqb s conductorId
  | _ => false
  end.

(** [Model.find().sort({ createdAt: -1 })] *)
Definition find_sorted (m : model) : M (list document) :=
  roundtrip ;;
  fun s => (inl (sort_desc (collection m s)), s).

(** The first document of the filtered, sorted collection. *)
Definition latest_doc (m : model) (conductorId : string) (s : store) : option document :=
  hd_error (sort_desc (filter (matches conductorId) (collection m s))).

(** [Model.findOne({ conductorId }).sort({ createdAt: -1 })] *)
Definition findOne_sorted (m : model) (conductorId : string) : M (option document) :=
  roundtrip ;;
  fun s => (inl (latest_doc m conductorId s), s).

(** [Model.deleteMany({})], returning [deletedCount]. *)
Definition deleteMany (m : model) : M nat :=
  roundtrip ;;
  fun s => (inl (List.length (collection m s)), set_collection m [] s).

(** ** Requests and responses *)

(** What a handler reads from the process while it runs: the clock at
    the moment it builds a document ([Date.now()], [new Date()]), the
    clock read by the timestamps hook of [save], the connection state
    of the Mongoose client, [process.uptime()], and the instant at which
    each promise of a [Promise.all], by position, settles. *)
Record env : Type := {
  now : Z;
  now_save : Z;
  readyState : Z;
  uptime : number;
  settles : nat -> nat
}.

(** The JSON bodies the handlers send.  [now] in the health body is
    [new Date().toISOString()], kept as the instant it prints. *)
Inductive json : Type :=
| JError (error : message)
| JMessageData (message : string) (data : document)
| JDoc (doc : document)
| JTotalData (total : nat) (data : list document)
| JLectura (conductorId : string) (ritmo brujula ubicacion : option fields)
| JBorrados (message : string)
    (conductoresBorrados ritmosBorrados brujulaBorrados ubicacionBorrados : nat)
| JHealth (status mongo : string) (uptime : number) (now : Z).

Record response : Type := {
  status : Z;
  body : json
}.

(** The keys of the object literal a handler hands to [res.json], in the
    order it writes them; a route that hands over a document sends the
    keys of the document's own serialization. *)
Definition literal_keys (b : json) : option (list string) :=
  match b with
  | JError _ => Some ["error"]
  | JMessageData _ _ => Some ["message"; "data"]
  | JDoc _ => None
  | JTotalData _ _ => Some ["total"; "data"]
  | JLectura _ _ _ _ => Some ["conductorId"; "ritmo"; "brujula"; "ubicacion"]
  | JBorrados _ _ _ _ _ =>
      Some ["message"; "conductoresBorrados"; "ritmosBorrados"; "brujulaBorrados";
            "ubicacionBorrados"]
  | JHealth _ _ _ _ => Some ["status"; "mongo"; "uptime"; "now"]
  end.

(** [res.json(b)] and [res.status(c).json(b)] *)
Definition res_json (b : json) : response := {| status := 200; body := b |}.
Definition res_status_json (c : Z) (b : json) : response := {| status := c; body := b |}.

(** The [try { ... } catch (err) { res.status(500).json({ error: err.message }) }]
    around every handler body. *)
Definition handle (m : M response) : store -> response * store :=
  fun s =>
    match m s with
    | (inl r, s') => (r, s')
    | (inr err, s') => (res_status_json 500 (JError err), s')
    end.

(** [{ k1: doc.k1, k2: doc.k2, ... }] *)
Definition pick (keys : list string) (d : document) : fields :=
  flat_map (fun k => match field (doc_fields d) k with
                     | Some v => [(k, v)]
                     | None => []
                     end) keys.

(** ** Casting, construction and saving of documents *)

Inductive cast (A : Type) : Type :=
| Cast (a : A)
| Nullish
| CastError.
Arguments Cast {A} a.
Arguments Nullish {A}.
Arguments CastError {A}.

(** ** Concrete data for the runs at the end of the file *)

(** 72 and -5 as binary64 values. *)
Definition bpm72 : number := S754_finite false 5066549580791808 (-46).
Definition minus5 : number := S754_finite true 5629499534213120 (-50).

Definition example_env : env :=
  {| now := 1700000000000; now_save := 1700000000003; readyState := 1;
     uptime := one; settles := fun i => i |}.

(** A heart-rate reading of driver D1. *)
Definition example_ritmo : document :=
  {| _id := 0;
     doc_fields := [("conductorId", FString "D1"); ("bpm", FNumber bpm72);
                    ("fecha", FDate 1699999999000)];
     createdAt := 1699999999002; updatedAt := 1699999999002; __v := 0 |}.

Definition example_store : store :=
  {| conductores := []; ritmos := [example_ritmo]; brujulas := [];
     ubicaciones := []; next_id := 1; faults := [None] |}.

Definition empty_store : store :=
  {| conductores := []; ritmos := []; brujulas := []; ubicaciones := [];
     next_id := 0; faults := [] |}.

(** A later heart rate and a compass reading of another driver, D2, and
    a store that holds the readings of both drivers. *)
Definition other_ritmo : document :=
  {| _id := 1;
     doc_fields := [("conductorId", FString "D2"); ("bpm", FNumber zero);
                    ("fecha", FDate 1699999999600)];
     createdAt := 1699999999602; updatedAt := 1699999999602; __v := 0 |}.

Definition other_brujula : document :=
  {| _id := 2;
     doc_fields := [("conductorId", FString "D2"); ("compass", FNumber one);
                    ("fecha", FDate 1699999999700)];
     createdAt := 1699999999702; updatedAt := 1699999999702; __v := 0 |}.

Definition shared_store : store :=
  {| conductores := []; ritmos := [example_ritmo; other_ritmo];
     brujulas := [other_brujula]; ubicaciones := []; next_id := 3; faults := [] |}.

(** A registered driver. *)
Definition example_conductor : document :=
  {| _id := 1;
     doc_fields := [("nombre", FString "Ana"); ("edad", FNumber bpm72);
                    ("sexo", FString "Femenino"); ("turno", FString "Noche");
                    ("enfermedad", FString "Ninguna")];
     createdAt := 1699999999500; updatedAt := 1699999999500; __v := 0 |}.

(** A store whose next round trip is rejected. *)
Definition rejecting_store : store :=
  {| conductores := [example_conductor]; ritmos := [example_ritmo]; brujulas := [];
     ubicaciones := []; next_id := 2; faults := [Some "ECONNRESET"] |}.

(** A store that answers one round trip and rejects the next. *)
Definition faltering_store : store :=
  {| conductores := [example_conductor]; ritmos := [example_ritmo]; brujulas := [];
     ubicaciones := []; next_id := 2; faults := [None; Some "ECONNRESET"] |}.

(** A store that answers the first lookup and rejects the next two,
    each with its own message. *)
Definition twice_rejecting_store : store :=
  {| conductores := []; ritmos := [example_ritmo]; brujulas := [];
     ubicaciones := []; next_id := 1;
     faults := [None; Some "E-brujula"; Some "E-ubicacion"] |}.

(** A process whose clock at the save is behind [example_ritmo], and in
    which the later a lookup is issued the sooner it settles. *)
Definition stale_env : env :=
  {| now := 1699999998000; now_save := 1699999998003; readyState := 1;
     uptime := one; settles := fun i => (2 - i)%nat |}.

(** A body without [conductorId]. *)
Definition anonymous_body : list (string * value) :=
  [("bpm", VNum bpm72); ("compass", VNum bpm72); ("latitud", VNum bpm72);
   ("longitud", VNum bpm72)].

(** A registration whose name is two spaces. *)
Definition blank_name_body : list (string * value) :=
  [("nombre", VStr "  "); ("edad", VNum bpm72); ("sexo", VStr "Femenino");
   ("turno", VStr "Noche"); ("enfermedad", VStr "Ninguna")].

(** A heart-rate body that also carries fields no route names. *)
Definition forged_body : list (string * value) :=
  [("_id", VStr "forged"); ("conductorId", VStr "D1"); ("fecha", VNum zero);
   ("bpm", VNum zero); ("createdAt", VNum zero)].

(** A location whose latitude is an object with an [_id] and whose
    longitude is the boolean [true]. *)
Definition document_like_body : list (string * value) :=
  [("conductorId", VStr "D1"); ("latitud", VObj [("_id", VNum bpm72)]);
   ("longitud", VBool true)].

(** A registration whose name has a space on each side and whose age is
    an object with an [_id]. *)
Definition padded_body : list (string * value) :=
  [("nombre", VStr " Ana "); ("edad", VObj [("_id", VNum bpm72)]);
   ("sexo", VStr "Femenino"); ("turno", VStr "Noche");
   ("enfermedad", VStr "Ninguna")].

(** A compass reading with a negative heading. *)
Definition negative_heading_body : list (string * value) :=
  [("conductorId", VStr "D1"); ("compass", VNum minus5)].

(** A body with a zero for every reading value. *)
Definition zero_body : list (string * value) :=
  [("conductorId", VStr "D1"); ("bpm", VNum zero); ("compass", VNum zero);
   ("latitud", VNum zero); ("longitud", VNum zero)].

(** A body with a negative [bpm] and a [sexo] outside the enumeration. *)
Definition out_of_range_body : list (string * value) :=
  [("conductorId", VStr "D1"); ("bpm", VNum minus5);
   ("nombre", VStr "Ana"); ("edad", VNum bpm72); ("sexo", VStr "Otro");
   ("turno", VStr "Noche"); ("enfermedad", VStr "Ninguna")].

(** Stand-ins for the three conversions in the concrete runs: a
    [Number] that reads no numeral, a [toString] that prints "NaN", a
    date cast that always fails.  The runs apply [Number] to "abc" only
    and the other two to nothing. *)
Definition Number_reads_nothing (s : string) : number := S754_nan.
Definition toString_NaN (n : number) : string := "NaN".
Definition castDate_fails (v : value) : cast Z := CastError.

Section Server.

(** The conversions of the language and of the driver that the handlers
    reach only through Mongoose: [Number(s)] on a string,
    [n.toString()] on a number, and the cast of a value to a date. *)
Variable Number_of_string : string -> number.
Variable Number_toString : number -> string.
Variable castDate : value -> cast Z.

Definition castString (v : value) : cast string :=
  match v with
  | VUndefined | VNull => Nullish
  | VBool b => Cast (if b then "true" else "false")
  | VNum n => Cast (Number_toString n)
  | VStr s => Cast s
  | VArr _ => CastError
  | VObj props =>
      match prop props "_id" with
      | VStr s => if String.eqb s "" then CastError else Cast s
      | _ => CastError
      end
  end.

(** [castNumber] of [cast/number.js]. *)
Definition castNumber (v : value) : cast number :=
  match v with
  | VUndefined | VNull => Nullish
  | VStr s =>
      if String.eqb s "" then Nullish
      else if isNaN (Number_of_string s) then CastError
      else Cast (Number_of_string s)
  | VBool b => Cast (if b then one else zero)
  | VNum n => if isNaN n then CastError else Cast n
  | VArr _ | VObj _ => CastError
  end.

(** [SchemaNumber.prototype.cast]: of a value that has an [_id], the
    [_id] is what is cast. *)
Definition SchemaNumber_cast (v : value) : cast number :=
  castNumber
    match v with
    | VObj props =>
        match prop props "_id" with
        | VUndefined => v
        | id => id
        end
    | _ => v
    end.

(** Setters, then the cast of the path's type. *)
Definition set_path (p : schemapath) (raw : value) : cast fvalue :=
  match type p with
  | TString =>
      match castString raw with
      | Cast s => Cast (FString (if trim p then String_trim s else s))
      | Nullish => Nullish
      | CastError => CastError
      end
  | TNumber =>
      match SchemaNumber_cast raw with
      | Cast n => Cast (FNumber n)
      | Nullish => Nullish
      | CastError => CastError
      end
  | TDate =>
      match castDate raw with
      | Cast t => Cast (FDate t)
      | Nullish => Nullish
      | CastError => CastError
      end
  end.

(** The value a path takes from what the constructor was given: the
    default when nothing was given, else setters and cast. *)
Definition path_value (e : env) (p : schemapath) (raw : value) : cast fvalue :=
  match raw with
  | VUndefined =>
      match default p with
      | Some DateNow => Cast (FDate (now e))
      | None => Nullish
      end
  | _ => set_path p raw
  end.

Fixpoint build (e : env) (sch : schema) (o : list (string * value))
  : fields * list (string * verror) :=
  match sch with
  | [] => ([], [])
  | (k, p) :: rest =>
      let '(fs, es) := build e rest o in
      match path_value e p (prop o k) with
      | Cast v => ((k, v) :: fs, es)
      | Nullish => (fs, es)
      | CastError => (fs, (k, ECast) :: es)
      end
  end.

(** [new Model(o)] *)
Definition new_doc (m : model) (e : env) (o : list (string * value)) : M draft :=
  fun s =>
    let '(fs, es) := build e (schema_of m) o in
    (inl {| d_id := next_id s; d_fields := fs; d_errors := es |},
     set_next_id (N.succ (next_id s)) s).

(** The validators of one path, [required] first. *)
Definition validate_path (p : schemapath) (v : option fvalue) : option verror :=
  match v with
  | None => if required p then Some ERequired else None
  | Some (FString s) =>
      if required p && String.eqb s "" then Some ERequired
      else
        match enum p with
        | Some allowed => if existsb (String.eqb s) allowed then None else Some EEnum
        | None => None
        end
  | Some (FNumber n) =>
      match min p with
      | Some lo => if num_ge n lo then None else Some EMin
      | None => None
      end
  | Some (FDate _) => None
  end.

Definition cast_failed (es : list (string * verror)) (k : string) : bool :=
  existsb (fun ke => String.eqb k (fst ke)) es.

Fixpoint validate (sch : schema) (d : draft) : list (string * verror) :=
  match sch with
  | [] => []
  | (k, p) :: rest =>
      let here :=
        if cast_failed (d_errors d) k then Some ECast
        else validate_path p (field (d_fields d) k) in
      match here with
      | Some err => (k, err) :: validate rest d
      | None => validate rest d
      end
  end.

(** [doc.save()]: validation, then the timestamps and the insert. *)
Definition save (m : model) (e : env) (d : draft) : M document :=
  match validate (schema_of m) d with
  | [] =>
      roundtrip ;;
      fun s =>
        let doc := {| _id := d_id d; doc_fields := d_fields d;
                      createdAt := now_save e; updatedAt := now_save e;
                      __v := 0 |} in
        (inl doc, set_collection m (collection m s ++ [doc]) s)
  | errs => throw (ValidationFailed (modelName m) errs)
  end.

(** ** The routes *)

Definition get_health (e : env) : store -> response * store :=
  fun s =>
    (res_json (JHealth "ok"
                 (if readyState e =? 1 then "connected" else "disconnected")
                 (uptime e) (now e)),
     s).

Definition post_conductor (e : env) (req_body : list (string * value))
  : store -> response * store :=
  handle (
    let nombre := prop req_body "nombre" in
    let edad := prop req_body "edad" in
    let sexo := prop req_body "sexo" in
    let turno := prop req_body "turno" in
    let enfermedad := prop req_body "enfermedad" in
    if negb (truthy nombre) || negb (truthy edad) || negb (truthy sexo)
       || negb (truthy turno) || negb (truthy enfermedad)
    then ret (res_status_json 400 (JError (Text "Todos los campos son requeridos")))
    else
      nuevo <- new_doc Conductor e
                 [("nombre", nombre); ("edad", edad); ("sexo", sexo);
                  ("turno", turno); ("enfermedad", enfermedad)] ;;
      saved <- save Conductor e nuevo ;;
      ret (res_status_json 201 (JMessageData "Conductor creado" saved))).

Definition post_ritmo (e : env) (req_body : list (string * value))
  : store -> response * store :=
  handle (
    let conductorId := prop req_body "conductorId" in
    let bpm := prop req_body "bpm" in
    if negb (truthy conductorId) || negb (typeof_number bpm)
    then ret (res_status_json 400 (JError (Text "conductorId y bpm son requeridos")))
    else
      lectura <- new_doc Ritmo e [("conductorId", conductorId); ("bpm", bpm)] ;;
      saved <- save Ritmo e lectura ;;
      ret (res_status_json 201 (JMessageData "Ritmo guardado" saved))).

Definition post_brujula (e : env) (req_body : list (string * value))
  : store -> response * store :=
  handle (
    let conductorId := prop req_body "conductorId" in
    let compass := prop req_body "compass" in
    if negb (truthy conductorId) || negb (typeof_number compass)
    then ret (res_status_json 400 (JError (Text "conductorId y compass son requeridos")))
    else
      lectura <- new_doc Brujula e [("conductorId", conductorId); ("compass", compass)] ;;
      saved <- save Brujula e lectura ;;
      ret (res_status_json 201 (JMessageData "Brújula guardada" saved))).

Definition post_ubicacion (e : env) (req_body : list (string * value))
  : store -> response * store :=
  handle (
    let conductorId := prop req_body "conductorId" in
    let latitud := prop req_body "latitud" in
    let longitud := prop req_body "longitud" in
    if negb (truthy conductorId) || is_undefined latitud || is_undefined longitud
    then ret (res_status_json 400
                (JError (Text "conductorId, latitud y longitud son requeridos")))
    else
      lectura <- new_doc Ubicacion e
                   [("conductorId", conductorId); ("latitud", latitud);
                    ("longitud", longitud)] ;;
      saved <- save Ubicacion e lectura ;;
      ret (res_status_json 201 (JMessageData "Ubicación guardada" saved))).

(** The three [/:conductorId/latest] routes differ by model and message. *)
Definition get_latest (m : model) (sin_lecturas : string) (conductorId : string)
  : store -> response * store :=
  handle (
    doc <- findOne_sorted m conductorId ;;
    match doc with
    | None => ret (res_status_json 404 (JError (Text sin_lecturas)))
    | Some d => ret (res_json (JDoc d))
    end).

Definition get_ritmo_latest : string -> store -> response * store :=
  get_latest Ritmo "Sin lecturas de ritmo".

Definition get_brujula_latest : string -> store -> response * store :=
  get_latest Brujula "Sin lecturas de brújula".

Definition get_ubicacion_latest : string -> store -> response * store :=
  get_latest Ubicacion "Sin lecturas de ubicación".

Definition get_lectura_latest (e : env) (conductorId : string)
  : store -> response * store :=
  handle (
    '(ritmo, brujula, ubicacion) <-
       Promise_all (settles e)
                   (findOne_sorted Ritmo conductorId)
                   (findOne_sorted Brujula conductorId)
                   (findOne_sorted Ubicacion conductorId) ;;
    match ritmo, brujula, ubicacion with
    | None, None, None =>
        ret (res_status_json 404 (JError (Text "No hay lecturas para este conductor")))
    | _, _, _ =>
        ret (res_json (JLectura conductorId
               (option_map (pick ["bpm"; "fecha"]) ritmo)
               (option_map (pick ["compass"; "fecha"]) brujula)
               (option_map (pick ["latitud"; "longitud"; "fecha"]) ubicacion)))
    end).

(** The four [/all] listings differ by model only. *)
Definition get_all (m : model) : store -> response * store :=
  handle (
    docs <- find_sorted m ;;
    ret (res_json (JTotalData (List.length docs) docs))).

Definition get_conductor_all : store -> response * store := get_all Conductor.
Definition get_ritmo_all : store -> response * store := get_all Ritmo.
Definition get_brujula_all : store -> response * store := get_all Brujula.
Definition get_ubicacion_all : store -> response * store := get_all Ubicacion.

Definition delete_conductor_all : store -> response * store :=
  handle (
    borradoConductores <- deleteMany Conductor ;;
    borradoRitmos <- deleteMany Ritmo ;;
    borradoBrujula <- deleteMany Brujula ;;
    borradoUbicacion <- deleteMany Ubicacion ;;
    ret (res_json (JBorrados "Todos los conductores y lecturas han sido borrados"
                     borradoConductores borradoRitmos borradoBrujula
                     borradoUbicacion))).


(** ** What the statements are written with *)

(** The coming [n] round trips go through. *)
Definition store_answers (n : nat) (s : store) : Prop :=
  Forall (fun f => f = None) (firstn n (faults s)).

(** [s'] holds the same documents as [s]. *)
Definition same_documents (s s' : store) : Prop :=
  forall m, collection m s' = collection m s.

(** [a] is listed before [b]: it was not created earlier. *)
Definition not_older (a b : document) : Prop := createdAt b <= createdAt a.

(** [d] is a most recent document of [conductorId] in the collection of [m]. *)
Definition most_recent (m : model) (conductorId : string) (s : store) (d : document) : Prop :=
  In d (collection m s) /\ matches conductorId d = true /\
  forall d', In d' (collection m s) -> matches conductorId d' = true ->
             createdAt d' <= createdAt d.

(** The driver has no document in the collection of [m]. *)
Definition no_reading (m : model) (conductorId : string) (s : store) : Prop :=
  forall d, In d (collection m s) -> matches conductorId d = false.

(** One field of the combined answer: [null] when the kind has no data,
    else the picked keys of a most recent document. *)
Definition latest_or_null (m : model) (keys : list string) (conductorId : string)
    (s : store) (f : option fields) : Prop :=
  match f with
  | None => no_reading m conductorId s
  | Some fs => exists d, most_recent m conductorId s d /\ fs = pick keys d
  end.

(** [d] is a reading of the driver: its [conductorId] field is that
    string. *)
Definition of_driver (conductorId : string) (d : document) : Prop :=
  field (doc_fields d) "conductorId" = Some (FString conductorId).

(** No document of the collection of [m] is a reading of the driver. *)
Definition driver_has_none (m : model) (conductorId : string) (s : store) : Prop :=
  forall d, In d (collection m s) -> ~ of_driver conductorId d.

(** [d] is a reading of the driver in the collection of [m], and none of
    the driver's readings there was created later. *)
Definition latest_of_driver (m : model) (conductorId : string) (s : store)
    (d : document) : Prop :=
  In d (collection m s) /\ of_driver conductorId d /\
  forall d', In d' (collection m s) -> of_driver conductorId d' ->
             createdAt d' <= createdAt d.

(** [fs] is what is sent of [d] under [keys]: the keys that [d] holds,
    each with the value [d] holds for it and nothing else; when [d]
    holds every key, [fs] is the keys in order, each with its value. *)
Definition sends (keys : list string) (d : document) (fs : fields) : Prop :=
  (forall k v, In (k, v) fs <-> In k keys /\ field (doc_fields d) k = Some v)
  /\ (forall vs, map (field (doc_fields d)) keys = map Some vs ->
                 fs = combine keys vs).

(** One field of the combined answer: [null] when the driver has no
    reading of the kind, else what is sent of a latest reading. *)
Definition latest_sent_or_null (m : model) (keys : list string)
    (conductorId : string) (s : store) (f : option fields) : Prop :=
  match f with
  | None => driver_has_none m conductorId s
  | Some fs => exists d, latest_of_driver m conductorId s d /\ sends keys d fs
  end.

(** The three reading kinds and their routes. *)
Inductive lectura : Type := LRitmo | LBrujula | LUbicacion.

Definition model_of (k : lectura) : model :=
  match k with
  | LRitmo => Ritmo
  | LBrujula => Brujula
  | LUbicacion => Ubicacion
  end.

Definition post_lectura (k : lectura)
  : env -> list (string * value) -> store -> response * store :=
  match k with
  | LRitmo => post_ritmo
  | LBrujula => post_brujula
  | LUbicacion => post_ubicacion
  end.

Definition get_lectura_latest_of (k : lectura) : string -> store -> response * store :=
  match k with
  | LRitmo => get_ritmo_latest
  | LBrujula => get_brujula_latest
  | LUbicacion => get_ubicacion_latest
  end.

(** The four listings by model. *)
Definition get_all_of (m : model) : store -> response * store :=
  match m with
  | Conductor => get_conductor_all
  | Ritmo => get_ritmo_all
  | Brujula => get_brujula_all
  | Ubicacion => get_ubicacion_all
  end.

(** What validation reports on one path of a document built from [o]. *)
Definition check (e : env) (o : list (string * value)) (kp : string * schemapath)
  : option verror :=
  match path_value e (snd kp) (prop o (fst kp)) with
  | CastError => Some ECast
  | Cast v => validate_path (snd kp) (Some v)
  | Nullish => validate_path (snd kp) None
  end.

Definition checks (e : env) (sch : schema) (o : list (string * value))
  : list (string * verror) :=
  flat_map (fun kp => match check e o kp with
                      | Some err => [(fst kp, err)]
                      | None => []
                      end) sch.

(** The document [save] inserts for [new Model(o)] built in store [s]. *)
Definition created (e : env) (m : model) (o : list (string * value)) (s : store)
  : document :=
  {| _id := next_id s; doc_fields := fst (build e (schema_of m) o);
     createdAt := now_save e; updatedAt := now_save e; __v := 0 |}.

(** What [new Model(o)], [save()] and the 201 answer amount to. *)
Definition create_outcome (m : model) (e : env) (o : list (string * value))
    (msg : string) (s : store) : response * store :=
  let s1 := set_next_id (N.succ (next_id s)) s in
  match checks e (schema_of m) o with
  | [] =>
      match faults s with
      | Some err :: rest =>
          (res_status_json 500 (JError (Text err)), set_faults rest s1)
      | _ =>
          (res_status_json 201 (JMessageData msg (created e m o s)),
           set_collection m (collection m s ++ [created e m o s])
             (set_faults (tl (faults s)) s1))
      end
  | errs => (res_status_json 500 (JError (ValidationFailed (modelName m) errs)), s1)
  end.

(** The store once a round trip has been spent. *)
Definition after_roundtrip (s : store) : store := set_faults (tl (faults s)) s.

(** The store emptied of its four collections, four round trips later. *)
Definition purged (s : store) : store :=
  {| conductores := []; ritmos := []; brujulas := []; ubicaciones := [];
     next_id := next_id s; faults := skipn 4 (faults s) |}.

(** ** The application *)

(** A request that Express has matched to one of the registered routes,
    with what the handler reads from it. *)
Inductive request : Type :=
| GET_health
| POST_conductor (req_body : list (string * value))
| POST_ritmo (req_body : list (string * value))
| POST_brujula (req_body : list (string * value))
| POST_ubicacion (req_body : list (string * value))
| GET_ritmo_latest (conductorId : string)
| GET_brujula_latest (conductorId : string)
| GET_ubicacion_latest (conductorId : string)
| GET_lectura_latest (conductorId : string)
| GET_conductor_all
| GET_ritmo_all
| GET_brujula_all
| GET_ubicacion_all
| DELETE_conductor_all.

(** The routes of [app], each with its handler. *)
Definition app (e : env) (r : request) : store -> response * store :=
  match r with
  | GET_health => get_health e
  | POST_conductor req_body => post_conductor e req_body
  | POST_ritmo req_body => post_ritmo e req_body
  | POST_brujula req_body => post_brujula e req_body
  | POST_ubicacion req_body => post_ubicacion e req_body
  | GET_ritmo_latest conductorId => get_ritmo_latest conductorId
  | GET_brujula_latest conductorId => get_brujula_latest conductorId
  | GET_ubicacion_latest conductorId => get_ubicacion_latest conductorId
  | GET_lectura_latest conductorId => get_lectura_latest e conductorId
  | GET_conductor_all => get_conductor_all
  | GET_ritmo_all => get_ritmo_all
  | GET_brujula_all => get_brujula_all
  | GET_ubicacion_all => get_ubicacion_all
  | DELETE_conductor_all => delete_conductor_all
  end.

(** Requests served one after the other, each with what the process
    shows while it is served. *)
Fixpoint serve (rs : list (env * request)) (s : store) : list response * store :=
  match rs with
  | [] => ([], s)
  | (e, r) :: rest =>
      let '(answer, s1) := app e r s in
      let '(answers, s2) := serve rest s1 in
      (answer :: answers, s2)
  end.

(** The GET routes that make one query: the three latest readings and
    the four listings. *)
Definition one_query (r : request) : bool :=
  match r with
  | GET_ritmo_latest _ | GET_brujula_latest _ | GET_ubicacion_latest _
  | GET_conductor_all | GET_ritmo_all | GET_brujula_all | GET_ubicacion_all => true
  | _ => false
  end.

Definition is_get (r : request) : bool :=
  match r with
  | GET_health | GET_lectura_latest _ => true
  | _ => one_query r
  end.

Definition is_delete (r : request) : bool :=
  match r with
  | DELETE_conductor_all => true
  | _ => false
  end.

(** The creating route of each model. *)
Definition post_of (m : model)
  : env -> list (string * value) -> store -> response * store :=
  match m with
  | Conductor => post_conductor
  | Ritmo => post_ritmo
  | Brujula => post_brujula
  | Ubicacion => post_ubicacion
  end.

(** The test before [new Model(...)] in the creating route of [m]. *)
Definition refused (m : model) (req_body : list (string * value)) : bool :=
  match m with
  | Conductor =>
      negb (truthy (prop req_body "nombre")) || negb (truthy (prop req_body "edad"))
      || negb (truthy (prop req_body "sexo")) || negb (truthy (prop req_body "turno"))
      || negb (truthy (prop req_body "enfermedad"))
  | Ritmo =>
      negb (truthy (prop req_body "conductorId"))
      || negb (typeof_number (prop req_body "bpm"))
  | Brujula =>
      negb (truthy (prop req_body "conductorId"))
      || negb (typeof_number (prop req_body "compass"))
  | Ubicacion =>
      negb (truthy (prop req_body "conductorId"))
      || is_undefined (prop req_body "latitud")
      || is_undefined (prop req_body "longitud")
  end.

(** The 400 message of the creating route of [m]. *)
Definition refusal (m : model) : string :=
  match m with
  | Conductor => "Todos los campos son requeridos"
  | Ritmo => "conductorId y bpm son requeridos"
  | Brujula => "conductorId y compass son requeridos"
  | Ubicacion => "conductorId, latitud y longitud son requeridos"
  end.

(** The object the creating route of [m] hands to [new Model(...)]. *)
Definition constructed (m : model) (req_body : list (string * value))
  : list (string * value) :=
  match m with
  | Conductor =>
      [("nombre", prop req_body "nombre"); ("edad", prop req_body "edad");
       ("sexo", prop req_body "sexo"); ("turno", prop req_body "turno");
       ("enfermedad", prop req_body "enfermedad")]
  | Ritmo =>
      [("conductorId", prop req_body "conductorId"); ("bpm", prop req_body "bpm")]
  | Brujula =>
      [("conductorId", prop req_body "conductorId");
       ("compass", prop req_body "compass")]
  | Ubicacion =>
      [("conductorId", prop req_body "conductorId");
       ("latitud", prop req_body "latitud"); ("longitud", prop req_body "longitud")]
  end.

(** The 201 message of the creating route of [m]. *)
Definition saved_message (m : model) : string :=
  match m with
  | Conductor => "Conductor creado"
  | Ritmo => "Ritmo guardado"
  | Brujula => "Brújula guardada"
  | Ubicacion => "Ubicación guardada"
  end.

(** The rank of a model in the order the bulk reset deletes. *)
Definition deletion_rank (m : model) : nat :=
  match m with
  | Conductor => 0
  | Ritmo => 1
  | Brujula => 2
  | Ubicacion => 3
  end.

(** The statuses each route can answer with. *)
Definition statuses (r : request) : list Z :=
  match r with
  | GET_health => [200]
  | POST_conductor _ | POST_ritmo _ | POST_brujula _ | POST_ubicacion _ =>
      [201; 400; 500]
  | GET_ritmo_latest _ | GET_brujula_latest _ | GET_ubicacion_latest _
  | GET_lectura_latest _ => [200; 404; 500]
  | GET_conductor_all | GET_ritmo_all | GET_brujula_all | GET_ubicacion_all
  | DELETE_conductor_all => [200; 500]
  end.

(** The body is [{ error: ... }]. *)
Definition is_error (b : json) : bool :=
  match b with
  | JError _ => true
  | _ => false
  end.

(** ** Sorting by [createdAt] *)

Lemma insert_desc_perm (d : document) (l : list document) :
  Permutation (d :: l) (insert_desc d l).
Proof.
  induction l as [|x l IH]; simpl.
  - apply Permutation_refl.
  - destruct (createdAt x <=? createdAt d).
    + apply Permutation_refl.
    + eapply perm_trans; [apply perm_swap|].
      now apply perm_skip.
Qed.

Lemma sort_desc_perm (l : list document) : Permutation l (sort_desc l).
Proof.
  induction l as [|d l IH]; simpl.
  - constructor.
  - eapply perm_trans; [apply perm_skip, IH|].
    apply insert_desc_perm.
Qed.

Lemma insert_desc_sorted (d : document) (l : list document) :
  Sorted not_older l -> Sorted not_older (insert_desc d l).
Proof.
  induction l as [|x l IH]; simpl; intros Hs.
  - repeat constructor.
  - destruct (createdAt x <=? createdAt d) eqn:E.
    + constructor; [assumption|].
      constructor. unfold not_older. lia.
    + inversion Hs as [|? ? Hl Hhd]; subst.
      constructor; [now apply IH|].
      destruct l as [|y l]; simpl.
      * constructor. unfold not_older. lia.
      * destruct (createdAt y <=? createdAt d).
        -- constructor. unfold not_older. lia.
        -- inversion Hhd; subst. now constructor.
Qed.

Lemma sort_desc_sorted (l : list document) : Sorted not_older (sort_desc l).
Proof.
  induction l as [|d l IH]; simpl.
  - constructor.
  - now apply insert_desc_sorted.
Qed.

Lemma not_older_trans : Relations_1.Transitive not_older.
Proof. intros a b c; unfold not_older; lia. Qed.

Lemma sort_desc_strongly_sorted (l : list document) :
  StronglySorted not_older (sort_desc l).
Proof.
  apply Sorted_StronglySorted; [exact not_older_trans | apply sort_desc_sorted].
Qed.

(** The head of a sorted list is a most recent element of the list. *)
Lemma sort_desc_head (l : list document) (d : document) :
  hd_error (sort_desc l) = Some d ->
  In d l /\ forall d', In d' l -> createdAt d' <= createdAt d.
Proof.
  intros H.
  pose proof (sort_desc_perm l) as P.
  pose proof (sort_desc_strongly_sorted l) as S.
  destruct (sort_desc l) as [|x r]; simpl in H; [discriminate|].
  injection H as ->.
  split.
  - eapply Permutation_in; [apply Permutation_sym, P | now left].
  - intros d' Hd'.
    apply (Permutation_in _ P) in Hd'.
    inversion S as [|? ? _ Hall]; subst.
    destruct Hd' as [->|Hin]; [lia|].
    rewrite Forall_forall in Hall. exact (Hall _ Hin).
Qed.

Lemma sort_desc_nil (l : list document) : sort_desc l = [] -> l = [].
Proof.
  intros H. pose proof (sort_desc_perm l) as P. rewrite H in P.
  now apply Permutation_sym, Permutation_nil in P.
Qed.

Lemma latest_doc_Some (m : model) (cid : string) (s : store) (d : document) :
  latest_doc m cid s = Some d -> most_recent m cid s d.
Proof.
  unfold latest_doc, most_recent. intros H.
  apply sort_desc_head in H. destruct H as [Hin Hmax].
  apply filter_In in Hin. destruct Hin as [Hin Hm].
  repeat split; try assumption.
  intros d' Hd' Hm'. apply Hmax. apply filter_In. now split.
Qed.

Lemma latest_doc_None (m : model) (cid : string) (s : store) :
  latest_doc m cid s = None <-> no_reading m cid s.
Proof.
  unfold latest_doc, no_reading. split.
  - intros H d Hin.
    destruct (sort_desc (filter (matches cid) (collection m s))) as [|x r] eqn:E;
      [|discriminate].
    apply sort_desc_nil in E.
    destruct (matches cid d) eqn:Hm; [|reflexivity].
    assert (In d (filter (matches cid) (collection m s))) as Hf
      by (apply filter_In; now split).
    rewrite E in Hf. destruct Hf.
  - intros H.
    assert (filter (matches cid) (collection m s) = []) as ->.
    { induction (collection m s) as [|x l IH]; simpl; [reflexivity|].
      rewrite (H x (or_introl eq_refl)). apply IH.
      intros d Hd. apply H. now right. }
    reflexivity.
Qed.

Lemma most_recent_has_reading (m : model) (cid : string) (s : store) (d : document) :
  most_recent m cid s d -> ~ no_reading m cid s.
Proof.
  intros (Hin & Hm & _) Hno. rewrite (Hno d Hin) in Hm. discriminate.
Qed.

(** ** Construction and validation, path by path *)

Lemma build_field_notin (e : env) (o : list (string * value)) (k : string) (sch : schema) :
  ~ In k (map fst sch) -> field (fst (build e sch o)) k = None.
Proof.
  induction sch as [|[k0 p0] rest IH]; simpl; intros Hn; [reflexivity|].
  destruct (build e rest o) as [fs es] eqn:B. simpl in IH.
  assert (k <> k0) as Hk by (intros ->; apply Hn; now left).
  assert (field fs k = None) as Hf by (apply IH; tauto).
  destruct (path_value e p0 (prop o k0)); simpl; try assumption.
  destruct (String.eqb_spec k k0); [contradiction | assumption].
Qed.

Lemma build_failed_notin (e : env) (o : list (string * value)) (k : string) (sch : schema) :
  ~ In k (map fst sch) -> cast_failed (snd (build e sch o)) k = false.
Proof.
  induction sch as [|[k0 p0] rest IH]; simpl; intros Hn; [reflexivity|].
  destruct (build e rest o) as [fs es] eqn:B. simpl in IH.
  assert (k <> k0) as Hk by (intros ->; apply Hn; now left).
  assert (cast_failed es k = false) as Hf by (apply IH; tauto).
  destruct (path_value e p0 (prop o k0)); simpl; try assumption.
  unfold cast_failed in *. simpl.
  destruct (String.eqb_spec k k0); [contradiction | assumption].
Qed.

Lemma build_field (e : env) (o : list (string * value)) (k : string) (p : schemapath)
    (sch : schema) :
  NoDup (map fst sch) -> In (k, p) sch ->
  field (fst (build e sch o)) k =
    match path_value e p (prop o k) with
    | Cast v => Some v
    | _ => None
    end.
Proof.
  induction sch as [|[k0 p0] rest IH]; simpl; intros Hnd Hin; [contradiction|].
  inversion Hnd as [|? ? Hnotin Hnd']; subst.
  destruct (build e rest o) as [fs es] eqn:B. simpl in IH.
  destruct Hin as [Heq|Hin].
  - injection Heq as -> ->.
    pose proof (build_field_notin e o k rest Hnotin) as Hf. rewrite B in Hf. simpl in Hf.
    destruct (path_value e p (prop o k)); simpl; try assumption.
    now rewrite String.eqb_refl.
  - assert (k <> k0) as Hk.
    { intros ->. apply Hnotin. apply in_map_iff. now exists (k0, p). }
    specialize (IH Hnd' Hin).
    destruct (path_value e p0 (prop o k0)); simpl; try assumption.
    destruct (String.eqb_spec k k0); [contradiction | assumption].
Qed.

Lemma build_failed (e : env) (o : list (string * value)) (k : string) (p : schemapath)
    (sch : schema) :
  NoDup (map fst sch) -> In (k, p) sch ->
  cast_failed (snd (build e sch o)) k =
    match path_value e p (prop o k) with
    | CastError => true
    | _ => false
    end.
Proof.
  induction sch as [|[k0 p0] rest IH]; simpl; intros Hnd Hin; [contradiction|].
  inversion Hnd as [|? ? Hnotin Hnd']; subst.
  destruct (build e rest o) as [fs es] eqn:B. simpl in IH.
  destruct Hin as [Heq|Hin].
  - injection Heq as -> ->.
    pose proof (build_failed_notin e o k rest Hnotin) as Hf. rewrite B in Hf. simpl in Hf.
    destruct (path_value e p (prop o k)); simpl; try assumption.
    unfold cast_failed. simpl. now rewrite String.eqb_refl.
  - assert (k <> k0) as Hk.
    { intros ->. apply Hnotin. apply in_map_iff. now exists (k0, p). }
    specialize (IH Hnd' Hin).
    destruct (path_value e p0 (prop o k0)); simpl; try assumption.
    unfold cast_failed in *. simpl.
    destruct (String.eqb_spec k k0); [contradiction | assumption].
Qed.

Lemma validate_checks (e : env) (o : list (string * value)) (sch : schema) (i : N) :
  NoDup (map fst sch) ->
  forall part : schema, incl part sch ->
  validate part {| d_id := i; d_fields := fst (build e sch o);
                   d_errors := snd (build e sch o) |}
  = checks e part o.
Proof.
  intros Hnd part. induction part as [|[k p] rest IH]; intros Hincl; [reflexivity|].
  assert (In (k, p) sch) as Hin by (apply Hincl; now left).
  assert (incl rest sch) as Hrest by (intros x Hx; apply Hincl; now right).
  specialize (IH Hrest).
  unfold checks in *. simpl validate. simpl flat_map. rewrite IH.
  rewrite (build_failed e o k p sch Hnd Hin), (build_field e o k p sch Hnd Hin).
  unfold check. cbn [fst snd].
  destruct (path_value e p (prop o k)) as [v| |];
    [destruct (validate_path p (Some v)) | destruct (validate_path p None) | ];
    reflexivity.
Qed.

Lemma schema_keys_NoDup (m : model) : NoDup (map fst (schema_of m)).
Proof.
  destruct m; simpl; repeat constructor; simpl; intuition discriminate.
Qed.

Lemma validate_new (e : env) (m : model) (o : list (string * value)) (i : N) :
  validate (schema_of m) {| d_id := i; d_fields := fst (build e (schema_of m) o);
                            d_errors := snd (build e (schema_of m) o) |}
  = checks e (schema_of m) o.
Proof.
  apply validate_checks; [apply schema_keys_NoDup | apply incl_refl].
Qed.

(** [new Model(o)] followed by [save()], in one step. *)
Lemma new_then_save {A : Type} (m : model) (e : env) (o : list (string * value))
    (k : document -> M A) (s : store) :
  bind (new_doc m e o) (fun d => bind (save m e d) k) s =
  let s1 := set_next_id (N.succ (next_id s)) s in
  match checks e (schema_of m) o with
  | [] =>
      match faults s with
      | Some msg :: rest => (inr (Text msg), set_faults rest s1)
      | _ =>
          k (created e m o s)
            (set_collection m (collection m s ++ [created e m o s])
               (set_faults (tl (faults s)) s1))
      end
  | errs => (inr (ValidationFailed (modelName m) errs), s1)
  end.
Proof.
  unfold bind at 1. unfold new_doc.
  destruct (build e (schema_of m) o) as [fs es] eqn:B.
  unfold save.
  pose proof (validate_new e m o (next_id s)) as V. rewrite B in V. simpl in V.
  rewrite V. cbv zeta.
  destruct (checks e (schema_of m) o) as [|err errs]; [|reflexivity].
  unfold created. rewrite B. simpl fst.
  unfold bind, roundtrip.
  destruct s as [c r b u i f]; simpl.
  destruct f as [|[msg|] rest]; simpl; try reflexivity.
  all: destruct m; reflexivity.
Qed.

(** ** Round trips *)

Lemma firstn_In_le {A : Type} (x : A) (l : list A) :
  forall k n : nat, (k <= n)%nat -> In x (firstn k l) -> In x (firstn n l).
Proof.
  induction l as [|a l IH]; intros k n Hle Hx.
  - destruct k; simpl in Hx; tauto.
  - destruct k as [|k]; simpl in Hx; [tauto|].
    destruct n as [|n]; [lia|]. simpl.
    destruct Hx as [->|Hx]; [now left|].
    right. apply (IH k n); [lia | assumption].
Qed.

Lemma store_answers_le (n k : nat) (s : store) :
  (k <= n)%nat -> store_answers n s -> store_answers k s.
Proof.
  unfold store_answers. intros Hle H.
  rewrite Forall_forall in *. intros x Hx. apply H.
  now apply (firstn_In_le x (faults s) k n).
Qed.


(** ** The creating routes, unfolded *)

Lemma handle_create (m : model) (e : env) (o : list (string * value)) (msg : string)
    (s : store) :
  handle (bind (new_doc m e o) (fun d =>
          bind (save m e d) (fun saved =>
          ret (res_status_json 201 (JMessageData msg saved))))) s
  = create_outcome m e o msg s.
Proof.
  unfold handle. rewrite new_then_save. unfold create_outcome. cbv zeta.
  destruct (checks e (schema_of m) o); [|reflexivity].
  destruct (faults s) as [|[err|] rest]; reflexivity.
Qed.

Lemma handle_if (c : bool) (r : response) (m : M response) (s : store) :
  handle (if c then ret r else m) s = if c then (r, s) else handle m s.
Proof. destruct c; reflexivity. Qed.

Lemma post_conductor_run (e : env) (req_body : list (string * value)) (s : store) :
  post_conductor e req_body s =
  let nombre := prop req_body "nombre" in
  let edad := prop req_body "edad" in
  let sexo := prop req_body "sexo" in
  let turno := prop req_body "turno" in
  let enfermedad := prop req_body "enfermedad" in
  if negb (truthy nombre) || negb (truthy edad) || negb (truthy sexo)
     || negb (truthy turno) || negb (truthy enfermedad)
  then (res_status_json 400 (JError (Text "Todos los campos son requeridos")), s)
  else create_outcome Conductor e
         [("nombre", nombre); ("edad", edad); ("sexo", sexo);
          ("turno", turno); ("enfermedad", enfermedad)]
         "Conductor creado" s.
Proof.
  unfold post_conductor. cbv zeta. rewrite handle_if, handle_create. reflexivity.
Qed.

Lemma post_ritmo_run (e : env) (req_body : list (string * value)) (s : store) :
  post_ritmo e req_body s =
  let conductorId := prop req_body "conductorId" in
  let bpm := prop req_body "bpm" in
  if negb (truthy conductorId) || negb (typeof_number bpm)
  then (res_status_json 400 (JError (Text "conductorId y bpm son requeridos")), s)
  else create_outcome Ritmo e [("conductorId", conductorId); ("bpm", bpm)]
         "Ritmo guardado" s.
Proof.
  unfold post_ritmo. cbv zeta. rewrite handle_if, handle_create. reflexivity.
Qed.

Lemma post_brujula_run (e : env) (req_body : list (string * value)) (s : store) :
  post_brujula e req_body s =
  let conductorId := prop req_body "conductorId" in
  let compass := prop req_body "compass" in
  if negb (truthy conductorId) || negb (typeof_number compass)
  then (res_status_json 400 (JError (Text "conductorId y compass son requeridos")), s)
  else create_outcome Brujula e [("conductorId", conductorId); ("compass", compass)]
         "Brújula guardada" s.
Proof.
  unfold post_brujula. cbv zeta. rewrite handle_if, handle_create. reflexivity.
Qed.

Lemma post_ubicacion_run (e : env) (req_body : list (string * value)) (s : store) :
  post_ubicacion e req_body s =
  let conductorId := prop req_body "conductorId" in
  let latitud := prop req_body "latitud" in
  let longitud := prop req_body "longitud" in
  if negb (truthy conductorId) || is_undefined latitud || is_undefined longitud
  then (res_status_json 400
          (JError (Text "conductorId, latitud y longitud son requeridos")), s)
  else create_outcome Ubicacion e
         [("conductorId", conductorId); ("latitud", latitud); ("longitud", longitud)]
         "Ubicación guardada" s.
Proof.
  unfold post_ubicacion. cbv zeta. rewrite handle_if, handle_create. reflexivity.
Qed.

Lemma set_collection_same (m : model) (l : list document) (s : store) :
  collection m (set_collection m l s) = l.
Proof. destruct m; reflexivity. Qed.

Lemma set_collection_other (m m' : model) (l : list document) (s : store) :
  m' <> m -> collection m' (set_collection m l s) = collection m' s.
Proof. destruct m, m'; intros H; try reflexivity; contradiction. Qed.

(** Validation passed and the store answered: the document is there. *)
Lemma create_outcome_ok (m : model) (e : env) (o : list (string * value)) (msg : string)
    (s : store) :
  checks e (schema_of m) o = [] -> store_answers 1 s ->
  fst (create_outcome m e o msg s)
    = res_status_json 201 (JMessageData msg (created e m o s))
  /\ collection m (snd (create_outcome m e o msg s))
     = (collection m s ++ [created e m o s])%list
  /\ (forall m', m' <> m ->
        collection m' (snd (create_outcome m e o msg s)) = collection m' s)
  /\ faults (snd (create_outcome m e o msg s)) = tl (faults s).
Proof.
  intros Hc Ha. unfold create_outcome. rewrite Hc. cbv zeta.
  unfold store_answers in Ha.
  destruct (faults s) as [|[err|] rest] eqn:F; simpl in Ha;
    cbv iota beta; cbn [fst snd tl].
  - split; [reflexivity | split; [|split]].
    + apply set_collection_same.
    + intros m' Hm. now rewrite set_collection_other.
    + destruct m; reflexivity.
  - inversion Ha; discriminate.
  - split; [reflexivity | split; [|split]].
    + apply set_collection_same.
    + intros m' Hm. now rewrite set_collection_other.
    + destruct m; reflexivity.
Qed.

(** Validation failed: 500 with the validation message, nothing stored. *)
Lemma create_outcome_invalid (m : model) (e : env) (o : list (string * value))
    (msg : string) (s : store) (err : string * verror) :
  In err (checks e (schema_of m) o) ->
  fst (create_outcome m e o msg s)
    = res_status_json 500
        (JError (ValidationFailed (modelName m) (checks e (schema_of m) o)))
  /\ same_documents s (snd (create_outcome m e o msg s)).
Proof.
  intros Hin. unfold create_outcome. cbv zeta.
  destruct (checks e (schema_of m) o) as [|x l]; [destruct Hin|].
  split; [reflexivity|]. intros []; reflexivity.
Qed.

(** A 201 answer: validation had passed and the document was appended. *)
Lemma create_outcome_201 (m : model) (e : env) (o : list (string * value)) (msg : string)
    (s : store) :
  status (fst (create_outcome m e o msg s)) = 201 ->
  checks e (schema_of m) o = []
  /\ fst (create_outcome m e o msg s)
     = res_status_json 201 (JMessageData msg (created e m o s))
  /\ collection m (snd (create_outcome m e o msg s))
     = (collection m s ++ [created e m o s])%list
  /\ faults (snd (create_outcome m e o msg s)) = tl (faults s).
Proof.
  unfold create_outcome. cbv zeta.
  destruct (checks e (schema_of m) o) as [|x l]; [|simpl; discriminate].
  destruct (faults s) as [|[err|] rest] eqn:F; cbv iota beta; cbn [fst snd tl status];
    intros H; try discriminate.
  - split; [reflexivity | split; [reflexivity | split]];
      [apply set_collection_same | destruct m; reflexivity].
  - split; [reflexivity | split; [reflexivity | split]];
      [apply set_collection_same | destruct m; reflexivity].
Qed.

(** [save] answers 201 or 500, never 400. *)
Lemma create_outcome_status (m : model) (e : env) (o : list (string * value))
    (msg : string) (s : store) :
  status (fst (create_outcome m e o msg s)) = 201
  \/ status (fst (create_outcome m e o msg s)) = 500.
Proof.
  unfold create_outcome. cbv zeta.
  destruct (checks e (schema_of m) o); [|right; reflexivity].
  destruct (faults s) as [|[err|] rest]; [left | right | left]; reflexivity.
Qed.

(** The registration is answered 400 exactly when one of the five
    fields is falsy: missing, [null], [false], the empty string, or a
    zero. *)
Lemma post_conductor_400_iff (e : env) (req_body : list (string * value)) (s : store) :
  status (fst (post_conductor e req_body s)) = 400
  <-> truthy (prop req_body "nombre") && truthy (prop req_body "edad")
      && truthy (prop req_body "sexo") && truthy (prop req_body "turno")
      && truthy (prop req_body "enfermedad") = false.
Proof.
  rewrite post_conductor_run. cbv zeta.
  destruct (truthy (prop req_body "nombre")), (truthy (prop req_body "edad")),
    (truthy (prop req_body "sexo")), (truthy (prop req_body "turno")),
    (truthy (prop req_body "enfermedad")); cbn [negb orb andb fst status res_status_json];
    try (split; reflexivity).
  split; [|discriminate].
  intros H.
  destruct (create_outcome_status Conductor e
              [("nombre", prop req_body "nombre"); ("edad", prop req_body "edad");
               ("sexo", prop req_body "sexo"); ("turno", prop req_body "turno");
               ("enfermedad", prop req_body "enfermedad")]
              "Conductor creado" s) as [E|E]; rewrite E in H; discriminate H.
Qed.

(** A [bpm] or [compass] that is not a number is answered 400. *)
Lemma post_ritmo_wrong_type (e : env) (req_body : list (string * value)) (s : store) :
  typeof_number (prop req_body "bpm") = false ->
  post_ritmo e req_body s
  = (res_status_json 400 (JError (Text "conductorId y bpm son requeridos")), s).
Proof.
  intros H. rewrite post_ritmo_run. cbv zeta. rewrite H.
  now rewrite orb_true_r.
Qed.

Lemma post_brujula_wrong_type (e : env) (req_body : list (string * value)) (s : store) :
  typeof_number (prop req_body "compass") = false ->
  post_brujula e req_body s
  = (res_status_json 400 (JError (Text "conductorId y compass son requeridos")), s).
Proof.
  intros H. rewrite post_brujula_run. cbv zeta. rewrite H.
  now rewrite orb_true_r.
Qed.

(** A [latitud] and a [longitud] of any type, provided they are there,
    pass the handler of /ubicacion: the answer is 201 or 500. *)
Lemma post_ubicacion_defined_not_400 (e : env) (req_body : list (string * value))
    (s : store) :
  truthy (prop req_body "conductorId") = true ->
  is_undefined (prop req_body "latitud") = false ->
  is_undefined (prop req_body "longitud") = false ->
  status (fst (post_ubicacion e req_body s)) = 201
  \/ status (fst (post_ubicacion e req_body s)) = 500.
Proof.
  intros Hc Hlat Hlon. rewrite post_ubicacion_run. cbv zeta.
  rewrite Hc, Hlat, Hlon. cbn [negb orb]. apply create_outcome_status.
Qed.

Lemma num_lt_zero (n : number) :
  num_lt n zero = true -> isNaN n = false /\ num_ge n zero = false.
Proof.
  unfold num_lt, num_ge, zero, SFltb, SFleb.
  destruct n as [sg|sg| |sg mant ex]; simpl; try discriminate.
  - destruct sg; simpl; [auto | discriminate].
  - destruct sg; simpl; [auto | discriminate].
Qed.

Lemma In_checks (e : env) (sch : schema) (o : list (string * value))
    (k : string) (p : schemapath) (err : verror) :
  In (k, p) sch -> check e o (k, p) = Some err -> In (k, err) (checks e sch o).
Proof.
  intros Hin Hc. unfold checks. apply in_flat_map.
  exists (k, p). split; [assumption|]. rewrite Hc. now left.
Qed.

Lemma truthy_string (x : string) : x <> "" -> truthy (VStr x) = true.
Proof.
  intros H. simpl. destruct (String.eqb_spec x ""); [contradiction | reflexivity].
Qed.


(** ** Reading ingestion *)

Lemma eqb_empty (x : string) : x <> "" -> String.eqb x "" = false.
Proof. intros H. destruct (String.eqb_spec x ""); [contradiction | reflexivity]. Qed.

(** C1: for the three reading kinds, a POST with a non-empty string
    [conductorId] and a value of exactly zero (of either sign) passes the
    handler's check and the schema's validation: when the store answers,
    the response is 201 with the saved reading, which holds the zero. *)
Theorem zero_reading_is_accepted
    (e : env) (req_body : list (string * value)) (s : store)
    (cid : string) (sg sg' : bool) :
  prop req_body "conductorId" = VStr cid -> cid <> "" -> store_answers 1 s ->
  (prop req_body "bpm" = VNum (S754_zero sg) ->
   exists d,
     fst (post_ritmo e req_body s)
       = res_status_json 201 (JMessageData "Ritmo guardado" d)
     /\ doc_fields d = [("conductorId", FString cid);
                        ("bpm", FNumber (S754_zero sg));
                        ("fecha", FDate (now e))]
     /\ ritmos (snd (post_ritmo e req_body s)) = (ritmos s ++ [d])%list)
  /\ (prop req_body "compass" = VNum (S754_zero sg) ->
      exists d,
        fst (post_brujula e req_body s)
          = res_status_json 201 (JMessageData "Brújula guardada" d)
        /\ doc_fields d = [("conductorId", FString cid);
                           ("compass", FNumber (S754_zero sg));
                           ("fecha", FDate (now e))]
        /\ brujulas (snd (post_brujula e req_body s)) = (brujulas s ++ [d])%list)
  /\ (prop req_body "latitud" = VNum (S754_zero sg) ->
      prop req_body "longitud" = VNum (S754_zero sg') ->
      exists d,
        fst (post_ubicacion e req_body s)
          = res_status_json 201 (JMessageData "Ubicación guardada" d)
        /\ doc_fields d = [("conductorId", FString cid);
                           ("latitud", FNumber (S754_zero sg));
                           ("longitud", FNumber (S754_zero sg'));
                           ("fecha", FDate (now e))]
        /\ ubicaciones (snd (post_ubicacion e req_body s))
           = (ubicaciones s ++ [d])%list).
Proof.
  intros Hcid Hne Ha.
  pose proof (eqb_empty cid Hne) as Hemp.
  pose proof (truthy_string cid Hne) as Htr.
  split; [|split].
  - intros Hbpm. rewrite post_ritmo_run. cbv zeta. rewrite Hcid, Hbpm, Htr.
    cbn [negb orb typeof_number].
    set (o := [("conductorId", VStr cid); ("bpm", VNum (S754_zero sg))]).
    assert (checks e (schema_of Ritmo) o = []) as Hc
      by (subst o; cbn; rewrite Hemp; destruct sg; reflexivity).
    destruct (create_outcome_ok Ritmo e o "Ritmo guardado" s Hc Ha)
      as (Hr & Hcol & _ & _).
    exists (created e Ritmo o s). split; [exact Hr|]. split; [|exact Hcol].
    subst o. reflexivity.
  - intros Hcompass. rewrite post_brujula_run. cbv zeta.
    rewrite Hcid, Hcompass, Htr. cbn [negb orb typeof_number].
    set (o := [("conductorId", VStr cid); ("compass", VNum (S754_zero sg))]).
    assert (checks e (schema_of Brujula) o = []) as Hc
      by (subst o; cbn; rewrite Hemp; reflexivity).
    destruct (create_outcome_ok Brujula e o "Brújula guardada" s Hc Ha)
      as (Hr & Hcol & _ & _).
    exists (created e Brujula o s). split; [exact Hr|]. split; [|exact Hcol].
    subst o. reflexivity.
  - intros Hlat Hlon. rewrite post_ubicacion_run. cbv zeta.
    rewrite Hcid, Hlat, Hlon, Htr. cbn [negb orb is_undefined].
    set (o := [("conductorId", VStr cid); ("latitud", VNum (S754_zero sg));
               ("longitud", VNum (S754_zero sg'))]).
    assert (checks e (schema_of Ubicacion) o = []) as Hc
      by (subst o; cbn; rewrite Hemp; reflexivity).
    destruct (create_outcome_ok Ubicacion e o "Ubicación guardada" s Hc Ha)
      as (Hr & Hcol & _ & _).
    exists (created e Ubicacion o s). split; [exact Hr|]. split; [|exact Hcol].
    subst o. reflexivity.
Qed.


(** C10: the handlers check neither ranges nor enumerations.  A POST
    /ritmo with a truthy [conductorId] and a negative [bpm], and a POST
    /conductor with truthy fields whose [sexo] is a non-empty string
    outside the enumeration, are not answered 400: they reach [save],
    whose validation fails, and the answer is 500 carrying the
    validation message; nothing is stored. *)
Theorem range_and_enum_left_to_the_store
    (e : env) (req_body : list (string * value)) (s : store) :
  (forall bpm : number,
      truthy (prop req_body "conductorId") = true ->
      prop req_body "bpm" = VNum bpm ->
      num_lt bpm zero = true ->
      exists errs,
        fst (post_ritmo e req_body s)
          = res_status_json 500 (JError (ValidationFailed "Ritmo" errs))
        /\ In ("bpm", EMin) errs
        /\ same_documents s (snd (post_ritmo e req_body s)))
  /\ (forall x : string,
      truthy (prop req_body "nombre") = true ->
      truthy (prop req_body "edad") = true ->
      truthy (prop req_body "turno") = true ->
      truthy (prop req_body "enfermedad") = true ->
      prop req_body "sexo" = VStr x ->
      x <> "" -> x <> "Masculino" -> x <> "Femenino" ->
      exists errs,
        fst (post_conductor e req_body s)
          = res_status_json 500 (JError (ValidationFailed "Conductor" errs))
        /\ In ("sexo", EEnum) errs
        /\ same_documents s (snd (post_conductor e req_body s))).
Proof.
  split.
  - intros bpm Hcid Hbpm Hneg.
    destruct (num_lt_zero bpm Hneg) as [Hnan Hge].
    rewrite post_ritmo_run. cbv zeta. rewrite Hcid, Hbpm.
    cbn [negb orb typeof_number].
    set (o := [("conductorId", prop req_body "conductorId"); ("bpm", VNum bpm)]).
    assert (In ("bpm", EMin) (checks e (schema_of Ritmo) o)) as Hin.
    { apply In_checks with (p := with_min zero (with_required (path TNumber))).
      - simpl. right. left. reflexivity.
      - subst o. unfold check. cbn -[num_ge isNaN zero].
        rewrite Hnan, Hge. reflexivity. }
    destruct (create_outcome_invalid Ritmo e o "Ritmo guardado" s _ Hin) as [Hr Hs].
    eexists. split; [exact Hr|]. split; assumption.
  - intros x Hn He Ht Hf Hsexo Hne HnM HnF.
    rewrite post_conductor_run. cbv zeta. rewrite Hn, He, Ht, Hf, Hsexo.
    rewrite (truthy_string x Hne). cbn [negb orb].
    set (o := [("nombre", prop req_body "nombre"); ("edad", prop req_body "edad");
               ("sexo", VStr x); ("turno", prop req_body "turno");
               ("enfermedad", prop req_body "enfermedad")]).
    assert (In ("sexo", EEnum) (checks e (schema_of Conductor) o)) as Hin.
    { apply In_checks
        with (p := with_required (with_enum ["Masculino"; "Femenino"] (path TString))).
      - simpl. right. right. left. reflexivity.
      - subst o. unfold check. cbn.
        rewrite (eqb_empty x Hne).
        destruct (String.eqb_spec x "Masculino"); [contradiction|].
        destruct (String.eqb_spec x "Femenino"); [contradiction|].
        reflexivity. }
    destruct (create_outcome_invalid Conductor e o "Conductor creado" s _ Hin)
      as [Hr Hs].
    eexists. split; [exact Hr|]. split; assumption.
Qed.

(** ** Driver registration *)

(** C2, at the payload [{nombre: "Ana", edad: 0, sexo: "Femenino",
    turno: "Noche", enfermedad: "Ninguna"}]: the schema accepts the
    document built from it, yet the handler answers 400 and stores
    nothing, because [!edad] holds for zero. *)
Theorem post_conductor_rejects_age_zero (e : env) (s : store) :
  let payload := [("nombre", VStr "Ana"); ("edad", VNum zero);
                  ("sexo", VStr "Femenino"); ("turno", VStr "Noche");
                  ("enfermedad", VStr "Ninguna")] in
  checks e conductorSchema payload = []
  /\ post_conductor e payload s
     = (res_status_json 400 (JError (Text "Todos los campos son requeridos")), s).
Proof.
  cbv zeta. split; [reflexivity|].
  rewrite post_conductor_run. reflexivity.
Qed.


(** C6, at the body [{conductorId: "D1", latitud: "abc", longitud: 0}]:
    [Number("abc")] is NaN, the handler of /ubicacion only compares
    with [undefined], so the string reaches the schema, the cast fails
    and the answer is 500 with the validation message.  The same wrong
    type sent to /ritmo and /brujula is answered 400 by their [typeof]
    check. *)
Theorem post_ubicacion_string_latitud (e : env) (s : store) :
  isNaN (Number_of_string "abc") = true ->
  fst (post_ubicacion e [("conductorId", VStr "D1"); ("latitud", VStr "abc");
                         ("longitud", VNum zero)] s)
    = res_status_json 500 (JError (ValidationFailed "Ubicacion" [("latitud", ECast)]))
  /\ fst (post_ritmo e [("conductorId", VStr "D1"); ("bpm", VStr "abc")] s)
     = res_status_json 400 (JError (Text "conductorId y bpm son requeridos"))
  /\ fst (post_brujula e [("conductorId", VStr "D1"); ("compass", VStr "abc")] s)
     = res_status_json 400 (JError (Text "conductorId y compass son requeridos")).
Proof.
  intros Hnan. split; [|split].
  - rewrite post_ubicacion_run. unfold create_outcome, checks, check. cbn.
    destruct (Number_of_string "abc"); try discriminate Hnan. reflexivity.
  - rewrite post_ritmo_run. reflexivity.
  - rewrite post_brujula_run. reflexivity.
Qed.

(** ** Reading the store *)

Lemma roundtrip_run (s : store) :
  roundtrip s =
  match faults s with
  | Some err :: _ => (inr (Text err), after_roundtrip s)
  | _ => (inl tt, after_roundtrip s)
  end.
Proof.
  unfold roundtrip, after_roundtrip.
  destruct s as [c r b u i f]. simpl.
  destruct f as [|[err|] rest]; reflexivity.
Qed.

Lemma after_roundtrip_collection (m : model) (s : store) :
  collection m (after_roundtrip s) = collection m s.
Proof. destruct m; reflexivity. Qed.

Lemma after_roundtrip_latest (m : model) (cid : string) (s : store) :
  latest_doc m cid (after_roundtrip s) = latest_doc m cid s.
Proof. unfold latest_doc. now rewrite after_roundtrip_collection. Qed.

Lemma store_answers_head (n : nat) (s : store) :
  store_answers (S n) s ->
  match faults s with Some _ :: _ => False | _ => True end
  /\ store_answers n (after_roundtrip s).
Proof.
  unfold store_answers, after_roundtrip. intros H.
  destruct s as [c r b u i f]. simpl in *.
  destruct f as [|[err|] rest]; simpl in *.
  - split; [exact I|]. destruct n; constructor.
  - inversion H; discriminate.
  - split; [exact I|]. now inversion H.
Qed.

Lemma get_latest_run (m : model) (msg cid : string) (s : store) :
  store_answers 1 s ->
  get_latest m msg cid s =
  (match latest_doc m cid s with
   | None => res_status_json 404 (JError (Text msg))
   | Some d => res_json (JDoc d)
   end, after_roundtrip s).
Proof.
  intros H. apply store_answers_head in H. destruct H as [H _].
  unfold get_latest, handle, findOne_sorted, bind. rewrite roundtrip_run.
  destruct (faults s) as [|[err|] rest]; try contradiction;
    rewrite after_roundtrip_latest; destruct (latest_doc m cid s); reflexivity.
Qed.

Lemma get_all_run (m : model) (s : store) :
  store_answers 1 s ->
  get_all m s =
  (res_json (JTotalData (List.length (sort_desc (collection m s)))
                        (sort_desc (collection m s))),
   after_roundtrip s).
Proof.
  intros H. apply store_answers_head in H. destruct H as [H _].
  unfold get_all, handle, find_sorted, bind. rewrite roundtrip_run.
  destruct (faults s) as [|[err|] rest]; try contradiction;
    rewrite after_roundtrip_collection; reflexivity.
Qed.

Lemma get_all_of_eq (m : model) : get_all_of m = get_all m.
Proof. destruct m; reflexivity. Qed.

Lemma get_lectura_latest_of_eq (k : lectura) :
  exists msg, get_lectura_latest_of k = get_latest (model_of k) msg.
Proof. destruct k; eexists; reflexivity. Qed.


Lemma string_path_value (e : env) (p : schemapath) (raw : value) (v : fvalue) :
  type p = TString -> default p = None ->
  path_value e p raw = Cast v -> exists x, v = FString x.
Proof.
  unfold path_value, set_path. intros -> ->.
  destruct raw; try discriminate;
    destruct (castString _); try discriminate;
    intros H; injection H as <-; eexists; reflexivity.
Qed.

Lemma conductorId_path (k : lectura) :
  In ("conductorId", with_index (with_required (path TString)))
     (schema_of (model_of k)).
Proof. destruct k; left; reflexivity. Qed.

(** A reading that passed validation carries a string [conductorId]. *)
Lemma created_conductorId (k : lectura) (e : env) (o : list (string * value))
    (s : store) :
  checks e (schema_of (model_of k)) o = [] ->
  exists cid,
    field (doc_fields (created e (model_of k) o s)) "conductorId" = Some (FString cid).
Proof.
  intros Hc. unfold created. cbn [doc_fields].
  set (p := with_index (with_required (path TString))).
  rewrite (build_field e o "conductorId" p _ (schema_keys_NoDup _) (conductorId_path k)).
  assert (check e o ("conductorId", p) = None) as Hn.
  { destruct (check e o ("conductorId", p)) as [err|] eqn:E; [|reflexivity].
    pose proof (In_checks e _ o _ _ _ (conductorId_path k) E) as Hin.
    rewrite Hc in Hin. destruct Hin. }
  unfold check in Hn. cbn [fst snd] in Hn.
  destruct (path_value e p (prop o "conductorId")) as [v| |] eqn:PV.
  - destruct (string_path_value e p _ v eq_refl eq_refl PV) as [x ->].
    now exists x.
  - discriminate Hn.
  - discriminate Hn.
Qed.

Lemma post_lectura_201 (k : lectura) (e : env) (req_body : list (string * value))
    (s : store) :
  status (fst (post_lectura k e req_body s)) = 201 ->
  exists o msg,
    checks e (schema_of (model_of k)) o = []
    /\ fst (post_lectura k e req_body s)
       = res_status_json 201 (JMessageData msg (created e (model_of k) o s))
    /\ collection (model_of k) (snd (post_lectura k e req_body s))
       = (collection (model_of k) s ++ [created e (model_of k) o s])%list.
Proof.
  destruct k; cbn [post_lectura model_of].
  - rewrite post_ritmo_run. cbv zeta.
    destruct (negb _ || negb _); [discriminate|].
    intros H. apply create_outcome_201 in H. destruct H as (Hc & Hr & Hcol & _).
    eexists _, _. repeat split; eassumption.
  - rewrite post_brujula_run. cbv zeta.
    destruct (negb _ || negb _); [discriminate|].
    intros H. apply create_outcome_201 in H. destruct H as (Hc & Hr & Hcol & _).
    eexists _, _. repeat split; eassumption.
  - rewrite post_ubicacion_run. cbv zeta.
    destruct (negb _ || _ || _); [discriminate|].
    intros H. apply create_outcome_201 in H. destruct H as (Hc & Hr & Hcol & _).
    eexists _, _. repeat split; eassumption.
Qed.

Lemma filter_no_reading (m : model) (cid : string) (s : store) :
  no_reading m cid s -> filter (matches cid) (collection m s) = [].
Proof.
  unfold no_reading. induction (collection m s) as [|x l IH]; intros H; simpl.
  - reflexivity.
  - rewrite (H x (or_introl eq_refl)). apply IH. intros d Hd. apply H. now right.
Qed.

(** The latest routes, in the words of the query's own filter. *)
Lemma latest_reading_by_filter (k : lectura) :
  (forall (cid : string) (s : store),
      store_answers 1 s ->
      (status (fst (get_lectura_latest_of k cid s)) = 404
       <-> no_reading (model_of k) cid s)
      /\ (~ no_reading (model_of k) cid s ->
          exists d,
            fst (get_lectura_latest_of k cid s) = res_json (JDoc d)
            /\ most_recent (model_of k) cid s d))
  /\ (forall (e : env) (req_body : list (string * value)) (s : store),
      status (fst (post_lectura k e req_body s)) = 201 ->
      exists msg d cid,
        fst (post_lectura k e req_body s) = res_status_json 201 (JMessageData msg d)
        /\ field (doc_fields d) "conductorId" = Some (FString cid)
        /\ (no_reading (model_of k) cid s ->
            store_answers 1 (snd (post_lectura k e req_body s)) ->
            fst (get_lectura_latest_of k cid (snd (post_lectura k e req_body s)))
              = res_json (JDoc d))).
Proof.
  destruct (get_lectura_latest_of_eq k) as [msg404 Heq]. rewrite Heq.
  split.
  - intros cid s Ha. rewrite (get_latest_run _ _ _ _ Ha). cbn [fst].
    destruct (latest_doc (model_of k) cid s) as [d|] eqn:L.
    + apply latest_doc_Some in L. split.
      * split; [discriminate|].
        intros Hno. exfalso. exact (most_recent_has_reading _ _ _ _ L Hno).
      * intros _. now exists d.
    + apply latest_doc_None in L. split.
      * split; [intros _; exact L | reflexivity].
      * intros Hn. contradiction.
  - intros e req_body s H201.
    destruct (post_lectura_201 k e req_body s H201) as (o & msg & Hc & Hr & Hcol).
    destruct (created_conductorId k e o s Hc) as [cid Hcid].
    exists msg, (created e (model_of k) o s), cid.
    split; [exact Hr|]. split; [exact Hcid|].
    intros Hno Ha. rewrite (get_latest_run _ _ _ _ Ha). cbn [fst].
    unfold latest_doc. rewrite Hcol, filter_app, (filter_no_reading _ _ _ Hno).
    cbn [filter app]. unfold matches at 1. rewrite Hcid, String.eqb_refl.
    reflexivity.
Qed.

(** ** The driver of a document and what is sent of it *)

Lemma matches_of_driver (cid : string) (d : document) :
  matches cid d = true <-> of_driver cid d.
Proof.
  unfold matches, of_driver.
  destruct (field (doc_fields d) "conductorId") as [[x|n|t]|]; split;
    try discriminate.
  - intros H. apply String.eqb_eq in H. now subst.
  - intros H. injection H as ->. apply String.eqb_refl.
Qed.

Lemma no_reading_driver_has_none (m : model) (cid : string) (s : store) :
  no_reading m cid s <-> driver_has_none m cid s.
Proof.
  unfold no_reading, driver_has_none. split.
  - intros H d Hin Hd. apply matches_of_driver in Hd.
    rewrite (H d Hin) in Hd. discriminate.
  - intros H d Hin. destruct (matches cid d) eqn:E; [|reflexivity].
    exfalso. apply (H d Hin). now apply matches_of_driver.
Qed.

Lemma most_recent_latest_of_driver (m : model) (cid : string) (s : store)
    (d : document) :
  most_recent m cid s d <-> latest_of_driver m cid s d.
Proof.
  unfold most_recent, latest_of_driver. split.
  - intros (Hin & Hm & Hmax). split; [exact Hin|]. split.
    + now apply matches_of_driver.
    + intros d' Hin' Hd'. apply Hmax; [exact Hin'|]. now apply matches_of_driver.
  - intros (Hin & Hm & Hmax). split; [exact Hin|]. split.
    + now apply matches_of_driver.
    + intros d' Hin' Hd'. apply Hmax; [exact Hin'|]. now apply matches_of_driver.
Qed.

Lemma pick_In (keys : list string) (d : document) (k : string) (v : fvalue) :
  In (k, v) (pick keys d) <-> In k keys /\ field (doc_fields d) k = Some v.
Proof.
  unfold pick. rewrite in_flat_map. split.
  - intros (k' & Hin & Hkv).
    destruct (field (doc_fields d) k') as [v'|] eqn:F; [|destruct Hkv].
    destruct Hkv as [E|[]]. injection E as <- <-. now split.
  - intros [Hin F]. exists k. split; [exact Hin|]. rewrite F. now left.
Qed.

Lemma pick_all (keys : list string) (d : document) (vs : list fvalue) :
  map (field (doc_fields d)) keys = map Some vs -> pick keys d = combine keys vs.
Proof.
  revert vs. induction keys as [|k keys IH]; intros vs H.
  - reflexivity.
  - destruct vs as [|v vs]; [discriminate H|].
    cbn [map] in H. injection H as Hk Hrest.
    change (pick (k :: keys) d)
      with ((match field (doc_fields d) k with
             | Some v => [(k, v)]
             | None => []
             end ++ pick keys d)%list).
    rewrite Hk, (IH vs Hrest). reflexivity.
Qed.

Lemma pick_sends (keys : list string) (d : document) : sends keys d (pick keys d).
Proof.
  split; [intros k v; apply pick_In | intros vs; apply pick_all].
Qed.

(** C4: for each reading kind, when the store answers, the latest
    route returns 404 exactly when no stored reading of that kind has
    the driver's [conductorId], and otherwise returns with 200 a stored
    reading with that [conductorId] than which none with that
    [conductorId] was created later; and a reading recorded with 201
    for a driver that had none of that kind is exactly what the latest
    route returns next for the [conductorId] the reading carries. *)
Theorem latest_reading_spec (k : lectura) :
  (forall (cid : string) (s : store),
      store_answers 1 s ->
      (status (fst (get_lectura_latest_of k cid s)) = 404
       <-> driver_has_none (model_of k) cid s)
      /\ (~ driver_has_none (model_of k) cid s ->
          exists d,
            fst (get_lectura_latest_of k cid s) = res_json (JDoc d)
            /\ latest_of_driver (model_of k) cid s d))
  /\ (forall (e : env) (req_body : list (string * value)) (s : store),
      status (fst (post_lectura k e req_body s)) = 201 ->
      exists msg d cid,
        fst (post_lectura k e req_body s) = res_status_json 201 (JMessageData msg d)
        /\ of_driver cid d
        /\ (driver_has_none (model_of k) cid s ->
            store_answers 1 (snd (post_lectura k e req_body s)) ->
            fst (get_lectura_latest_of k cid (snd (post_lectura k e req_body s)))
              = res_json (JDoc d))).
Proof.
  destruct (latest_reading_by_filter k) as [Hget Hpost]. split.
  - intros cid s Ha. destruct (Hget cid s Ha) as [H404 Hd].
    rewrite <- no_reading_driver_has_none. split; [exact H404|].
    intros Hn. destruct (Hd Hn) as (d & Hr & Hm).
    exists d. split; [exact Hr|]. now apply most_recent_latest_of_driver.
  - intros e req_body s H201.
    destruct (Hpost e req_body s H201) as (msg & d & cid & Hr & Hcid & Hnext).
    exists msg, d, cid. split; [exact Hr|]. split; [exact Hcid|].
    intros Hn. apply Hnext. now apply no_reading_driver_has_none.
Qed.


(** ** The combined latest reading *)

Ltac answered H :=
  repeat match type of H with
         | Forall _ (_ :: _) =>
             let H1 := fresh in
             let H2 := fresh in
             apply Forall_cons_iff in H; destruct H as [H1 H]; try discriminate H1
         end.

Lemma get_lectura_latest_run (e : env) (cid : string) (s : store) :
  store_answers 3 s ->
  fst (get_lectura_latest e cid s) =
  match latest_doc Ritmo cid s, latest_doc Brujula cid s, latest_doc Ubicacion cid s with
  | None, None, None =>
      res_status_json 404 (JError (Text "No hay lecturas para este conductor"))
  | ritmo, brujula, ubicacion =>
      res_json (JLectura cid
                  (option_map (pick ["bpm"; "fecha"]) ritmo)
                  (option_map (pick ["compass"; "fecha"]) brujula)
                  (option_map (pick ["latitud"; "longitud"; "fecha"]) ubicacion))
  end
  /\ same_documents s (snd (get_lectura_latest e cid s)).
Proof.
  unfold store_answers. intros H.
  destruct s as [c r b u i f]. cbn [faults] in H.
  unfold get_lectura_latest, handle, bind, Promise_all, findOne_sorted, bind,
    roundtrip, latest_doc, same_documents.
  destruct f as [|[e1|] [|[e2|] [|[e3|] rest]]]; cbn [firstn] in H; answered H;
    cbn [faults set_faults collection conductores ritmos brujulas ubicaciones next_id];
    (split; [|intros []; destruct (hd_error _), (hd_error _), (hd_error _); reflexivity]);
    destruct (hd_error (sort_desc (filter (matches cid) r))),
             (hd_error (sort_desc (filter (matches cid) b))),
             (hd_error (sort_desc (filter (matches cid) u))); reflexivity.
Qed.

Lemma latest_or_null_latest_doc (m : model) (keys : list string) (cid : string)
    (s : store) :
  latest_or_null m keys cid s (option_map (pick keys) (latest_doc m cid s)).
Proof.
  destruct (latest_doc m cid s) as [d|] eqn:L; simpl.
  - exists d. split; [now apply latest_doc_Some | reflexivity].
  - now apply latest_doc_None.
Qed.

(** The combined route, in the words of the query's own filter and of
    the handler's own projection. *)
Lemma latest_combined_by_filter (e : env) (cid : string) (s : store) :
  store_answers 3 s ->
  (status (fst (get_lectura_latest e cid s)) = 404
   <-> no_reading Ritmo cid s /\ no_reading Brujula cid s /\ no_reading Ubicacion cid s)
  /\ (~ (no_reading Ritmo cid s /\ no_reading Brujula cid s
         /\ no_reading Ubicacion cid s) ->
      exists ritmo brujula ubicacion,
        fst (get_lectura_latest e cid s)
          = res_json (JLectura cid ritmo brujula ubicacion)
        /\ latest_or_null Ritmo ["bpm"; "fecha"] cid s ritmo
        /\ latest_or_null Brujula ["compass"; "fecha"] cid s brujula
        /\ latest_or_null Ubicacion ["latitud"; "longitud"; "fecha"] cid s ubicacion)
  /\ (~ no_reading Ritmo cid s -> no_reading Brujula cid s ->
      no_reading Ubicacion cid s ->
      exists d,
        most_recent Ritmo cid s d
        /\ fst (get_lectura_latest e cid s)
           = res_json (JLectura cid (Some (pick ["bpm"; "fecha"] d)) None None)).
Proof using.
  clear Number_of_string Number_toString castDate.
  intros Ha. destruct (get_lectura_latest_run e cid s Ha) as [Hr _]. rewrite Hr.
  pose proof (latest_or_null_latest_doc Ritmo ["bpm"; "fecha"] cid s) as Lr.
  pose proof (latest_or_null_latest_doc Brujula ["compass"; "fecha"] cid s) as Lb.
  pose proof (latest_or_null_latest_doc Ubicacion ["latitud"; "longitud"; "fecha"] cid s)
    as Lu.
  pose proof (latest_doc_None Ritmo cid s) as Nr.
  pose proof (latest_doc_None Brujula cid s) as Nb.
  pose proof (latest_doc_None Ubicacion cid s) as Nu.
  pose proof (latest_doc_Some Ritmo cid s) as Sr.
  destruct (latest_doc Ritmo cid s) as [dr|],
           (latest_doc Brujula cid s) as [db|],
           (latest_doc Ubicacion cid s) as [du|];
    cbn [option_map] in Lr, Lb, Lu |- *.
  all: split; [split; [try discriminate; intros _; tauto | try reflexivity] |].
  all: try (intros (H1 & H2 & H3);
            first [ apply Nr in H1; discriminate H1
                  | apply Nb in H2; discriminate H2
                  | apply Nu in H3; discriminate H3 ]).
  all: split.
  all: try (intros _; eexists _, _, _; split; [reflexivity|]; now repeat split).
  all: try (intros Hn; exfalso; apply Hn; tauto).
  all: try (intros Hn Hb Hu;
            first [ apply Nb in Hb; discriminate Hb
                  | apply Nu in Hu; discriminate Hu
                  | exfalso; apply Hn; tauto ]).
  intros _ _ _. exists dr. split; [now apply Sr | reflexivity].
Qed.

Lemma latest_or_null_sent (m : model) (keys : list string) (cid : string)
    (s : store) (f : option fields) :
  latest_or_null m keys cid s f -> latest_sent_or_null m keys cid s f.
Proof.
  destruct f as [fs|]; cbn [latest_or_null latest_sent_or_null].
  - intros (d & Hm & ->). exists d. split.
    + now apply most_recent_latest_of_driver.
    + apply pick_sends.
  - apply no_reading_driver_has_none.
Qed.

(** C3: when the store answers the three lookups, the combined route
    returns 404 exactly when no stored heart rate, compass reading or
    location has the driver's [conductorId]; otherwise it returns 200
    with the [conductorId] and, for each kind, either [null] when no
    reading of the kind has that [conductorId], or what a latest reading
    with that [conductorId] holds under the kind's value keys and
    [fecha], each key with the reading's own value.  With heart-rate
    readings only, [ritmo] is filled from a latest heart rate of the
    driver and the other two are [null]. *)
Theorem latest_combined_spec (e : env) (cid : string) (s : store) :
  store_answers 3 s ->
  (status (fst (get_lectura_latest e cid s)) = 404
   <-> driver_has_none Ritmo cid s /\ driver_has_none Brujula cid s
       /\ driver_has_none Ubicacion cid s)
  /\ (~ (driver_has_none Ritmo cid s /\ driver_has_none Brujula cid s
         /\ driver_has_none Ubicacion cid s) ->
      exists ritmo brujula ubicacion,
        fst (get_lectura_latest e cid s)
          = res_json (JLectura cid ritmo brujula ubicacion)
        /\ latest_sent_or_null Ritmo ["bpm"; "fecha"] cid s ritmo
        /\ latest_sent_or_null Brujula ["compass"; "fecha"] cid s brujula
        /\ latest_sent_or_null Ubicacion ["latitud"; "longitud"; "fecha"] cid s
             ubicacion)
  /\ (~ driver_has_none Ritmo cid s -> driver_has_none Brujula cid s ->
      driver_has_none Ubicacion cid s ->
      exists d fs,
        latest_of_driver Ritmo cid s d
        /\ sends ["bpm"; "fecha"] d fs
        /\ fst (get_lectura_latest e cid s)
           = res_json (JLectura cid (Some fs) None None)).
Proof.
  intros Ha. destruct (latest_combined_by_filter e cid s Ha) as (H404 & Hsome & Honly).
  rewrite <- !no_reading_driver_has_none. split; [exact H404|]. split.
  - intros Hn. destruct (Hsome Hn) as (r & b & u & Hr & Lr & Lb & Lu).
    exists r, b, u. split; [exact Hr|].
    repeat split; now apply latest_or_null_sent.
  - intros Hn Hb Hu. destruct (Honly Hn Hb Hu) as (d & Hm & Hr).
    exists d, (pick ["bpm"; "fecha"] d). split.
    + now apply most_recent_latest_of_driver.
    + split; [apply pick_sends | exact Hr].
Qed.


(** ** Bulk reset, listings and health *)

Lemma delete_conductor_all_run (s : store) :
  (store_answers 4 s ->
   delete_conductor_all s =
   (res_json (JBorrados "Todos los conductores y lecturas han sido borrados"
                (List.length (conductores s)) (List.length (ritmos s))
                (List.length (brujulas s)) (List.length (ubicaciones s))),
    purged s))
  /\ (status (fst (delete_conductor_all s)) = 200 -> store_answers 4 s).
Proof.
  unfold store_answers, purged.
  destruct s as [c r b u i f]. cbn [faults conductores ritmos brujulas ubicaciones next_id].
  unfold delete_conductor_all, handle, bind, deleteMany, bind, roundtrip.
  destruct f as [|[e1|] [|[e2|] [|[e3|] [|[e4|] rest]]]];
    cbn [firstn skipn faults set_faults set_collection collection conductores ritmos
         brujulas ubicaciones next_id fst snd status res_status_json res_json];
    (split; [intros H; answered H; try reflexivity | intros H; try discriminate H]);
    repeat constructor.
Qed.

(** C5: the bulk reset filters nothing: when the store answers its four
    deletions the response is 200; and whenever the response is 200 it
    carries the number of documents each collection held, the four
    collections are empty afterwards, and each of the four listings
    that the store then answers returns total 0 and no data. *)
Theorem purge_all_spec (s : store) :
  (store_answers 4 s -> status (fst (delete_conductor_all s)) = 200)
  /\ (status (fst (delete_conductor_all s)) = 200 ->
      fst (delete_conductor_all s)
        = res_json (JBorrados "Todos los conductores y lecturas han sido borrados"
                      (List.length (conductores s)) (List.length (ritmos s))
                      (List.length (brujulas s)) (List.length (ubicaciones s)))
      /\ (forall m, collection m (snd (delete_conductor_all s)) = [])
      /\ (forall m,
            store_answers 1 (snd (delete_conductor_all s)) ->
            fst (get_all_of m (snd (delete_conductor_all s)))
              = res_json (JTotalData 0 []))).
Proof.
  destruct (delete_conductor_all_run s) as [Hrun Hback].
  split.
  - intros Ha. rewrite (Hrun Ha). reflexivity.
  - intros H200. pose proof (Hrun (Hback H200)) as E. rewrite E. cbn [fst snd].
    split; [reflexivity|]. split.
    + intros []; reflexivity.
    + intros m Ha. rewrite get_all_of_eq, (get_all_run m _ Ha).
      destruct m; reflexivity.
Qed.

(** X12: the four listings: when the store answers, the data are
    every stored document of the model, no more and no fewer, sorted
    with the most recently created first, and [total] is their number. *)
Lemma get_all_most_recent_first (m : model) (s : store) :
  store_answers 1 s ->
  exists l,
    fst (get_all_of m s) = res_json (JTotalData (List.length l) l)
    /\ Permutation (collection m s) l
    /\ StronglySorted not_older l
    /\ List.length l = List.length (collection m s).
Proof.
  intros Ha. rewrite get_all_of_eq, (get_all_run m s Ha).
  exists (sort_desc (collection m s)). split; [reflexivity|].
  split; [apply sort_desc_perm|]. split; [apply sort_desc_strongly_sorted|].
  symmetry. apply Permutation_length, sort_desc_perm.
Qed.

(** C7, as the code has it: the health route always answers 200 with a
    body whose keys are [status], [mongo], [uptime] and [now] (there is
    no [storeConnected]); [mongo] is the string "connected" exactly when
    the connection state read at that moment is 1 and the string
    "disconnected" otherwise, [uptime] and [now] are the process uptime
    and the clock, and the store is left as it was. *)
Theorem health_spec (e : env) (s : store) :
  exists mongo,
    get_health e s = (res_status_json 200 (JHealth "ok" mongo (uptime e) (now e)), s)
    /\ literal_keys (body (fst (get_health e s)))
       = Some ["status"; "mongo"; "uptime"; "now"]
    /\ (mongo = "connected" <-> readyState e = 1)
    /\ (mongo = "disconnected" <-> readyState e <> 1).
Proof.
  unfold get_health.
  destruct (Z.eqb_spec (readyState e) 1) as [E|E].
  - exists "connected". split; [reflexivity|]. split; [reflexivity|].
    split; split; intros H; try reflexivity; try assumption; try discriminate.
    contradiction.
  - exists "disconnected". split; [reflexivity|]. split; [reflexivity|].
    split; split; intros H; try reflexivity; try assumption; try discriminate.
    contradiction.
Qed.


(** ** Registration followed by the listing *)

Lemma num_gt_zero (n : number) :
  num_lt zero n = true ->
  truthy (VNum n) = true /\ isNaN n = false /\ num_ge n zero = true.
Proof.
  unfold num_lt, num_ge, zero, SFltb, SFleb.
  destruct n as [sg|sg| |sg mant ex]; simpl; try discriminate.
  - destruct sg; simpl; [discriminate | auto].
  - destruct sg; simpl; [discriminate | auto].
Qed.

Lemma String_trim_nonempty (x : string) : String_trim x <> "" -> x <> "".
Proof. intros H ->. apply H. reflexivity. Qed.

(** A payload of strings and a positive age, with a name that is not
    blank and a [sexo] of the enumeration, is registered with 201 when
    the store answers: the document gets the next identifier, the
    trimmed name and the time of the save. *)
Lemma post_conductor_creates (e : env) (req_body : list (string * value)) (s : store)
    (nombre sexo turno enfermedad : string) (edad : number) :
  prop req_body "nombre" = VStr nombre -> String_trim nombre <> "" ->
  prop req_body "edad" = VNum edad -> num_lt zero edad = true ->
  prop req_body "sexo" = VStr sexo -> sexo = "Masculino" \/ sexo = "Femenino" ->
  prop req_body "turno" = VStr turno -> turno <> "" ->
  prop req_body "enfermedad" = VStr enfermedad -> enfermedad <> "" ->
  store_answers 1 s ->
  let d := {| _id := next_id s;
              doc_fields := [("nombre", FString (String_trim nombre));
                             ("edad", FNumber edad); ("sexo", FString sexo);
                             ("turno", FString turno);
                             ("enfermedad", FString enfermedad)];
              createdAt := now_save e; updatedAt := now_save e; __v := 0 |} in
  fst (post_conductor e req_body s)
    = res_status_json 201 (JMessageData "Conductor creado" d)
  /\ conductores (snd (post_conductor e req_body s)) = (conductores s ++ [d])%list
  /\ faults (snd (post_conductor e req_body s)) = tl (faults s).
Proof.
  intros Hn Hnt He Hpos Hs Henum Ht Htn Hf Hfn Ha. cbv zeta.
  destruct (num_gt_zero edad Hpos) as (Htr & Hnan & Hge).
  pose proof (String_trim_nonempty nombre Hnt) as Hnn.
  rewrite post_conductor_run. cbv zeta. rewrite Hn, He, Hs, Ht, Hf.
  rewrite (truthy_string nombre Hnn), Htr, (truthy_string turno Htn),
    (truthy_string enfermedad Hfn).
  assert (truthy (VStr sexo) = true) as -> by (destruct Henum; subst; reflexivity).
  cbn [negb orb].
  set (o := [("nombre", VStr nombre); ("edad", VNum edad); ("sexo", VStr sexo);
             ("turno", VStr turno); ("enfermedad", VStr enfermedad)]).
  assert (checks e (schema_of Conductor) o = []) as Hc.
  { subst o. unfold checks, check. cbn -[num_ge isNaN zero String_trim].
    rewrite Hnan, Hge, (eqb_empty _ Hnt), (eqb_empty _ Htn), (eqb_empty _ Hfn).
    destruct Henum; subst; reflexivity. }
  destruct (create_outcome_ok Conductor e o "Conductor creado" s Hc Ha)
    as (Hr & Hcol & _ & Hfl).
  assert (created e Conductor o s
          = {| _id := next_id s;
               doc_fields := [("nombre", FString (String_trim nombre));
                              ("edad", FNumber edad); ("sexo", FString sexo);
                              ("turno", FString turno);
                              ("enfermedad", FString enfermedad)];
               createdAt := now_save e; updatedAt := now_save e; __v := 0 |}) as Hd.
  { subst o. unfold created. cbn -[isNaN String_trim]. rewrite Hnan. reflexivity. }
  rewrite Hd in Hr, Hcol. repeat split; assumption.
Qed.

Lemma sort_desc_newest (d : document) (l : list document) :
  (forall x, In x l -> createdAt x < createdAt d) ->
  sort_desc (l ++ [d]) = d :: sort_desc l.
Proof.
  induction l as [|x l IH]; intros H; simpl; [reflexivity|].
  rewrite IH by (intros y Hy; apply H; now right).
  simpl. pose proof (H x (or_introl eq_refl)) as Hx.
  destruct (Z.leb_spec (createdAt d) (createdAt x)); [lia | reflexivity].
Qed.

(** Registered at a time later than every stored driver's creation, the
    new driver heads the listing that follows. *)
Lemma created_driver_listed_first (e : env) (req_body : list (string * value))
    (s : store) (nombre sexo turno enfermedad : string) (edad : number) :
  prop req_body "nombre" = VStr nombre -> String_trim nombre <> "" ->
  prop req_body "edad" = VNum edad -> num_lt zero edad = true ->
  prop req_body "sexo" = VStr sexo -> sexo = "Masculino" \/ sexo = "Femenino" ->
  prop req_body "turno" = VStr turno -> turno <> "" ->
  prop req_body "enfermedad" = VStr enfermedad -> enfermedad <> "" ->
  store_answers 2 s ->
  (forall x, In x (conductores s) -> createdAt x < now_save e) ->
  exists d,
    fst (post_conductor e req_body s)
      = res_status_json 201 (JMessageData "Conductor creado" d)
    /\ fst (get_conductor_all (snd (post_conductor e req_body s)))
       = res_json (JTotalData (S (List.length (conductores s)))
                              (d :: sort_desc (conductores s))).
Proof.
  intros Hn Hnt He Hpos Hs Henum Ht Htn Hf Hfn Ha Hclock.
  pose proof (store_answers_le 2 1 s ltac:(lia) Ha) as Ha1.
  destruct (post_conductor_creates e req_body s _ _ _ _ _
              Hn Hnt He Hpos Hs Henum Ht Htn Hf Hfn Ha1) as (Hr & Hcol & Hfl).
  eexists. split; [exact Hr|].
  assert (store_answers 1 (snd (post_conductor e req_body s))) as Ha'.
  { unfold store_answers in *. rewrite Hfl.
    destruct (faults s) as [|f0 [|f1 rest]]; simpl in *; try constructor.
    - inversion Ha as [|? ? _ Ha2]. inversion Ha2. assumption.
    - constructor. }
  unfold get_conductor_all. rewrite (get_all_run Conductor _ Ha'). cbn [fst collection].
  rewrite Hcol, sort_desc_newest by exact Hclock.
  cbn [List.length].
  rewrite <- (Permutation_length (sort_desc_perm (conductores s))). reflexivity.
Qed.

(** C8, at the payload [{nombre: "Ana", edad: 0, sexo: "Femenino",
    turno: "Noche", enfermedad: "Ninguna"}]: the registration is
    answered 400, the store is left as it was, and the listing that
    follows is the one from before: the driver is not in it. *)
Theorem age_zero_driver_is_not_listed (e : env) (s : store) :
  let payload := [("nombre", VStr "Ana"); ("edad", VNum zero);
                  ("sexo", VStr "Femenino"); ("turno", VStr "Noche");
                  ("enfermedad", VStr "Ninguna")] in
  status (fst (post_conductor e payload s)) = 400
  /\ conductores (snd (post_conductor e payload s)) = conductores s
  /\ get_conductor_all (snd (post_conductor e payload s)) = get_conductor_all s.
Proof.
  cbv zeta. rewrite post_conductor_run. cbn. repeat split.
Qed.


(** ** The creating routes, by model *)

Lemma post_of_run (m : model) (e : env) (req_body : list (string * value)) (s : store) :
  post_of m e req_body s =
  if refused m req_body
  then (res_status_json 400 (JError (Text (refusal m))), s)
  else create_outcome m e (constructed m req_body) (saved_message m) s.
Proof.
  destruct m; cbn [post_of].
  - apply post_conductor_run.
  - apply post_ritmo_run.
  - apply post_brujula_run.
  - apply post_ubicacion_run.
Qed.

(** What [create_outcome] does to the store, whatever the outcome. *)
Lemma create_outcome_store (m : model) (e : env) (o : list (string * value))
    (msg : string) (s : store) :
  next_id (snd (create_outcome m e o msg s)) = N.succ (next_id s)
  /\ (forall m', m' <> m ->
        collection m' (snd (create_outcome m e o msg s)) = collection m' s)
  /\ ((status (fst (create_outcome m e o msg s)) = 201
       /\ fst (create_outcome m e o msg s)
          = res_status_json 201 (JMessageData msg (created e m o s))
       /\ collection m (snd (create_outcome m e o msg s))
          = (collection m s ++ [created e m o s])%list)
      \/ (status (fst (create_outcome m e o msg s)) = 500
          /\ collection m (snd (create_outcome m e o msg s)) = collection m s)).
Proof.
  unfold create_outcome. cbv zeta.
  destruct (checks e (schema_of m) o) as [|x l].
  - destruct (faults s) as [|[err|] rest]; cbv iota beta; cbn [fst snd].
    + split; [destruct m; reflexivity|]. split.
      * intros m' Hm. now rewrite set_collection_other.
      * left. split; [reflexivity|]. split; [reflexivity|]. apply set_collection_same.
    + split; [reflexivity|]. split.
      * intros m' _. destruct m'; reflexivity.
      * right. split; [reflexivity|]. destruct m; reflexivity.
    + split; [destruct m; reflexivity|]. split.
      * intros m' Hm. now rewrite set_collection_other.
      * left. split; [reflexivity|]. split; [reflexivity|]. apply set_collection_same.
  - cbn [fst snd]. split; [reflexivity|]. split.
    + intros m' _. destruct m'; reflexivity.
    + right. split; [reflexivity|]. destruct m; reflexivity.
Qed.

(** X1: on the three ingestion routes a [conductorId] that is missing
    or falsy ([null], [false], the empty string, zero) is answered 400
    with the route's message and the store is left as it was, whatever
    the other fields hold. *)
Theorem missing_conductorId_is_400
    (e : env) (req_body : list (string * value)) (s : store) :
  truthy (prop req_body "conductorId") = false ->
  post_ritmo e req_body s
    = (res_status_json 400 (JError (Text "conductorId y bpm son requeridos")), s)
  /\ post_brujula e req_body s
     = (res_status_json 400 (JError (Text "conductorId y compass son requeridos")), s)
  /\ post_ubicacion e req_body s
     = (res_status_json 400
          (JError (Text "conductorId, latitud y longitud son requeridos")), s).
Proof.
  intros H.
  rewrite post_ritmo_run, post_brujula_run, post_ubicacion_run. cbv zeta.
  rewrite H. cbn [negb orb]. repeat split.
Qed.

(** X2: a creating route never touches the collections of the other
    three models, and on its own collection it either appends exactly
    one document at the end, which is the one it returns with 201 and
    which carries the next identifier and the time of the save, or
    leaves the collection as it was and answers something else. *)
Theorem post_appends_or_leaves
    (m : model) (e : env) (req_body : list (string * value)) (s : store) :
  (forall m', m' <> m ->
     collection m' (snd (post_of m e req_body s)) = collection m' s)
  /\ ((status (fst (post_of m e req_body s)) = 201
       /\ exists msg d,
            body (fst (post_of m e req_body s)) = JMessageData msg d
            /\ collection m (snd (post_of m e req_body s))
               = (collection m s ++ [d])%list
            /\ _id d = next_id s /\ createdAt d = now_save e)
      \/ (status (fst (post_of m e req_body s)) <> 201
          /\ collection m (snd (post_of m e req_body s)) = collection m s)).
Proof.
  rewrite post_of_run.
  destruct (refused m req_body).
  - split; [reflexivity|]. right. split; [discriminate | reflexivity].
  - destruct (create_outcome_store m e (constructed m req_body) (saved_message m) s)
      as (_ & Hother & [(H201 & Hr & Hcol) | (H500 & Hcol)]).
    + split; [exact Hother|]. left. split; [exact H201|].
      exists (saved_message m), (created e m (constructed m req_body) s).
      rewrite Hr. repeat split. exact Hcol.
    + split; [exact Hother|]. right. split; [|exact Hcol].
      rewrite H500. discriminate.
Qed.

(** ** What the reading routes and the reset do to the store *)

Lemma get_latest_store (m : model) (msg cid : string) (s : store) :
  snd (get_latest m msg cid s) = after_roundtrip s.
Proof.
  unfold get_latest, handle, findOne_sorted, bind. rewrite roundtrip_run.
  destruct (faults s) as [|[err|] rest]; try reflexivity;
    destruct (latest_doc m cid (after_roundtrip s)); reflexivity.
Qed.

Lemma get_all_store (m : model) (s : store) :
  snd (get_all m s) = after_roundtrip s.
Proof.
  unfold get_all, handle, find_sorted, bind. rewrite roundtrip_run.
  destruct (faults s) as [|[err|] rest]; reflexivity.
Qed.

Lemma get_lectura_latest_store (e : env) (cid : string) (s : store) :
  same_documents s (snd (get_lectura_latest e cid s))
  /\ next_id (snd (get_lectura_latest e cid s)) = next_id s.
Proof.
  destruct s as [c r b u i f].
  unfold get_lectura_latest, handle, bind, Promise_all, findOne_sorted, bind,
    roundtrip, latest_doc, same_documents.
  destruct f as [|[e1|] [|[e2|] [|[e3|] rest]]];
    cbn [faults set_faults collection conductores ritmos brujulas ubicaciones next_id];
    (split; [intros [] | ]);
    repeat match goal with
           | |- context [hd_error ?l] => destruct (hd_error l)
           end; reflexivity.
Qed.

Lemma delete_conductor_all_store (s : store) :
  next_id (snd (delete_conductor_all s)) = next_id s
  /\ forall m, collection m (snd (delete_conductor_all s)) = []
              \/ collection m (snd (delete_conductor_all s)) = collection m s.
Proof.
  destruct s as [c r b u i f].
  unfold delete_conductor_all, handle, bind, deleteMany, bind, roundtrip.
  destruct f as [|[e1|] [|[e2|] [|[e3|] [|[e4|] rest]]]];
    cbn [faults set_faults set_collection collection conductores ritmos
         brujulas ubicaciones next_id fst snd];
    (split; [reflexivity | intros []; cbn; auto]).
Qed.

Lemma app_get_store (e : env) (r : request) (s : store) :
  is_get r = true ->
  same_documents s (snd (app e r s)) /\ next_id (snd (app e r s)) = next_id s.
Proof.
  destruct r; cbn [is_get one_query app]; intros H; try discriminate H;
    try (unfold get_ritmo_latest, get_brujula_latest, get_ubicacion_latest;
         rewrite get_latest_store;
         split; [intros m; apply after_roundtrip_collection | reflexivity]);
    try (unfold get_conductor_all, get_ritmo_all, get_brujula_all, get_ubicacion_all;
         rewrite get_all_store;
         split; [intros m; apply after_roundtrip_collection | reflexivity]).
  - split; [intros m; reflexivity | reflexivity].
  - apply get_lectura_latest_store.
Qed.

(** X3: the GET routes never change a document nor hand out an
    identifier, whether the store answers them or rejects them. *)
Theorem get_changes_no_document (e : env) (r : request) (s : store) :
  is_get r = true ->
  same_documents s (snd (app e r s)) /\ next_id (snd (app e r s)) = next_id s.
Proof. apply app_get_store. Qed.

Lemma get_latest_rejected (m : model) (msg404 cid msg : string)
    (rest : list (option string)) (s : store) :
  faults s = Some msg :: rest ->
  fst (get_latest m msg404 cid s) = res_status_json 500 (JError (Text msg)).
Proof.
  intros F. unfold get_latest, handle, findOne_sorted, bind.
  rewrite roundtrip_run, F. reflexivity.
Qed.

Lemma get_all_rejected (m : model) (msg : string) (rest : list (option string))
    (s : store) :
  faults s = Some msg :: rest ->
  fst (get_all m s) = res_status_json 500 (JError (Text msg)).
Proof.
  intros F. unfold get_all, handle, find_sorted, bind.
  rewrite roundtrip_run, F. reflexivity.
Qed.

(** X4: when the store rejects the query of a latest route or of a
    listing, the answer is 500 and its [error] is the store's message,
    unchanged. *)
Theorem rejected_query_is_500 (e : env) (r : request) (s : store)
    (msg : string) (rest : list (option string)) :
  one_query r = true ->
  faults s = Some msg :: rest ->
  fst (app e r s) = res_status_json 500 (JError (Text msg)).
Proof.
  destruct r; cbn [one_query app]; intros H F; try discriminate H.
  - exact (get_latest_rejected _ _ _ _ _ _ F).
  - exact (get_latest_rejected _ _ _ _ _ _ F).
  - exact (get_latest_rejected _ _ _ _ _ _ F).
  - exact (get_all_rejected _ _ _ _ F).
  - exact (get_all_rejected _ _ _ _ F).
  - exact (get_all_rejected _ _ _ _ F).
  - exact (get_all_rejected _ _ _ _ F).
Qed.

(** X5: in the combined route one rejected lookup out of the three is
    enough for a 500 whose [error] is the message of a rejected lookup:
    the readings that were found are not sent. *)
Theorem combined_rejection_is_500 (e : env) (cid : string) (s : store) :
  ~ store_answers 3 s ->
  exists msg,
    In (Some msg) (firstn 3 (faults s))
    /\ fst (get_lectura_latest e cid s) = res_status_json 500 (JError (Text msg)).
Proof using.
  clear Number_of_string Number_toString castDate.
  unfold store_answers. intros Hn.
  destruct s as [c r b u i f]. cbn [faults] in *.
  unfold get_lectura_latest, handle, bind, Promise_all, findOne_sorted, bind, roundtrip.
  destruct f as [|[e1|] [|[e2|] [|[e3|] rest]]];
    cbn [firstn faults set_faults fst] in *;
    try (exfalso; apply Hn; repeat constructor; fail);
    unfold sooner; cbn [fst snd];
    repeat match goal with
           | |- context [if ?c then _ else _] => destruct c
           end;
    eexists; (split; [|reflexivity]); cbn; auto.
Qed.

(** X23: when several lookups of the combined route are rejected, the
    [error] of the 500 is the message of the rejection that settled
    before every other one, whatever the place of its lookup among the
    three. *)
Theorem combined_error_is_first_settled (e : env) (cid : string) (s : store)
    (i : nat) (msg : string) :
  nth_error (firstn 3 (faults s)) i = Some (Some msg) ->
  (forall j msg',
      j <> i -> nth_error (firstn 3 (faults s)) j = Some (Some msg') ->
      (settles e i < settles e j)%nat) ->
  fst (get_lectura_latest e cid s) = res_status_json 500 (JError (Text msg)).
Proof using.
  clear Number_of_string Number_toString castDate.
  destruct s as [c r b u n f]. cbn [faults]. intros Hi Hfirst.
  unfold get_lectura_latest, handle, bind, Promise_all, findOne_sorted, bind, roundtrip,
    sooner.
  pose proof (Hfirst 0%nat) as H0. pose proof (Hfirst 1%nat) as H1.
  pose proof (Hfirst 2%nat) as H2. clear Hfirst.
  destruct f as [|[e1|] [|[e2|] [|[e3|] rest]]];
    destruct i as [|[|[|i]]];
    cbn [firstn nth_error] in Hi, H0, H1, H2;
    try discriminate Hi; try (destruct i; discriminate Hi);
    injection Hi as ->;
    cbn [faults set_faults fst snd];
    repeat match goal with
           | H : forall msg', ?a <> ?b -> Some (Some ?m) = Some (Some msg') -> _ |- _ =>
               first [ specialize (H m ltac:(discriminate) eq_refl) | clear H ]
           | H : forall msg', _ -> _ = Some (Some msg') -> _ |- _ => clear H
           end;
    try (destruct (Nat.ltb_spec (settles e 1) (settles e 0)); cbn [fst snd]);
    repeat match goal with
           | |- context [(?a <? ?b)%nat] => destruct (Nat.ltb_spec a b); cbn [fst snd]
           end;
    first [reflexivity | exfalso; lia].
Qed.

(** X6: the bulk reset is not all-or-nothing.  When the store answers
    the first [k] deletions and rejects the next one, the answer is 500
    with the store's message, the first [k] collections in the order
    Conductor, Ritmo, Brujula, Ubicacion are empty and the others are
    as they were. *)
Theorem purge_stops_at_first_rejection (k : nat) (msg : string)
    (rest : list (option string)) (s : store) :
  (k < 4)%nat ->
  faults s = (repeat None k ++ Some msg :: rest)%list ->
  fst (delete_conductor_all s) = res_status_json 500 (JError (Text msg))
  /\ forall m,
       collection m (snd (delete_conductor_all s))
       = if (deletion_rank m <? k)%nat then [] else collection m s.
Proof.
  intros Hk F. destruct s as [c r b u i f]. cbn [faults] in F. subst f.
  unfold delete_conductor_all, handle, bind, deleteMany, bind, roundtrip.
  destruct k as [|[|[|[|k]]]]; try lia;
    cbn [repeat app faults set_faults set_collection collection conductores ritmos
         brujulas ubicaciones next_id fst snd];
    (split; [reflexivity | intros []; reflexivity]).
Qed.


(** ** Which bodies are accepted *)

Lemma store_answers_1 (s : store) :
  store_answers 1 s <-> forall msg rest, faults s <> Some msg :: rest.
Proof.
  unfold store_answers. destruct (faults s) as [|[err|] rest]; cbn [firstn]; split.
  - intros _ msg r. discriminate.
  - intros _. constructor.
  - intros H. inversion H; discriminate.
  - intros H. exfalso. exact (H err rest eq_refl).
  - intros _ msg r. discriminate.
  - intros _. repeat constructor.
Qed.

Lemma create_outcome_201_iff (m : model) (e : env) (o : list (string * value))
    (msg : string) (s : store) :
  status (fst (create_outcome m e o msg s)) = 201
  <-> checks e (schema_of m) o = [] /\ store_answers 1 s.
Proof.
  split.
  - intros H. pose proof (create_outcome_201 m e o msg s H) as (Hc & _).
    split; [exact Hc|].
    unfold create_outcome in H. cbv zeta in H. rewrite Hc in H.
    unfold store_answers.
    destruct (faults s) as [|[err|] rest]; cbn [firstn]; try discriminate H;
      repeat constructor.
  - intros [Hc Ha]. destruct (create_outcome_ok m e o msg s Hc Ha) as (Hr & _).
    rewrite Hr. reflexivity.
Qed.

Lemma checks_cons (e : env) (o : list (string * value)) (k : string) (p : schemapath)
    (sch : schema) :
  checks e ((k, p) :: sch) o = []
  <-> check e o (k, p) = None /\ checks e sch o = [].
Proof.
  unfold checks. cbn [flat_map fst].
  destruct (check e o (k, p)) as [err|]; cbn [app]; split.
  - discriminate.
  - intros [H _]. discriminate H.
  - intros H. now split.
  - intros [_ H]. exact H.
Qed.

Lemma prop_constructed (m : model) (req_body : list (string * value)) (k : string) :
  In k (map fst (constructed m req_body)) ->
  prop (constructed m req_body) k = prop req_body k.
Proof.
  destruct m; cbn [constructed map fst In]; intros H;
    repeat (destruct H as [<-|H]; [reflexivity|]); destruct H.
Qed.

Lemma prop_constructed_fecha (m : model) (req_body : list (string * value)) :
  prop (constructed m req_body) "fecha" = VUndefined.
Proof. destruct m; reflexivity. Qed.

Lemma path_value_string (e : env) (p : schemapath) (raw : value) :
  type p = TString -> default p = None ->
  path_value e p raw =
  match castString raw with
  | Cast x => Cast (FString (if trim p then String_trim x else x))
  | Nullish => Nullish
  | CastError => CastError
  end.
Proof.
  unfold path_value, set_path. intros -> ->. destruct raw; reflexivity.
Qed.

Lemma path_value_number (e : env) (p : schemapath) (raw : value) :
  type p = TNumber -> default p = None ->
  path_value e p raw =
  match SchemaNumber_cast raw with
  | Cast n => Cast (FNumber n)
  | Nullish => Nullish
  | CastError => CastError
  end.
Proof.
  unfold path_value, set_path. intros -> ->. destruct raw; reflexivity.
Qed.

(** A required string path without enumeration. *)
Lemma check_required_string (e : env) (o : list (string * value)) (k : string)
    (p : schemapath) :
  type p = TString -> default p = None -> required p = true -> enum p = None ->
  check e o (k, p) = None
  <-> exists x, castString (prop o k) = Cast x
                /\ (if trim p then String_trim x else x) <> "".
Proof.
  intros Ht Hd Hr He. unfold check. cbn [fst snd].
  rewrite (path_value_string e p _ Ht Hd).
  destruct (castString (prop o k)) as [x| |]; unfold validate_path; rewrite ?Hr, ?He;
    cbn [andb].
  - destruct (String.eqb_spec (if trim p then String_trim x else x) ""); split.
    + discriminate.
    + intros (y & Hy & Hne). injection Hy as <-. contradiction.
    + intros _. now exists x.
    + reflexivity.
  - split; [discriminate | intros (y & Hy & _); discriminate].
  - split; [discriminate | intros (y & Hy & _); discriminate].
Qed.

(** A required string path with an enumeration. *)
Lemma check_required_enum (e : env) (o : list (string * value)) (k : string)
    (p : schemapath) (allowed : list string) :
  type p = TString -> default p = None -> required p = true -> trim p = false ->
  enum p = Some allowed -> ~ In "" allowed ->
  check e o (k, p) = None
  <-> exists x, castString (prop o k) = Cast x /\ In x allowed.
Proof.
  intros Ht Hd Hr Htrim He Hempty. unfold check. cbn [fst snd].
  rewrite (path_value_string e p _ Ht Hd), Htrim.
  destruct (castString (prop o k)) as [x| |]; unfold validate_path; rewrite ?Hr, ?He;
    cbn [andb].
  - destruct (String.eqb_spec x "") as [->|Hx].
    + split; [discriminate|]. intros (y & Hy & Hin). injection Hy as <-. contradiction.
    + destruct (existsb (String.eqb x) allowed) eqn:Ex; split.
      * intros _. exists x. split; [reflexivity|].
        apply existsb_exists in Ex. destruct Ex as (y & Hin & Hy).
        apply String.eqb_eq in Hy. now subst.
      * reflexivity.
      * discriminate.
      * intros (y & Hy & Hin). injection Hy as <-.
        assert (existsb (String.eqb x) allowed = true) as Hex.
        { apply existsb_exists. exists x. split; [assumption | apply String.eqb_refl]. }
        rewrite Hex in Ex. discriminate.
  - split; [discriminate | intros (y & Hy & _); discriminate].
  - split; [discriminate | intros (y & Hy & _); discriminate].
Qed.

(** A required number path with a minimum. *)
Lemma check_required_min (e : env) (o : list (string * value)) (k : string)
    (p : schemapath) (lo : number) :
  type p = TNumber -> default p = None -> required p = true -> min p = Some lo ->
  check e o (k, p) = None
  <-> exists n, SchemaNumber_cast (prop o k) = Cast n /\ num_ge n lo = true.
Proof.
  intros Ht Hd Hr Hm. unfold check. cbn [fst snd].
  rewrite (path_value_number e p _ Ht Hd).
  destruct (SchemaNumber_cast (prop o k)) as [n| |]; unfold validate_path; rewrite ?Hr, ?Hm.
  - destruct (num_ge n lo) eqn:G; split.
    + intros _. now exists n.
    + reflexivity.
    + discriminate.
    + intros (y & Hy & Hge). injection Hy as <-. rewrite G in Hge. discriminate.
  - split; [discriminate | intros (y & Hy & _); discriminate].
  - split; [discriminate | intros (y & Hy & _); discriminate].
Qed.

(** A required number path without bounds. *)
Lemma check_required_number (e : env) (o : list (string * value)) (k : string)
    (p : schemapath) :
  type p = TNumber -> default p = None -> required p = true -> min p = None ->
  check e o (k, p) = None <-> exists n, SchemaNumber_cast (prop o k) = Cast n.
Proof.
  intros Ht Hd Hr Hm. unfold check. cbn [fst snd].
  rewrite (path_value_number e p _ Ht Hd).
  destruct (SchemaNumber_cast (prop o k)) as [n| |]; unfold validate_path; rewrite ?Hr, ?Hm.
  - split; [intros _; now exists n | reflexivity].
  - split; [discriminate | intros (y & Hy); discriminate].
  - split; [discriminate | intros (y & Hy); discriminate].
Qed.

(** [fecha] takes its default and passes. *)
Lemma check_fecha (e : env) (m : model) (req_body : list (string * value)) :
  check e (constructed m req_body) ("fecha", with_default DateNow (path TDate)) = None.
Proof.
  unfold check. cbn [fst snd]. rewrite prop_constructed_fecha. reflexivity.
Qed.

Lemma num_ge_not_NaN (n lo : number) : num_ge n lo = true -> isNaN n = false.
Proof.
  unfold num_ge, SFleb. destruct n; try reflexivity. destruct lo; discriminate.
Qed.


Lemma post_of_201_iff (m : model) (e : env) (req_body : list (string * value))
    (s : store) :
  status (fst (post_of m e req_body s)) = 201
  <-> refused m req_body = false
      /\ checks e (schema_of m) (constructed m req_body) = []
      /\ store_answers 1 s.
Proof.
  rewrite post_of_run. destruct (refused m req_body).
  - split; [discriminate | intros [H _]; discriminate H].
  - rewrite create_outcome_201_iff. tauto.
Qed.

Lemma post_of_201_document (m : model) (e : env) (req_body : list (string * value))
    (s : store) :
  status (fst (post_of m e req_body s)) = 201 ->
  fst (post_of m e req_body s)
  = res_status_json 201
      (JMessageData (saved_message m) (created e m (constructed m req_body) s)).
Proof.
  rewrite post_of_run. destruct (refused m req_body); [discriminate|].
  intros H. now apply create_outcome_201 in H.
Qed.

Ltac schema_options :=
  cbn [type required trim min enum index default
       path with_required with_trim with_min with_enum with_index with_default].

Ltac read_constructed :=
  rewrite ?prop_constructed_fecha;
  repeat rewrite prop_constructed by (cbn [constructed map fst In]; auto 10).

(** X7: POST /ritmo is answered 201 exactly when [conductorId] is
    truthy and casts to a non-empty string, [bpm] is a number that is at
    least zero, and the store answers the insert; the saved reading then
    holds that string, that number, the time it was built as [fecha],
    the next identifier and the time of the save. *)
Theorem ritmo_accepted_exactly_when
    (e : env) (req_body : list (string * value)) (s : store) :
  (status (fst (post_ritmo e req_body s)) = 201
   <-> truthy (prop req_body "conductorId") = true
       /\ (exists x, castString (prop req_body "conductorId") = Cast x /\ x <> "")
       /\ (exists n, prop req_body "bpm" = VNum n /\ num_ge n zero = true)
       /\ store_answers 1 s)
  /\ (forall x n,
        castString (prop req_body "conductorId") = Cast x ->
        prop req_body "bpm" = VNum n ->
        status (fst (post_ritmo e req_body s)) = 201 ->
        fst (post_ritmo e req_body s)
        = res_status_json 201
            (JMessageData "Ritmo guardado"
               {| _id := next_id s;
                  doc_fields := [("conductorId", FString x); ("bpm", FNumber n);
                                 ("fecha", FDate (now e))];
                  createdAt := now_save e; updatedAt := now_save e; __v := 0 |})).
Proof.
  change (post_ritmo e req_body s) with (post_of Ritmo e req_body s).
  assert (checks e (schema_of Ritmo) (constructed Ritmo req_body) = []
          <-> (exists x, castString (prop req_body "conductorId") = Cast x /\ x <> "")
              /\ (exists n, SchemaNumber_cast (prop req_body "bpm") = Cast n
                            /\ num_ge n zero = true)) as Hchecks.
  { cbv beta iota delta [schema_of ritmoSchema]. rewrite !checks_cons.
    rewrite check_required_string by reflexivity.
    rewrite check_required_min by reflexivity.
    rewrite check_fecha. schema_options. read_constructed.
    unfold checks. cbn [flat_map]. tauto. }
  split.
  - rewrite post_of_201_iff, Hchecks. cbn [refused]. split.
    + intros (R & (Hx & (n & Hn & Hge)) & Ha).
      apply orb_false_iff in R. destruct R as [Rc Rb].
      apply negb_false_iff in Rc. apply negb_false_iff in Rb.
      destruct (prop req_body "bpm") as [| | |n'| | |]; try discriminate Rb.
      cbn [SchemaNumber_cast castNumber] in Hn. destruct (isNaN n'); [discriminate|].
      injection Hn as <-.
      repeat split; try assumption. now exists n'.
    + intros (Ht & Hx & (n & Hn & Hge) & Ha). rewrite Ht, Hn.
      repeat split; try assumption.
      exists n. cbn [SchemaNumber_cast castNumber]. rewrite (num_ge_not_NaN _ _ Hge). now split.
  - intros x n Hx Hn H201. rewrite (post_of_201_document _ _ _ _ H201).
    apply post_of_201_iff in H201. destruct H201 as (_ & Hc & _).
    apply Hchecks in Hc. destruct Hc as (_ & (n' & Hn' & Hge)).
    rewrite Hn in Hn'. cbn [SchemaNumber_cast castNumber] in Hn'.
    destruct (isNaN n) eqn:Hnan; [discriminate|].
    unfold created. cbn [saved_message schema_of ritmoSchema build]. read_constructed.
    rewrite (path_value_string e (with_index (with_required (path TString)))
               _ eq_refl eq_refl), Hx.
    rewrite (path_value_number e (with_min zero (with_required (path TNumber)))
               _ eq_refl eq_refl), Hn.
    cbn [SchemaNumber_cast castNumber]. rewrite Hnan. reflexivity.
Qed.


(** X8: POST /brujula is answered 201 exactly when [conductorId] is
    truthy and casts to a non-empty string, [compass] is a number and
    the store answers the insert.  No range is checked: a negative
    heading or one above 360 is saved as it is. *)
Theorem brujula_accepted_exactly_when
    (e : env) (req_body : list (string * value)) (s : store) :
  (status (fst (post_brujula e req_body s)) = 201
   <-> truthy (prop req_body "conductorId") = true
       /\ (exists x, castString (prop req_body "conductorId") = Cast x /\ x <> "")
       /\ (exists n, prop req_body "compass" = VNum n /\ isNaN n = false)
       /\ store_answers 1 s)
  /\ (forall x n,
        castString (prop req_body "conductorId") = Cast x ->
        prop req_body "compass" = VNum n ->
        status (fst (post_brujula e req_body s)) = 201 ->
        fst (post_brujula e req_body s)
        = res_status_json 201
            (JMessageData "Brújula guardada"
               {| _id := next_id s;
                  doc_fields := [("conductorId", FString x); ("compass", FNumber n);
                                 ("fecha", FDate (now e))];
                  createdAt := now_save e; updatedAt := now_save e; __v := 0 |})).
Proof.
  change (post_brujula e req_body s) with (post_of Brujula e req_body s).
  assert (checks e (schema_of Brujula) (constructed Brujula req_body) = []
          <-> (exists x, castString (prop req_body "conductorId") = Cast x /\ x <> "")
              /\ (exists n, SchemaNumber_cast (prop req_body "compass") = Cast n))
    as Hchecks.
  { cbv beta iota delta [schema_of brujulaSchema]. rewrite !checks_cons.
    rewrite check_required_string by reflexivity.
    rewrite check_required_number by reflexivity.
    rewrite check_fecha. schema_options. read_constructed.
    unfold checks. cbn [flat_map]. tauto. }
  split.
  - rewrite post_of_201_iff, Hchecks. cbn [refused]. split.
    + intros (R & (Hx & (n & Hn)) & Ha).
      apply orb_false_iff in R. destruct R as [Rc Rb].
      apply negb_false_iff in Rc. apply negb_false_iff in Rb.
      destruct (prop req_body "compass") as [| | |n'| | |]; try discriminate Rb.
      cbn [SchemaNumber_cast castNumber] in Hn. destruct (isNaN n') eqn:Hnan; [discriminate|].
      repeat split; try assumption. now exists n'.
    + intros (Ht & Hx & (n & Hn & Hnan) & Ha). rewrite Ht, Hn.
      repeat split; try assumption.
      exists n. cbn [SchemaNumber_cast castNumber]. now rewrite Hnan.
  - intros x n Hx Hn H201. rewrite (post_of_201_document _ _ _ _ H201).
    apply post_of_201_iff in H201. destruct H201 as (_ & Hc & _).
    apply Hchecks in Hc. destruct Hc as (_ & (n' & Hn')).
    rewrite Hn in Hn'. cbn [SchemaNumber_cast castNumber] in Hn'.
    destruct (isNaN n) eqn:Hnan; [discriminate|].
    unfold created. cbn [saved_message schema_of brujulaSchema build]. read_constructed.
    rewrite (path_value_string e (with_index (with_required (path TString)))
               _ eq_refl eq_refl), Hx.
    rewrite (path_value_number e (with_required (path TNumber)) _ eq_refl eq_refl), Hn.
    cbn [SchemaNumber_cast castNumber]. rewrite Hnan. reflexivity.
Qed.

Lemma SchemaNumber_cast_defined (v : value) (n : number) :
  SchemaNumber_cast v = Cast n -> is_undefined v = false.
Proof. destruct v; try reflexivity. discriminate. Qed.

(** X9: POST /ubicacion is answered 201 exactly when [conductorId] is
    truthy and casts to a non-empty string, [latitud] and [longitud]
    both cast to a number and the store answers the insert.  The values
    saved are the cast ones: a boolean, a numeric string or an object
    whose [_id] casts to a number is accepted and stored as that
    number, no bound is checked. *)
Theorem ubicacion_accepted_exactly_when
    (e : env) (req_body : list (string * value)) (s : store) :
  (status (fst (post_ubicacion e req_body s)) = 201
   <-> truthy (prop req_body "conductorId") = true
       /\ (exists x, castString (prop req_body "conductorId") = Cast x /\ x <> "")
       /\ (exists a, SchemaNumber_cast (prop req_body "latitud") = Cast a)
       /\ (exists b, SchemaNumber_cast (prop req_body "longitud") = Cast b)
       /\ store_answers 1 s)
  /\ (forall x a b,
        castString (prop req_body "conductorId") = Cast x ->
        SchemaNumber_cast (prop req_body "latitud") = Cast a ->
        SchemaNumber_cast (prop req_body "longitud") = Cast b ->
        status (fst (post_ubicacion e req_body s)) = 201 ->
        fst (post_ubicacion e req_body s)
        = res_status_json 201
            (JMessageData "Ubicación guardada"
               {| _id := next_id s;
                  doc_fields := [("conductorId", FString x); ("latitud", FNumber a);
                                 ("longitud", FNumber b); ("fecha", FDate (now e))];
                  createdAt := now_save e; updatedAt := now_save e; __v := 0 |})).
Proof.
  change (post_ubicacion e req_body s) with (post_of Ubicacion e req_body s).
  assert (checks e (schema_of Ubicacion) (constructed Ubicacion req_body) = []
          <-> (exists x, castString (prop req_body "conductorId") = Cast x /\ x <> "")
              /\ (exists a, SchemaNumber_cast (prop req_body "latitud") = Cast a)
              /\ (exists b, SchemaNumber_cast (prop req_body "longitud") = Cast b))
    as Hchecks.
  { cbv beta iota delta [schema_of ubicacionSchema]. rewrite !checks_cons.
    rewrite check_required_string by reflexivity.
    rewrite !check_required_number by reflexivity.
    rewrite check_fecha. schema_options. read_constructed.
    unfold checks. cbn [flat_map]. tauto. }
  split.
  - rewrite post_of_201_iff, Hchecks. cbn [refused]. split.
    + intros (R & (Hx & Ha & Hb) & Hs).
      apply orb_false_iff in R. destruct R as [R _].
      apply orb_false_iff in R. destruct R as [Rc _].
      apply negb_false_iff in Rc. tauto.
    + intros (Ht & Hx & (a & Ha) & (b & Hb) & Hs).
      rewrite Ht, (SchemaNumber_cast_defined _ _ Ha), (SchemaNumber_cast_defined _ _ Hb).
      repeat split; try assumption; eexists; eassumption.
  - intros x a b Hx Ha Hb H201. rewrite (post_of_201_document _ _ _ _ H201).
    unfold created.
    cbn [saved_message schema_of ubicacionSchema build]. read_constructed.
    rewrite (path_value_string e (with_index (with_required (path TString)))
               _ eq_refl eq_refl), Hx.
    rewrite !(path_value_number e (with_required (path TNumber)) _ eq_refl eq_refl).
    rewrite Ha, Hb. reflexivity.
Qed.

(** X10: POST /conductor is answered 201 exactly when the five fields
    are truthy, [nombre] casts to a string that is not blank, [edad]
    casts to a number that is at least zero, [sexo] casts to one of the
    two strings of the enumeration, [turno] and [enfermedad] cast to
    non-empty strings, and the store answers the insert.  The saved
    driver holds the trimmed name and the cast values; of an [edad]
    that is an object with an [_id], the [_id] is what is cast. *)
Theorem conductor_accepted_exactly_when
    (e : env) (req_body : list (string * value)) (s : store) :
  (status (fst (post_conductor e req_body s)) = 201
   <-> (truthy (prop req_body "nombre") = true
        /\ truthy (prop req_body "edad") = true
        /\ truthy (prop req_body "sexo") = true
        /\ truthy (prop req_body "turno") = true
        /\ truthy (prop req_body "enfermedad") = true)
       /\ (exists n, castString (prop req_body "nombre") = Cast n
                     /\ String_trim n <> "")
       /\ (exists a, SchemaNumber_cast (prop req_body "edad") = Cast a
                     /\ num_ge a zero = true)
       /\ (exists x, castString (prop req_body "sexo") = Cast x
                     /\ In x ["Masculino"; "Femenino"])
       /\ (exists t, castString (prop req_body "turno") = Cast t /\ t <> "")
       /\ (exists f, castString (prop req_body "enfermedad") = Cast f /\ f <> "")
       /\ store_answers 1 s)
  /\ (forall n a x t f,
        castString (prop req_body "nombre") = Cast n ->
        SchemaNumber_cast (prop req_body "edad") = Cast a ->
        castString (prop req_body "sexo") = Cast x ->
        castString (prop req_body "turno") = Cast t ->
        castString (prop req_body "enfermedad") = Cast f ->
        status (fst (post_conductor e req_body s)) = 201 ->
        fst (post_conductor e req_body s)
        = res_status_json 201
            (JMessageData "Conductor creado"
               {| _id := next_id s;
                  doc_fields := [("nombre", FString (String_trim n));
                                 ("edad", FNumber a); ("sexo", FString x);
                                 ("turno", FString t); ("enfermedad", FString f)];
                  createdAt := now_save e; updatedAt := now_save e; __v := 0 |})).
Proof.
  change (post_conductor e req_body s) with (post_of Conductor e req_body s).
  assert (checks e (schema_of Conductor) (constructed Conductor req_body) = []
          <-> (exists n, castString (prop req_body "nombre") = Cast n
                         /\ String_trim n <> "")
              /\ (exists a, SchemaNumber_cast (prop req_body "edad") = Cast a
                            /\ num_ge a zero = true)
              /\ (exists x, castString (prop req_body "sexo") = Cast x
                            /\ In x ["Masculino"; "Femenino"])
              /\ (exists t, castString (prop req_body "turno") = Cast t /\ t <> "")
              /\ (exists f, castString (prop req_body "enfermedad") = Cast f
                            /\ f <> ""))
    as Hchecks.
  { cbv beta iota delta [schema_of conductorSchema]. rewrite !checks_cons.
    rewrite (check_required_string e _ "nombre") by reflexivity.
    rewrite (check_required_min e _ "edad" _ zero) by reflexivity.
    rewrite (check_required_enum e _ "sexo" _ ["Masculino"; "Femenino"])
      by (try reflexivity; cbn [In]; intuition discriminate).
    rewrite (check_required_string e _ "turno") by reflexivity.
    rewrite (check_required_string e _ "enfermedad") by reflexivity.
    schema_options. read_constructed.
    unfold checks. cbn [flat_map]. tauto. }
  split.
  - rewrite post_of_201_iff, Hchecks. cbn [refused]. split.
    + intros (R & Hc & Hs).
      repeat (apply orb_false_iff in R; destruct R as [R ?]).
      repeat match goal with
             | H : negb _ = false |- _ => apply negb_false_iff in H
             end.
      tauto.
    + intros ((H1 & H2 & H3 & H4 & H5) & Hc).
      rewrite H1, H2, H3, H4, H5. cbn [negb orb]. tauto.
  - intros n a x t f Hn Ha Hx Ht Hf H201. rewrite (post_of_201_document _ _ _ _ H201).
    unfold created.
    cbn [saved_message schema_of conductorSchema build]. read_constructed.
    rewrite (path_value_string e (with_trim (with_required (path TString)))
               _ eq_refl eq_refl), Hn.
    rewrite (path_value_number e (with_min zero (with_required (path TNumber)))
               _ eq_refl eq_refl), Ha.
    rewrite (path_value_string e
               (with_required (with_enum ["Masculino"; "Femenino"] (path TString)))
               _ eq_refl eq_refl), Hx.
    rewrite !(path_value_string e (with_required (path TString)) _ eq_refl eq_refl).
    rewrite Ht, Hf. reflexivity.
Qed.

(** X11: a [nombre] made of white space only is truthy, so the handler
    lets it through; the schema trims it, the required validator fails
    and the answer is 500 with the validation message naming [nombre],
    not 400; nothing is stored. *)
Theorem blank_name_is_500
    (e : env) (req_body : list (string * value)) (s : store) (nombre : string) :
  prop req_body "nombre" = VStr nombre ->
  nombre <> "" -> String_trim nombre = "" ->
  truthy (prop req_body "edad") = true ->
  truthy (prop req_body "sexo") = true ->
  truthy (prop req_body "turno") = true ->
  truthy (prop req_body "enfermedad") = true ->
  exists errs,
    fst (post_conductor e req_body s)
      = res_status_json 500 (JError (ValidationFailed "Conductor" errs))
    /\ In ("nombre", ERequired) errs
    /\ same_documents s (snd (post_conductor e req_body s)).
Proof.
  intros Hn Hne Hblank He Hs Ht Hf.
  change (post_conductor e req_body s) with (post_of Conductor e req_body s).
  rewrite post_of_run. cbn [refused]. rewrite Hn, (truthy_string _ Hne), He, Hs, Ht, Hf.
  cbn [negb orb].
  assert (In ("nombre", ERequired)
             (checks e (schema_of Conductor) (constructed Conductor req_body))) as Hin.
  { apply In_checks with (p := with_trim (with_required (path TString))).
    - left. reflexivity.
    - unfold check. cbn [fst snd]. read_constructed.
      rewrite (path_value_string e (with_trim (with_required (path TString)))
                 _ eq_refl eq_refl), Hn.
      cbn [castString]. schema_options. rewrite Hblank. reflexivity. }
  destruct (create_outcome_invalid Conductor e _ (saved_message Conductor) s _ Hin)
    as [Hr Hsame].
  eexists. split; [exact Hr|]. split; assumption.
Qed.


Lemma post_appends_or_leaves_aux (m : model) (e : env)
    (req_body : list (string * value)) (s : store) :
  (status (fst (post_of m e req_body s)) = 201
   /\ collection m (snd (post_of m e req_body s))
      = (collection m s ++ [created e m (constructed m req_body) s])%list)
  \/ collection m (snd (post_of m e req_body s)) = collection m s.
Proof.
  rewrite post_of_run. destruct (refused m req_body); [right; reflexivity|].
  destruct (create_outcome_store m e (constructed m req_body) (saved_message m) s)
    as (_ & _ & [(H201 & _ & Hcol) | (_ & Hcol)]); [left | right]; auto.
Qed.

(** ** A creation followed by a reading route *)

Lemma post_of_created (m : model) (e : env) (req_body : list (string * value))
    (s : store) :
  status (fst (post_of m e req_body s)) = 201 ->
  fst (post_of m e req_body s)
    = res_status_json 201
        (JMessageData (saved_message m) (created e m (constructed m req_body) s))
  /\ collection m (snd (post_of m e req_body s))
     = (collection m s ++ [created e m (constructed m req_body) s])%list.
Proof.
  intros H. split; [now apply post_of_201_document|].
  rewrite post_of_run in *. destruct (refused m req_body); [discriminate H|].
  now apply create_outcome_201 in H.
Qed.

(** X13: after a creation answered 201, the listing of that model that
    the store answers next counts one document more and holds the new
    document together with the ones from before, most recent first;
    when the save happened later than every stored creation, the new
    document comes first and the others follow in their former order. *)
Theorem created_is_listed
    (m : model) (e : env) (req_body : list (string * value)) (s : store) :
  status (fst (post_of m e req_body s)) = 201 ->
  store_answers 1 (snd (post_of m e req_body s)) ->
  exists msg d l,
    fst (post_of m e req_body s) = res_status_json 201 (JMessageData msg d)
    /\ fst (get_all_of m (snd (post_of m e req_body s)))
       = res_json (JTotalData (S (List.length (collection m s))) l)
    /\ Permutation (d :: collection m s) l
    /\ StronglySorted not_older l
    /\ ((forall x, In x (collection m s) -> createdAt x < now_save e) ->
        l = d :: sort_desc (collection m s)).
Proof.
  intros H201 Ha. destruct (post_of_created m e req_body s H201) as [Hr Hcol].
  set (d := created e m (constructed m req_body) s) in *.
  exists (saved_message m), d, (sort_desc (collection m s ++ [d])).
  split; [exact Hr|].
  rewrite get_all_of_eq, (get_all_run m _ Ha), Hcol. cbn [fst].
  split; [|split; [|split]].
  - f_equal. f_equal.
    rewrite <- (Permutation_length (sort_desc_perm (collection m s ++ [d]))).
    rewrite length_app. cbn [List.length]. lia.
  - eapply perm_trans; [|apply sort_desc_perm].
    apply Permutation_cons_append.
  - apply sort_desc_strongly_sorted.
  - intros Hclock. apply sort_desc_newest. exact Hclock.
Qed.

Lemma created_matches (k : lectura) (e : env) (req_body : list (string * value))
    (s : store) (cid : string) :
  matches cid (created e (model_of k) (constructed (model_of k) req_body) s)
  = match castString (prop req_body "conductorId") with
    | Cast x => String.eqb x cid
    | _ => false
    end.
Proof.
  unfold matches, created. cbn [doc_fields].
  rewrite (build_field e _ "conductorId" _ _ (schema_keys_NoDup _) (conductorId_path k)).
  rewrite prop_constructed by (destruct k; left; reflexivity).
  rewrite (path_value_string e (with_index (with_required (path TString)))
             _ eq_refl eq_refl).
  destruct (castString (prop req_body "conductorId")); reflexivity.
Qed.

Lemma post_lectura_post_of (k : lectura) : post_lectura k = post_of (model_of k).
Proof. destruct k; reflexivity. Qed.

(** X14: a reading saved with 201 later than every stored reading of
    its driver is what the latest route of its kind returns next for
    that driver. *)
Theorem later_reading_becomes_latest
    (k : lectura) (e : env) (req_body : list (string * value)) (s : store)
    (cid : string) :
  status (fst (post_lectura k e req_body s)) = 201 ->
  castString (prop req_body "conductorId") = Cast cid ->
  (forall x, In x (collection (model_of k) s) -> matches cid x = true ->
             createdAt x < now_save e) ->
  store_answers 1 (snd (post_lectura k e req_body s)) ->
  exists msg d,
    fst (post_lectura k e req_body s) = res_status_json 201 (JMessageData msg d)
    /\ fst (get_lectura_latest_of k cid (snd (post_lectura k e req_body s)))
       = res_json (JDoc d).
Proof.
  rewrite post_lectura_post_of. intros H201 Hcid Hclock Ha.
  destruct (post_of_created _ e req_body s H201) as [Hr Hcol].
  set (d := created e (model_of k) (constructed (model_of k) req_body) s) in *.
  exists (saved_message (model_of k)), d. split; [exact Hr|].
  destruct (get_lectura_latest_of_eq k) as [msg404 ->].
  rewrite (get_latest_run _ _ _ _ Ha). cbn [fst].
  unfold latest_doc. rewrite Hcol, filter_app. cbn [filter].
  assert (matches cid d = true) as ->.
  { subst d. rewrite created_matches, Hcid. apply String.eqb_refl. }
  rewrite sort_desc_newest; [reflexivity|].
  intros x Hx. apply filter_In in Hx. destruct Hx as [Hin Hm].
  exact (Hclock x Hin Hm).
Qed.

(** X15: recency is the time of the save, not the order of arrival.  A
    reading saved with 201 at a time earlier than a stored reading of
    the same driver does not become the latest: the latest route still
    returns a most recent reading of the store from before. *)
Theorem earlier_reading_is_not_latest
    (k : lectura) (e : env) (req_body : list (string * value)) (s : store)
    (cid : string) (d0 : document) :
  status (fst (post_lectura k e req_body s)) = 201 ->
  In d0 (collection (model_of k) s) -> matches cid d0 = true ->
  now_save e < createdAt d0 ->
  store_answers 1 (snd (post_lectura k e req_body s)) ->
  exists d,
    fst (get_lectura_latest_of k cid (snd (post_lectura k e req_body s)))
      = res_json (JDoc d)
    /\ most_recent (model_of k) cid s d.
Proof.
  rewrite post_lectura_post_of. intros H201 Hin0 Hm0 Hclock Ha.
  destruct (post_of_created _ e req_body s H201) as [_ Hcol].
  set (d1 := created e (model_of k) (constructed (model_of k) req_body) s) in *.
  set (s' := snd (post_of (model_of k) e req_body s)) in *.
  destruct (get_lectura_latest_of_eq k) as [msg404 ->].
  rewrite (get_latest_run _ _ _ _ Ha). cbn [fst].
  destruct (latest_doc (model_of k) cid s') as [d|] eqn:L.
  - exists d. split; [reflexivity|].
    apply latest_doc_Some in L. destruct L as (Hin & Hm & Hmax).
    assert (createdAt d0 <= createdAt d) as Hle.
    { apply Hmax; [|exact Hm0]. rewrite Hcol. apply in_or_app. now left. }
    rewrite Hcol in Hin. apply in_app_or in Hin. destruct Hin as [Hin|[<-|[]]].
    + split; [exact Hin|]. split; [exact Hm|].
      intros d' Hd' Hm'. apply Hmax; [|exact Hm'].
      rewrite Hcol. apply in_or_app. now left.
    + exfalso. subst d1. cbn [created createdAt] in Hle. lia.
  - exfalso. apply latest_doc_None in L.
    assert (In d0 (collection (model_of k) s')) as Hin
      by (rewrite Hcol; apply in_or_app; now left).
    rewrite (L d0 Hin) in Hm0. discriminate.
Qed.

(** X16: what is posted for one driver does not change what another
    driver's latest route returns: whatever the outcome of a POST on an
    ingestion route, the latest reading of its kind for any driver other
    than the one the body names is the same before and after. *)
Theorem other_drivers_unaffected
    (k : lectura) (e : env) (req_body : list (string * value)) (s : store)
    (other : string) :
  castString (prop req_body "conductorId") <> Cast other ->
  store_answers 1 s ->
  store_answers 1 (snd (post_lectura k e req_body s)) ->
  fst (get_lectura_latest_of k other (snd (post_lectura k e req_body s)))
  = fst (get_lectura_latest_of k other s).
Proof.
  rewrite post_lectura_post_of. intros Hother Ha Ha'.
  destruct (get_lectura_latest_of_eq k) as [msg404 ->].
  rewrite (get_latest_run _ _ _ _ Ha), (get_latest_run _ _ _ _ Ha'). cbn [fst].
  assert (latest_doc (model_of k) other (snd (post_of (model_of k) e req_body s))
          = latest_doc (model_of k) other s) as ->; [|reflexivity].
  unfold latest_doc.
  destruct (post_appends_or_leaves_aux (model_of k) e req_body s) as [[H201 Hcol]|Hcol].
  - rewrite Hcol, filter_app. cbn [filter].
    rewrite created_matches.
    destruct (castString (prop req_body "conductorId")) as [x| |] eqn:C;
      try (now rewrite app_nil_r).
    destruct (String.eqb_spec x other) as [->|Hne]; [contradiction|].
    now rewrite app_nil_r.
  - now rewrite Hcol.
Qed.

(** X17: the combined route and the three latest routes agree.  On a
    store that answers, the combined answer is 404 exactly when the
    three latest routes all answer 404; otherwise each of its fields is
    [null] when the latest route of that kind answers 404, and else
    holds, under the kind's value keys and [fecha] and under no other
    key, the values the very document that route returns has there. *)
Theorem combined_agrees_with_latest_routes (e : env) (cid : string) (s : store) :
  store_answers 3 s ->
  (status (fst (get_lectura_latest e cid s)) = 404
   <-> status (fst (get_ritmo_latest cid s)) = 404
       /\ status (fst (get_brujula_latest cid s)) = 404
       /\ status (fst (get_ubicacion_latest cid s)) = 404)
  /\ (status (fst (get_lectura_latest e cid s)) <> 404 ->
      exists ritmo brujula ubicacion,
        fst (get_lectura_latest e cid s)
          = res_json (JLectura cid ritmo brujula ubicacion)
        /\ match ritmo with
           | None => status (fst (get_ritmo_latest cid s)) = 404
           | Some fs => exists d, fst (get_ritmo_latest cid s) = res_json (JDoc d)
                                  /\ sends ["bpm"; "fecha"] d fs
           end
        /\ match brujula with
           | None => status (fst (get_brujula_latest cid s)) = 404
           | Some fs => exists d, fst (get_brujula_latest cid s) = res_json (JDoc d)
                                  /\ sends ["compass"; "fecha"] d fs
           end
        /\ match ubicacion with
           | None => status (fst (get_ubicacion_latest cid s)) = 404
           | Some fs => exists d, fst (get_ubicacion_latest cid s) = res_json (JDoc d)
                                  /\ sends ["latitud"; "longitud"; "fecha"] d fs
           end).
Proof using.
  clear Number_of_string Number_toString castDate.
  intros Ha. pose proof (store_answers_le 3 1 s ltac:(lia) Ha) as Ha1.
  destruct (get_lectura_latest_run e cid s Ha) as [Hr _]. rewrite Hr.
  unfold get_ritmo_latest, get_brujula_latest, get_ubicacion_latest.
  rewrite !(get_latest_run _ _ _ _ Ha1). cbn [fst].
  destruct (latest_doc Ritmo cid s) as [dr|],
           (latest_doc Brujula cid s) as [db|],
           (latest_doc Ubicacion cid s) as [du|];
    cbn [option_map status res_json res_status_json].
  all: split;
    [ split; [intros H; try discriminate H; repeat split
             | intros (H1 & H2 & H3); first [discriminate H1 | discriminate H2
                                            | discriminate H3 | reflexivity]]
    | intros Hn;
      first [ exfalso; apply Hn; reflexivity
            | eexists _, _, _; split; [reflexivity|];
              repeat split;
              try (eexists; split; [reflexivity | apply pick_sends]) ] ].
Qed.


(** X18: a heart rate posted for a driver shows in the combined route.
    After POST /ritmo with a non-empty string [conductorId] and a [bpm]
    of at least zero, saved later than the driver's stored heart rates,
    the combined route answers 200 with that [bpm] and, as [fecha], the
    time the reading was built; the other two fields are what they were
    before. *)
Theorem ritmo_shows_in_combined
    (e e' : env) (req_body : list (string * value)) (s : store)
    (cid : string) (n : number) :
  prop req_body "conductorId" = VStr cid -> cid <> "" ->
  prop req_body "bpm" = VNum n -> num_ge n zero = true ->
  store_answers 1 s ->
  (forall x, In x (ritmos s) -> matches cid x = true -> createdAt x < now_save e) ->
  store_answers 3 (snd (post_ritmo e req_body s)) ->
  fst (get_lectura_latest e' cid (snd (post_ritmo e req_body s)))
  = res_json
      (JLectura cid
         (Some [("bpm", FNumber n); ("fecha", FDate (now e))])
         (option_map (pick ["compass"; "fecha"]) (latest_doc Brujula cid s))
         (option_map (pick ["latitud"; "longitud"; "fecha"])
                     (latest_doc Ubicacion cid s))).
Proof.
  intros Hcid Hne Hbpm Hge Ha Hclock Ha'.
  pose proof (num_ge_not_NaN _ _ Hge) as Hnan.
  change (post_ritmo e req_body s) with (post_of Ritmo e req_body s) in *.
  assert (checks e (schema_of Ritmo) (constructed Ritmo req_body) = []) as Hc.
  { cbv beta iota delta [schema_of ritmoSchema]. rewrite !checks_cons.
    rewrite check_required_string by reflexivity.
    rewrite check_required_min by reflexivity.
    rewrite check_fecha. schema_options. read_constructed.
    rewrite Hcid, Hbpm. cbn [castString SchemaNumber_cast castNumber]. rewrite Hnan.
    repeat split; eauto. }
  assert (status (fst (post_of Ritmo e req_body s)) = 201) as H201.
  { apply post_of_201_iff. cbn [refused].
    rewrite Hcid, Hbpm, (truthy_string _ Hne). repeat split; assumption. }
  destruct (post_of_created Ritmo e req_body s H201) as [_ Hcol].
  set (s' := snd (post_of Ritmo e req_body s)) in *.
  set (d := created e Ritmo (constructed Ritmo req_body) s) in *.
  destruct (get_lectura_latest_run e' cid s' Ha') as [Hr _]. rewrite Hr.
  assert (latest_doc Ritmo cid s' = Some d) as ->.
  { unfold latest_doc. rewrite Hcol, filter_app. cbn [filter].
    assert (matches cid d = true) as ->.
    { subst d. rewrite (created_matches LRitmo), Hcid. apply String.eqb_refl. }
    rewrite sort_desc_newest; [reflexivity|].
    intros x Hx. apply filter_In in Hx. destruct Hx as [Hin Hm].
    exact (Hclock x Hin Hm). }
  assert (forall m, m <> Ritmo -> latest_doc m cid s' = latest_doc m cid s) as Hsame.
  { intros m Hm. unfold latest_doc. subst s'. rewrite post_of_run.
    destruct (refused Ritmo req_body); [reflexivity|].
    destruct (create_outcome_store Ritmo e (constructed Ritmo req_body)
                (saved_message Ritmo) s) as (_ & Hother & _).
    now rewrite (Hother m Hm). }
  rewrite (Hsame Brujula) by discriminate. rewrite (Hsame Ubicacion) by discriminate.
  assert (pick ["bpm"; "fecha"] d = [("bpm", FNumber n); ("fecha", FDate (now e))])
    as Hpick.
  { subst d. unfold pick, created. cbn [doc_fields schema_of ritmoSchema build].
    read_constructed.
    rewrite (path_value_string e (with_index (with_required (path TString)))
               _ eq_refl eq_refl), Hcid.
    rewrite (path_value_number e (with_min zero (with_required (path TNumber)))
               _ eq_refl eq_refl), Hbpm.
    cbn [castString SchemaNumber_cast castNumber]. rewrite Hnan. reflexivity. }
  cbn [option_map]. rewrite Hpick.
  destruct (latest_doc Brujula cid s), (latest_doc Ubicacion cid s); reflexivity.
Qed.

(** ** Sequences of requests *)

(** What one creating route does to any collection and to [next_id]. *)
Lemma post_of_store (m m' : model) (e : env) (req_body : list (string * value))
    (s : store) :
  (collection m' (snd (post_of m e req_body s)) = collection m' s
   /\ (next_id s <= next_id (snd (post_of m e req_body s)))%N)
  \/ (exists d,
        collection m' (snd (post_of m e req_body s)) = (collection m' s ++ [d])%list
        /\ _id d = next_id s
        /\ next_id (snd (post_of m e req_body s)) = N.succ (next_id s)).
Proof.
  rewrite post_of_run. destruct (refused m req_body).
  - left. split; [reflexivity | cbn [snd]; lia].
  - destruct (create_outcome_store m e (constructed m req_body) (saved_message m) s)
      as (Hid & Hother & Hown).
    destruct m, m';
      try (left; split; [apply Hother; discriminate | rewrite Hid; lia]);
      (destruct Hown as [(_ & _ & Hcol) | (_ & Hcol)];
       [ right; eexists; split; [exact Hcol | split; [reflexivity | exact Hid]]
       | left; split; [exact Hcol | rewrite Hid; lia] ]).
Qed.

Lemma app_post_of (e : env) (r : request) :
  is_get r = false -> is_delete r = false ->
  exists m req_body, app e r = post_of m e req_body.
Proof.
  destruct r; cbn [is_get one_query is_delete app]; intros Hg Hd;
    try discriminate Hg; try discriminate Hd.
  - now exists Conductor, req_body.
  - now exists Ritmo, req_body.
  - now exists Brujula, req_body.
  - now exists Ubicacion, req_body.
Qed.

Lemma app_keeps_documents (e : env) (r : request) (s : store) (m : model) :
  is_delete r = false ->
  exists l, collection m (snd (app e r s)) = (collection m s ++ l)%list.
Proof.
  intros Hd. destruct (is_get r) eqn:Hg.
  - destruct (app_get_store e r s Hg) as [Hsame _].
    exists []. rewrite app_nil_r. apply Hsame.
  - destruct (app_post_of e r Hg Hd) as (m0 & req_body & ->).
    destruct (post_of_store m0 m e req_body s) as [[Hcol _] | (d & Hcol & _)].
    + exists []. now rewrite app_nil_r.
    + now exists [d].
Qed.

(** X19: documents are written once and stay.  Over any sequence of
    requests served one after the other in which the bulk reset does not
    occur, every collection ends as it began followed by the documents
    appended meanwhile: no stored document is removed, changed or moved. *)
Theorem documents_survive_until_purge (rs : list (env * request)) (s : store)
    (m : model) :
  forallb (fun er => negb (is_delete (snd er))) rs = true ->
  exists l, collection m (snd (serve rs s)) = (collection m s ++ l)%list.
Proof.
  revert s. induction rs as [|[e r] rest IH]; intros s H.
  - exists []. cbn [serve snd]. now rewrite app_nil_r.
  - cbn [forallb snd] in H. apply andb_true_iff in H. destruct H as [Hr Hrest].
    apply negb_true_iff in Hr.
    cbn [serve]. destruct (app e r s) as [a s1] eqn:A.
    destruct (serve rest s1) as [answers s2] eqn:S. cbn [snd].
    destruct (app_keeps_documents e r s m Hr) as [l1 H1]. rewrite A in H1. cbn [snd] in H1.
    destruct (IH s1 Hrest) as [l2 H2]. rewrite S in H2. cbn [snd] in H2.
    exists (l1 ++ l2)%list. now rewrite H2, H1, app_assoc.
Qed.

(** X20: only the fields a creating route names count.  Two bodies that
    agree on the fields the route destructures get the same answer and
    leave the same store: whatever else a body carries ([_id], [fecha],
    [createdAt], ...) is never read. *)
Theorem only_named_fields_count
    (m : model) (e : env) (body1 body2 : list (string * value)) (s : store) :
  (forall k, In k (map fst (constructed m body1)) -> prop body1 k = prop body2 k) ->
  post_of m e body1 s = post_of m e body2 s.
Proof.
  intros H. rewrite !post_of_run.
  assert (constructed m body1 = constructed m body2) as Hc.
  { destruct m; cbn [constructed map fst In] in *;
      repeat rewrite H by auto 10; reflexivity. }
  assert (refused m body1 = refused m body2) as Hr.
  { destruct m; cbn [refused constructed map fst In] in *;
      repeat rewrite H by auto 10; reflexivity. }
  now rewrite Hc, Hr.
Qed.


(** ** What every answer looks like *)

Lemma create_outcome_answer (m : model) (e : env) (o : list (string * value))
    (msg : string) (s : store) :
  (exists d, fst (create_outcome m e o msg s) = res_status_json 201 (JMessageData msg d))
  \/ (exists err, fst (create_outcome m e o msg s) = res_status_json 500 (JError err)).
Proof.
  unfold create_outcome. cbv zeta.
  destruct (checks e (schema_of m) o); [|right; eexists; reflexivity].
  destruct (faults s) as [|[err|] rest];
    [left | right | left]; eexists; reflexivity.
Qed.

Lemma post_of_answer (m : model) (e : env) (req_body : list (string * value))
    (s : store) :
  (exists msg d, fst (post_of m e req_body s) = res_status_json 201 (JMessageData msg d))
  \/ (exists err, fst (post_of m e req_body s) = res_status_json 400 (JError err))
  \/ (exists err, fst (post_of m e req_body s) = res_status_json 500 (JError err)).
Proof.
  rewrite post_of_run. destruct (refused m req_body).
  - right. left. eexists. reflexivity.
  - destruct (create_outcome_answer m e (constructed m req_body) (saved_message m) s)
      as [[d H] | [err H]]; rewrite H.
    + left. eexists _, _. reflexivity.
    + right. right. eexists. reflexivity.
Qed.

Lemma get_latest_answer (m : model) (msg cid : string) (s : store) :
  (exists d, fst (get_latest m msg cid s) = res_status_json 200 (JDoc d))
  \/ (exists err, fst (get_latest m msg cid s) = res_status_json 404 (JError err))
  \/ (exists err, fst (get_latest m msg cid s) = res_status_json 500 (JError err)).
Proof.
  unfold get_latest, handle, findOne_sorted, bind. rewrite roundtrip_run.
  destruct (faults s) as [|[err|] rest];
    try (right; right; eexists; reflexivity);
    destruct (latest_doc m cid (after_roundtrip s));
    solve [ left; eexists; reflexivity | right; left; eexists; reflexivity ].
Qed.

Lemma get_all_answer (m : model) (s : store) :
  (exists l, fst (get_all m s) = res_status_json 200 (JTotalData (List.length l) l))
  \/ (exists err, fst (get_all m s) = res_status_json 500 (JError err)).
Proof.
  unfold get_all, handle, find_sorted, bind. rewrite roundtrip_run.
  destruct (faults s) as [|[err|] rest];
    solve [ left; eexists; reflexivity | right; eexists; reflexivity ].
Qed.

Lemma get_lectura_latest_answer (e : env) (cid : string) (s : store) :
  (exists r b u, fst (get_lectura_latest e cid s)
                 = res_status_json 200 (JLectura cid r b u))
  \/ (exists err, fst (get_lectura_latest e cid s) = res_status_json 404 (JError err))
  \/ (exists err, fst (get_lectura_latest e cid s) = res_status_json 500 (JError err)).
Proof.
  destruct s as [c r b u i f].
  unfold get_lectura_latest, handle, bind, Promise_all, findOne_sorted, bind,
    roundtrip, latest_doc.
  destruct f as [|[e1|] [|[e2|] [|[e3|] rest]]];
    cbn [faults set_faults collection conductores ritmos brujulas ubicaciones fst];
    try (right; right; eexists; reflexivity);
    destruct (hd_error (sort_desc (filter (matches cid) r))),
             (hd_error (sort_desc (filter (matches cid) b))),
             (hd_error (sort_desc (filter (matches cid) u)));
    solve [ left; eexists _, _, _; reflexivity | right; left; eexists; reflexivity ].
Qed.

Lemma delete_conductor_all_answer (s : store) :
  (exists msg c r b u,
      fst (delete_conductor_all s) = res_status_json 200 (JBorrados msg c r b u))
  \/ (exists err, fst (delete_conductor_all s) = res_status_json 500 (JError err)).
Proof.
  destruct s as [c r b u i f].
  unfold delete_conductor_all, handle, bind, deleteMany, bind, roundtrip.
  destruct f as [|[e1|] [|[e2|] [|[e3|] [|[e4|] rest]]]];
    cbn [faults set_faults set_collection collection conductores ritmos brujulas
         ubicaciones fst];
    solve [ left; eexists _, _, _, _, _; reflexivity | right; eexists; reflexivity ].
Qed.

(** X21: every route answers with one of its own statuses (200 for the
    health check; 201, 400 or 500 for a creation; 200, 404 or 500 for a
    latest or combined reading; 200 or 500 for a listing and for the
    bulk reset), and the body is [{ error: ... }] exactly when the
    status is 400 or above. *)
Theorem answer_shape (e : env) (r : request) (s : store) :
  In (status (fst (app e r s))) (statuses r)
  /\ (is_error (body (fst (app e r s))) = true <-> 400 <= status (fst (app e r s))).
Proof.
  assert (forall m req_body,
             In (status (fst (post_of m e req_body s))) [201; 400; 500]
             /\ (is_error (body (fst (post_of m e req_body s))) = true
                 <-> 400 <= status (fst (post_of m e req_body s)))) as Hpost.
  { intros m req_body.
    destruct (post_of_answer m e req_body s)
      as [(msg & d & ->) | [(err & ->) | (err & ->)]];
      cbn; (split; [tauto | split; [intros H; try discriminate H; lia
                                   | intros H; try reflexivity; lia]]). }
  assert (forall m msg cid,
             In (status (fst (get_latest m msg cid s))) [200; 404; 500]
             /\ (is_error (body (fst (get_latest m msg cid s))) = true
                 <-> 400 <= status (fst (get_latest m msg cid s)))) as Hlatest.
  { intros m msg cid.
    destruct (get_latest_answer m msg cid s) as [(d & ->) | [(err & ->) | (err & ->)]];
      cbn; (split; [tauto | split; [intros H; try discriminate H; lia
                                   | intros H; try reflexivity; lia]]). }
  assert (forall m,
             In (status (fst (get_all m s))) [200; 500]
             /\ (is_error (body (fst (get_all m s))) = true
                 <-> 400 <= status (fst (get_all m s)))) as Hall.
  { intros m.
    destruct (get_all_answer m s) as [(l & ->) | (err & ->)];
      cbn; (split; [tauto | split; [intros H; try discriminate H; lia
                                   | intros H; try reflexivity; lia]]). }
  destruct r; cbn [app statuses].
  - cbn. split; [tauto | split; [discriminate | lia]].
  - exact (Hpost Conductor req_body).
  - exact (Hpost Ritmo req_body).
  - exact (Hpost Brujula req_body).
  - exact (Hpost Ubicacion req_body).
  - apply Hlatest.
  - apply Hlatest.
  - apply Hlatest.
  - destruct (get_lectura_latest_answer e conductorId s)
      as [(a & b & c & ->) | [(err & ->) | (err & ->)]];
      cbn; (split; [tauto | split; [intros H; try discriminate H; lia
                                   | intros H; try reflexivity; lia]]).
  - apply Hall.
  - apply Hall.
  - apply Hall.
  - apply Hall.
  - destruct (delete_conductor_all_answer s)
      as [(msg & a & b & c & d & ->) | (err & ->)];
      cbn; (split; [tauto | split; [intros H; try discriminate H; lia
                                   | intros H; try reflexivity; lia]]).
Qed.

(** X22: after a bulk reset answered 200 no driver has a latest reading
    left: each of the three latest routes, and the combined route,
    answers 404 for every driver as long as the store answers. *)
Theorem purge_leaves_no_latest (s : store) :
  status (fst (delete_conductor_all s)) = 200 ->
  (forall k cid,
      store_answers 1 (snd (delete_conductor_all s)) ->
      status (fst (get_lectura_latest_of k cid (snd (delete_conductor_all s)))) = 404)
  /\ (forall e cid,
        store_answers 3 (snd (delete_conductor_all s)) ->
        status (fst (get_lectura_latest e cid (snd (delete_conductor_all s)))) = 404).
Proof using.
  clear Number_of_string Number_toString castDate.
  intros H200. destruct (delete_conductor_all_run s) as [Hrun Hback].
  rewrite (Hrun (Hback H200)). cbn [snd]. split.
  - intros k cid Ha. destruct (get_lectura_latest_of_eq k) as [msg ->].
    rewrite (get_latest_run _ _ _ _ Ha). destruct k; reflexivity.
  - intros e cid Ha. destruct (get_lectura_latest_run e cid _ Ha) as [-> _]. reflexivity.
Qed.

End Server.

(** ** Concrete runs *)

Lemma zero_reading_is_accepted_witness :
  (prop zero_body "conductorId" = VStr "D1" /\ "D1" <> ""
   /\ store_answers 1 example_store)
  /\ status (fst (post_ritmo Number_reads_nothing toString_NaN castDate_fails
                    example_env zero_body example_store)) = 201
  /\ status (fst (post_brujula Number_reads_nothing toString_NaN castDate_fails
                    example_env zero_body example_store)) = 201
  /\ status (fst (post_ubicacion Number_reads_nothing toString_NaN castDate_fails
                    example_env zero_body example_store)) = 201.
Proof.
  assert ("D1" <> "") as Hne by discriminate.
  assert (store_answers 1 example_store) as Ha by (repeat constructor).
  split; [split; [reflexivity | split; assumption]|].
  destruct (zero_reading_is_accepted Number_reads_nothing toString_NaN castDate_fails
              example_env zero_body example_store "D1" false false
              eq_refl Hne Ha) as (H1 & H2 & H3).
  destruct (H1 eq_refl) as (d1 & E1 & _).
  destruct (H2 eq_refl) as (d2 & E2 & _).
  destruct (H3 eq_refl eq_refl) as (d3 & E3 & _).
  rewrite E1, E2, E3. repeat split.
Defined.

Lemma range_and_enum_left_to_the_store_witness :
  (truthy (prop out_of_range_body "conductorId") = true
   /\ prop out_of_range_body "bpm" = VNum minus5 /\ num_lt minus5 zero = true
   /\ truthy (prop out_of_range_body "nombre") = true
   /\ truthy (prop out_of_range_body "edad") = true
   /\ truthy (prop out_of_range_body "turno") = true
   /\ truthy (prop out_of_range_body "enfermedad") = true
   /\ prop out_of_range_body "sexo" = VStr "Otro"
   /\ "Otro" <> "" /\ "Otro" <> "Masculino" /\ "Otro" <> "Femenino")
  /\ status (fst (post_ritmo Number_reads_nothing toString_NaN castDate_fails
                    example_env out_of_range_body example_store)) = 500
  /\ status (fst (post_conductor Number_reads_nothing toString_NaN castDate_fails
                    example_env out_of_range_body example_store)) = 500.
Proof.
  assert ("Otro" <> "") as H0 by discriminate.
  assert ("Otro" <> "Masculino") as H1 by discriminate.
  assert ("Otro" <> "Femenino") as H2 by discriminate.
  split; [repeat split; assumption|].
  destruct (range_and_enum_left_to_the_store Number_reads_nothing toString_NaN
              castDate_fails example_env out_of_range_body example_store)
    as [Hr Hc].
  destruct (Hr minus5 eq_refl eq_refl eq_refl) as (errs & E & _).
  destruct (Hc "Otro" eq_refl eq_refl eq_refl eq_refl eq_refl H0 H1 H2)
    as (errs' & E' & _).
  rewrite E, E'. split; reflexivity.
Defined.

Lemma post_ubicacion_string_latitud_witness :
  isNaN (Number_reads_nothing "abc") = true
  /\ status (fst (post_ubicacion Number_reads_nothing toString_NaN castDate_fails
                    example_env
                    [("conductorId", VStr "D1"); ("latitud", VStr "abc");
                     ("longitud", VNum zero)] example_store)) = 500.
Proof.
  split; [reflexivity|].
  destruct (post_ubicacion_string_latitud Number_reads_nothing toString_NaN
              castDate_fails example_env example_store eq_refl) as (E & _).
  rewrite E. reflexivity.
Defined.

Lemma latest_reading_spec_witness :
  (store_answers 1 shared_store
   /\ ~ driver_has_none Ritmo "D1" shared_store
   /\ driver_has_none Ritmo "D3" shared_store
   /\ status (fst (post_ritmo Number_reads_nothing toString_NaN castDate_fails
                     example_env zero_body empty_store)) = 201
   /\ driver_has_none Ritmo "D1" empty_store
   /\ store_answers 1 (snd (post_ritmo Number_reads_nothing toString_NaN
                               castDate_fails example_env zero_body empty_store)))
  /\ fst (get_ritmo_latest "D1" shared_store) = res_json (JDoc example_ritmo)
  /\ status (fst (get_ritmo_latest "D3" shared_store)) = 404
  /\ (exists msg d,
        fst (post_ritmo Number_reads_nothing toString_NaN castDate_fails
               example_env zero_body empty_store)
          = res_status_json 201 (JMessageData msg d)
        /\ fst (get_ritmo_latest "D1"
                  (snd (post_ritmo Number_reads_nothing toString_NaN castDate_fails
                          example_env zero_body empty_store)))
           = res_json (JDoc d)).
Proof.
  assert (store_answers 1 shared_store) as Ha by constructor.
  assert (~ driver_has_none Ritmo "D1" shared_store) as Hhas.
  { intros H. exact (H example_ritmo (or_introl eq_refl) eq_refl). }
  assert (driver_has_none Ritmo "D3" shared_store) as Hthird.
  { intros d [<-|[<-|[]]] H; discriminate H. }
  assert (driver_has_none Ritmo "D1" empty_store) as Hno by (intros d []).
  assert (store_answers 1 (snd (post_ritmo Number_reads_nothing toString_NaN
                                  castDate_fails example_env zero_body empty_store)))
    as Ha' by constructor.
  split; [repeat split; try assumption; reflexivity|].
  destruct (latest_reading_spec Number_reads_nothing toString_NaN castDate_fails LRitmo)
    as [Hget Hpost].
  split; [|split].
  - destruct (proj2 (Hget "D1" shared_store Ha) Hhas) as (d & E & Hin & Hd & _).
    destruct Hin as [<-|[<-|[]]]; [exact E | discriminate Hd].
  - exact (proj2 (proj1 (Hget "D3" shared_store Ha)) Hthird).
  - destruct (Hpost example_env zero_body empty_store eq_refl)
      as (msg & d & cid & E & Hcid & Hnext).
    exists msg, d. split; [exact E|].
    assert (cid = "D1") as ->.
    { cbv in E. injection E as _ <-. cbv in Hcid. now injection Hcid as <-. }
    exact (Hnext Hno Ha').
Defined.

Lemma latest_combined_spec_witness :
  (store_answers 3 shared_store
   /\ ~ driver_has_none Ritmo "D1" shared_store
   /\ driver_has_none Brujula "D1" shared_store
   /\ driver_has_none Ubicacion "D1" shared_store
   /\ driver_has_none Ritmo "D3" shared_store
   /\ driver_has_none Brujula "D3" shared_store
   /\ driver_has_none Ubicacion "D3" shared_store)
  /\ fst (get_lectura_latest example_env "D1" shared_store)
     = res_json (JLectura "D1"
                   (Some [("bpm", FNumber bpm72); ("fecha", FDate 1699999999000)])
                   None None)
  /\ status (fst (get_lectura_latest example_env "D3" shared_store)) = 404.
Proof.
  assert (store_answers 3 shared_store) as Ha by constructor.
  assert (~ driver_has_none Ritmo "D1" shared_store) as Hhas.
  { intros H. exact (H example_ritmo (or_introl eq_refl) eq_refl). }
  assert (driver_has_none Brujula "D1" shared_store) as Hb.
  { intros d [<-|[]] H; discriminate H. }
  assert (driver_has_none Ubicacion "D1" shared_store) as Hu by (intros d []).
  assert (driver_has_none Ritmo "D3" shared_store) as Hr3.
  { intros d [<-|[<-|[]]] H; discriminate H. }
  assert (driver_has_none Brujula "D3" shared_store) as Hb3.
  { intros d [<-|[]] H; discriminate H. }
  assert (driver_has_none Ubicacion "D3" shared_store) as Hu3 by (intros d []).
  split; [repeat split; assumption|].
  split.
  - destruct (latest_combined_spec example_env "D1" shared_store Ha)
      as (_ & _ & Honly).
    destruct (Honly Hhas Hb Hu) as (d & fs & (Hin & Hd & _) & [_ Hall] & E).
    destruct Hin as [<-|[<-|[]]]; [|discriminate Hd].
    rewrite E.
    now rewrite (Hall [FNumber bpm72; FDate 1699999999000] eq_refl).
  - destruct (latest_combined_spec example_env "D3" shared_store Ha) as (H404 & _).
    apply H404. repeat split; assumption.
Defined.

Lemma purge_all_spec_witness :
  (store_answers 4 example_store
   /\ status (fst (delete_conductor_all example_store)) = 200
   /\ store_answers 1 (snd (delete_conductor_all example_store)))
  /\ fst (delete_conductor_all example_store)
     = res_json (JBorrados "Todos los conductores y lecturas han sido borrados"
                   0 1 0 0)
  /\ forall m, fst (get_all_of m (snd (delete_conductor_all example_store)))
               = res_json (JTotalData 0 []).
Proof.
  assert (store_answers 4 example_store) as Ha by (repeat constructor).
  assert (store_answers 1 (snd (delete_conductor_all example_store))) as Ha'
    by constructor.
  destruct (purge_all_spec example_store) as [H200 Hafter].
  specialize (H200 Ha).
  split; [repeat split; assumption|].
  destruct (Hafter H200) as (E & _ & Hlist).
  split; [exact E|].
  intros m. exact (Hlist m Ha').
Defined.

Lemma missing_conductorId_is_400_witness :
  truthy (prop anonymous_body "conductorId") = false
  /\ post_ritmo Number_reads_nothing toString_NaN castDate_fails
        example_env anonymous_body example_store
     = (res_status_json 400 (JError (Text "conductorId y bpm son requeridos")),
        example_store).
Proof.
  split; [reflexivity|].
  exact (proj1 (missing_conductorId_is_400 Number_reads_nothing toString_NaN castDate_fails
        example_env anonymous_body
                  example_store eq_refl)).
Defined.

Lemma get_changes_no_document_witness :
  is_get (GET_lectura_latest "D1") = true
  /\ same_documents rejecting_store
       (snd (app Number_reads_nothing toString_NaN castDate_fails
             example_env (GET_lectura_latest "D1") rejecting_store)).
Proof.
  split; [reflexivity|].
  exact (proj1 (get_changes_no_document Number_reads_nothing toString_NaN castDate_fails
        example_env (GET_lectura_latest "D1")
                  rejecting_store eq_refl)).
Defined.

Lemma rejected_query_is_500_witness :
  (one_query GET_ritmo_all = true /\ faults rejecting_store = [Some "ECONNRESET"])
  /\ fst (app Number_reads_nothing toString_NaN castDate_fails
        example_env GET_ritmo_all rejecting_store)
     = res_status_json 500 (JError (Text "ECONNRESET")).
Proof.
  split; [split; reflexivity|].
  exact (rejected_query_is_500 Number_reads_nothing toString_NaN castDate_fails
        example_env GET_ritmo_all rejecting_store
           "ECONNRESET" [] eq_refl eq_refl).
Defined.

Lemma combined_rejection_is_500_witness :
  ~ store_answers 3 faltering_store
  /\ exists msg,
       In (Some msg) (firstn 3 (faults faltering_store))
       /\ fst (get_lectura_latest example_env "D1" faltering_store)
          = res_status_json 500 (JError (Text msg)).
Proof.
  assert (~ store_answers 3 faltering_store) as Hn.
  { intros H. inversion H as [|? ? _ H']. inversion H' as [|? ? Hx _]. discriminate Hx. }
  split; [exact Hn|].
  exact (combined_rejection_is_500 example_env "D1" faltering_store Hn).
Defined.

Lemma purge_stops_at_first_rejection_witness :
  ((1 < 4)%nat
   /\ faults faltering_store = (repeat None 1 ++ [Some "ECONNRESET"])%list)
  /\ fst (delete_conductor_all faltering_store)
     = res_status_json 500 (JError (Text "ECONNRESET"))
  /\ conductores (snd (delete_conductor_all faltering_store)) = []
  /\ ritmos (snd (delete_conductor_all faltering_store)) = [example_ritmo].
Proof.
  assert ((1 < 4)%nat) as Hk by lia.
  split; [split; [exact Hk | reflexivity]|].
  destruct (purge_stops_at_first_rejection 1 "ECONNRESET" [] faltering_store
              Hk eq_refl) as [Hr Hcol].
  split; [exact Hr|]. split; [exact (Hcol Conductor) | exact (Hcol Ritmo)].
Defined.

Lemma blank_name_is_500_witness :
  (prop blank_name_body "nombre" = VStr "  " /\ "  " <> "" /\ String_trim "  " = ""
   /\ truthy (prop blank_name_body "edad") = true
   /\ truthy (prop blank_name_body "sexo") = true
   /\ truthy (prop blank_name_body "turno") = true
   /\ truthy (prop blank_name_body "enfermedad") = true)
  /\ exists errs,
       fst (post_conductor Number_reads_nothing toString_NaN castDate_fails
             example_env blank_name_body example_store)
         = res_status_json 500 (JError (ValidationFailed "Conductor" errs))
       /\ In ("nombre", ERequired) errs
       /\ same_documents example_store
            (snd (post_conductor Number_reads_nothing toString_NaN castDate_fails
                  example_env blank_name_body example_store)).
Proof.
  assert ("  " <> "") as Hne by discriminate.
  split; [repeat split; try reflexivity; exact Hne|].
  exact (blank_name_is_500 Number_reads_nothing toString_NaN castDate_fails
        example_env blank_name_body example_store "  "
           eq_refl Hne eq_refl eq_refl eq_refl eq_refl eq_refl).
Defined.

Lemma get_all_most_recent_first_witness :
  store_answers 1 faltering_store
  /\ exists l,
       fst (get_all_of Conductor faltering_store)
         = res_json (JTotalData (List.length l) l)
       /\ Permutation (collection Conductor faltering_store) l
       /\ StronglySorted not_older l
       /\ List.length l = List.length (collection Conductor faltering_store).
Proof.
  assert (store_answers 1 faltering_store) as Ha by (repeat constructor).
  split; [exact Ha|].
  exact (get_all_most_recent_first Conductor faltering_store Ha).
Defined.

Lemma created_is_listed_witness :
  (status (fst (post_of Number_reads_nothing toString_NaN castDate_fails
        Ritmo example_env zero_body example_store)) = 201
   /\ store_answers 1 (snd (post_of Number_reads_nothing toString_NaN castDate_fails
         Ritmo example_env zero_body example_store)))
  /\ exists msg d l,
       fst (post_of Number_reads_nothing toString_NaN castDate_fails
             Ritmo example_env zero_body example_store)
         = res_status_json 201 (JMessageData msg d)
       /\ fst (get_all_of Ritmo
                 (snd (post_of Number_reads_nothing toString_NaN castDate_fails
                       Ritmo example_env zero_body example_store)))
          = res_json (JTotalData 2 l)
       /\ Permutation (d :: [example_ritmo]) l.
Proof.
  assert (store_answers 1 (snd (post_of Number_reads_nothing toString_NaN castDate_fails
        Ritmo example_env zero_body example_store)))
    as Ha by constructor.
  split; [split; [reflexivity | exact Ha]|].
  destruct (created_is_listed Number_reads_nothing toString_NaN castDate_fails
        Ritmo example_env zero_body example_store eq_refl Ha)
    as (msg & d & l & Hr & Hl & Hp & _).
  exists msg, d, l. repeat split; assumption.
Defined.

Lemma later_reading_becomes_latest_witness :
  (status (fst (post_lectura Number_reads_nothing toString_NaN castDate_fails
        LRitmo example_env zero_body example_store)) = 201
   /\ castString toString_NaN (prop zero_body "conductorId") = Cast "D1"
   /\ createdAt example_ritmo < now_save example_env
   /\ store_answers 1
        (snd (post_lectura Number_reads_nothing toString_NaN castDate_fails
              LRitmo example_env zero_body example_store)))
  /\ exists msg d,
       fst (post_lectura Number_reads_nothing toString_NaN castDate_fails
             LRitmo example_env zero_body example_store)
         = res_status_json 201 (JMessageData msg d)
       /\ fst (get_lectura_latest_of LRitmo "D1"
                 (snd (post_lectura Number_reads_nothing toString_NaN castDate_fails
                       LRitmo example_env zero_body example_store)))
          = res_json (JDoc d).
Proof.
  assert (store_answers 1
            (snd (post_lectura Number_reads_nothing toString_NaN castDate_fails
                  LRitmo example_env zero_body example_store)))
    as Ha by constructor.
  assert (createdAt example_ritmo < now_save example_env) as Hlt by reflexivity.
  split; [repeat split; try reflexivity; assumption|].
  apply (later_reading_becomes_latest Number_reads_nothing toString_NaN castDate_fails
        LRitmo example_env zero_body example_store
           "D1" eq_refl eq_refl); [|exact Ha].
  intros x [<-|[]] _. exact Hlt.
Defined.

Lemma earlier_reading_is_not_latest_witness :
  (status (fst (post_lectura Number_reads_nothing toString_NaN castDate_fails
        LRitmo stale_env zero_body example_store)) = 201
   /\ In example_ritmo (collection (model_of LRitmo) example_store)
   /\ matches "D1" example_ritmo = true
   /\ now_save stale_env < createdAt example_ritmo
   /\ store_answers 1
        (snd (post_lectura Number_reads_nothing toString_NaN castDate_fails
              LRitmo stale_env zero_body example_store)))
  /\ exists d,
       fst (get_lectura_latest_of LRitmo "D1"
              (snd (post_lectura Number_reads_nothing toString_NaN castDate_fails
                    LRitmo stale_env zero_body example_store)))
         = res_json (JDoc d)
       /\ most_recent (model_of LRitmo) "D1" example_store d.
Proof.
  assert (store_answers 1
            (snd (post_lectura Number_reads_nothing toString_NaN castDate_fails
                  LRitmo stale_env zero_body example_store)))
    as Ha by constructor.
  assert (In example_ritmo (collection (model_of LRitmo) example_store)) as Hin
    by (left; reflexivity).
  assert (now_save stale_env < createdAt example_ritmo) as Hlt by reflexivity.
  split; [repeat split; try reflexivity; assumption|].
  exact (earlier_reading_is_not_latest Number_reads_nothing toString_NaN castDate_fails
        LRitmo stale_env zero_body example_store
           "D1" example_ritmo eq_refl Hin eq_refl Hlt Ha).
Defined.

Lemma other_drivers_unaffected_witness :
  (castString toString_NaN (prop zero_body "conductorId") <> Cast "D2"
   /\ store_answers 1 example_store
   /\ store_answers 1
        (snd (post_lectura Number_reads_nothing toString_NaN castDate_fails
              LRitmo example_env zero_body example_store)))
  /\ fst (get_lectura_latest_of LRitmo "D2"
            (snd (post_lectura Number_reads_nothing toString_NaN castDate_fails
                  LRitmo example_env zero_body example_store)))
     = fst (get_lectura_latest_of LRitmo "D2" example_store).
Proof.
  assert (castString toString_NaN (prop zero_body "conductorId") <> Cast "D2") as Hne
    by discriminate.
  assert (store_answers 1 example_store) as Ha by (repeat constructor).
  assert (store_answers 1
            (snd (post_lectura Number_reads_nothing toString_NaN castDate_fails
                  LRitmo example_env zero_body example_store)))
    as Ha' by constructor.
  split; [repeat split; assumption|].
  exact (other_drivers_unaffected Number_reads_nothing toString_NaN castDate_fails
        LRitmo example_env zero_body example_store
           "D2" Hne Ha Ha').
Defined.

Lemma combined_agrees_with_latest_routes_witness :
  (store_answers 3 shared_store
   /\ status (fst (get_lectura_latest example_env "D1" shared_store)) <> 404)
  /\ fst (get_ritmo_latest "D1" shared_store) = res_json (JDoc example_ritmo)
  /\ status (fst (get_brujula_latest "D1" shared_store)) = 404
  /\ status (fst (get_ubicacion_latest "D1" shared_store)) = 404
  /\ fst (get_lectura_latest example_env "D1" shared_store)
     = res_json (JLectura "D1"
                   (Some [("bpm", FNumber bpm72); ("fecha", FDate 1699999999000)])
                   None None).
Proof.
  assert (store_answers 3 shared_store) as Ha by constructor.
  assert (status (fst (get_lectura_latest example_env "D1" shared_store)) <> 404) as Hn
    by discriminate.
  split; [split; assumption|].
  split; [reflexivity|]. split; [reflexivity|]. split; [reflexivity|].
  destruct (combined_agrees_with_latest_routes example_env "D1" shared_store Ha)
    as [_ Hfields].
  destruct (Hfields Hn) as (r & b & u & E & Hr & Hb & Hu).
  rewrite E.
  destruct r as [fs|]; [|discriminate Hr].
  destruct Hr as (d & Hd & [_ Hall]).
  destruct b as [fb|]; [destruct Hb as (db & Hdb & _); discriminate Hdb|].
  destruct u as [fu|]; [destruct Hu as (du & Hdu & _); discriminate Hdu|].
  assert (d = example_ritmo) as -> by (injection Hd as <-; reflexivity).
  now rewrite (Hall [FNumber bpm72; FDate 1699999999000] eq_refl).
Defined.

Lemma ritmo_shows_in_combined_witness :
  (prop zero_body "conductorId" = VStr "D1" /\ "D1" <> ""
   /\ prop zero_body "bpm" = VNum zero /\ num_ge zero zero = true
   /\ store_answers 1 example_store
   /\ createdAt example_ritmo < now_save example_env
   /\ store_answers 3 (snd (post_ritmo Number_reads_nothing toString_NaN castDate_fails
         example_env zero_body example_store)))
  /\ fst (get_lectura_latest stale_env "D1"
            (snd (post_ritmo Number_reads_nothing toString_NaN castDate_fails
                  example_env zero_body example_store)))
     = res_json (JLectura "D1"
                   (Some [("bpm", FNumber zero); ("fecha", FDate (now example_env))])
                   None None).
Proof.
  assert ("D1" <> "") as Hne by discriminate.
  assert (store_answers 1 example_store) as Ha by (repeat constructor).
  assert (createdAt example_ritmo < now_save example_env) as Hlt by reflexivity.
  assert (store_answers 3 (snd (post_ritmo Number_reads_nothing toString_NaN castDate_fails
        example_env zero_body example_store)))
    as Ha' by constructor.
  split; [repeat split; try reflexivity; assumption|].
  apply (ritmo_shows_in_combined Number_reads_nothing toString_NaN castDate_fails
        example_env stale_env zero_body example_store "D1" zero
           eq_refl Hne eq_refl eq_refl Ha); [|exact Ha'].
  intros x [<-|[]] _. exact Hlt.
Defined.

Lemma documents_survive_until_purge_witness :
  forallb (fun er => negb (is_delete (snd er)))
    [(example_env, POST_ritmo zero_body); (example_env, GET_ritmo_all);
     (stale_env, POST_conductor blank_name_body)] = true
  /\ exists l,
       collection Ritmo
         (snd (serve Number_reads_nothing toString_NaN castDate_fails
                 [(example_env, POST_ritmo zero_body); (example_env, GET_ritmo_all);
                  (stale_env, POST_conductor blank_name_body)] example_store))
       = (collection Ritmo example_store ++ l)%list.
Proof.
  split; [reflexivity|].
  exact (documents_survive_until_purge Number_reads_nothing toString_NaN castDate_fails
           [(example_env, POST_ritmo zero_body); (example_env, GET_ritmo_all);
            (stale_env, POST_conductor blank_name_body)] example_store Ritmo eq_refl).
Defined.

Lemma only_named_fields_count_witness :
  (prop zero_body "conductorId" = prop forged_body "conductorId"
   /\ prop zero_body "bpm" = prop forged_body "bpm")
  /\ post_of Number_reads_nothing toString_NaN castDate_fails
        Ritmo example_env zero_body example_store
     = post_of Number_reads_nothing toString_NaN castDate_fails
           Ritmo example_env forged_body example_store.
Proof.
  split; [split; reflexivity|].
  apply (only_named_fields_count Number_reads_nothing toString_NaN castDate_fails
        Ritmo example_env zero_body forged_body
           example_store).
  intros k [<-|[<-|[]]]; reflexivity.
Defined.

Lemma purge_leaves_no_latest_witness :
  (status (fst (delete_conductor_all example_store)) = 200
   /\ store_answers 1 (snd (delete_conductor_all example_store))
   /\ store_answers 3 (snd (delete_conductor_all example_store)))
  /\ status (fst (get_ritmo_latest "D1" (snd (delete_conductor_all example_store))))
     = 404
  /\ status (fst (get_lectura_latest example_env "D1"
                    (snd (delete_conductor_all example_store))))
     = 404.
Proof.
  assert (store_answers 1 (snd (delete_conductor_all example_store))) as Ha1
    by constructor.
  assert (store_answers 3 (snd (delete_conductor_all example_store))) as Ha3
    by constructor.
  split; [repeat split; try reflexivity; assumption|].
  destruct (purge_leaves_no_latest example_store eq_refl) as [Hone Hall].
  split; [exact (Hone LRitmo "D1" Ha1) | exact (Hall example_env "D1" Ha3)].
Defined.

Lemma ritmo_accepted_exactly_when_witness :
  (castString toString_NaN (prop zero_body "conductorId") = Cast "D1"
   /\ prop zero_body "bpm" = VNum zero
   /\ status (fst (post_ritmo Number_reads_nothing toString_NaN castDate_fails
                     example_env zero_body example_store)) = 201)
  /\ fst (post_ritmo Number_reads_nothing toString_NaN castDate_fails
            example_env zero_body example_store)
     = res_status_json 201
         (JMessageData "Ritmo guardado"
            {| _id := 1;
               doc_fields := [("conductorId", FString "D1"); ("bpm", FNumber zero);
                              ("fecha", FDate 1700000000000)];
               createdAt := 1700000000003; updatedAt := 1700000000003; __v := 0 |}).
Proof.
  split; [repeat split|].
  exact (proj2 (ritmo_accepted_exactly_when Number_reads_nothing toString_NaN
                  castDate_fails example_env zero_body example_store)
           "D1" zero eq_refl eq_refl eq_refl).
Defined.

Lemma brujula_accepted_exactly_when_witness :
  (castString toString_NaN (prop negative_heading_body "conductorId") = Cast "D1"
   /\ prop negative_heading_body "compass" = VNum minus5
   /\ status (fst (post_brujula Number_reads_nothing toString_NaN castDate_fails
                     example_env negative_heading_body example_store)) = 201)
  /\ fst (post_brujula Number_reads_nothing toString_NaN castDate_fails
            example_env negative_heading_body example_store)
     = res_status_json 201
         (JMessageData "Brújula guardada"
            {| _id := 1;
               doc_fields := [("conductorId", FString "D1");
                              ("compass", FNumber minus5);
                              ("fecha", FDate 1700000000000)];
               createdAt := 1700000000003; updatedAt := 1700000000003; __v := 0 |}).
Proof.
  split; [repeat split|].
  exact (proj2 (brujula_accepted_exactly_when Number_reads_nothing toString_NaN
                  castDate_fails example_env negative_heading_body example_store)
           "D1" minus5 eq_refl eq_refl eq_refl).
Defined.

Lemma ubicacion_accepted_exactly_when_witness :
  (castString toString_NaN (prop document_like_body "conductorId") = Cast "D1"
   /\ SchemaNumber_cast Number_reads_nothing (prop document_like_body "latitud")
      = Cast bpm72
   /\ SchemaNumber_cast Number_reads_nothing (prop document_like_body "longitud")
      = Cast one
   /\ status (fst (post_ubicacion Number_reads_nothing toString_NaN castDate_fails
                     example_env document_like_body example_store)) = 201)
  /\ fst (post_ubicacion Number_reads_nothing toString_NaN castDate_fails
            example_env document_like_body example_store)
     = res_status_json 201
         (JMessageData "Ubicación guardada"
            {| _id := 1;
               doc_fields := [("conductorId", FString "D1");
                              ("latitud", FNumber bpm72); ("longitud", FNumber one);
                              ("fecha", FDate 1700000000000)];
               createdAt := 1700000000003; updatedAt := 1700000000003; __v := 0 |}).
Proof.
  split; [repeat split|].
  exact (proj2 (ubicacion_accepted_exactly_when Number_reads_nothing toString_NaN
                  castDate_fails example_env document_like_body example_store)
           "D1" bpm72 one eq_refl eq_refl eq_refl eq_refl).
Defined.

Lemma conductor_accepted_exactly_when_witness :
  (castString toString_NaN (prop padded_body "nombre") = Cast " Ana "
   /\ SchemaNumber_cast Number_reads_nothing (prop padded_body "edad") = Cast bpm72
   /\ castString toString_NaN (prop padded_body "sexo") = Cast "Femenino"
   /\ castString toString_NaN (prop padded_body "turno") = Cast "Noche"
   /\ castString toString_NaN (prop padded_body "enfermedad") = Cast "Ninguna"
   /\ status (fst (post_conductor Number_reads_nothing toString_NaN castDate_fails
                     example_env padded_body example_store)) = 201)
  /\ fst (post_conductor Number_reads_nothing toString_NaN castDate_fails
            example_env padded_body example_store)
     = res_status_json 201
         (JMessageData "Conductor creado"
            {| _id := 1;
               doc_fields := [("nombre", FString "Ana"); ("edad", FNumber bpm72);
                              ("sexo", FString "Femenino"); ("turno", FString "Noche");
                              ("enfermedad", FString "Ninguna")];
               createdAt := 1700000000003; updatedAt := 1700000000003; __v := 0 |}).
Proof.
  split; [repeat split|].
  exact (proj2 (conductor_accepted_exactly_when Number_reads_nothing toString_NaN
                  castDate_fails example_env padded_body example_store)
           " Ana " bpm72 "Femenino" "Noche" "Ninguna"
           eq_refl eq_refl eq_refl eq_refl eq_refl eq_refl).
Defined.

(** C7, counterexample: the body the health route sends has the keys
    [status], [mongo], [uptime] and [now]; no key is [storeConnected]. *)
Lemma health_body_has_no_storeConnected :
  exists keys,
    literal_keys (body (fst (get_health example_env empty_store))) = Some keys
    /\ In "mongo" keys
    /\ ~ In "storeConnected" keys.
Proof.
  exists ["status"; "mongo"; "uptime"; "now"].
  split; [reflexivity|]. split; [right; left; reflexivity|].
  intros [H|[H|[H|[H|[]]]]]; discriminate H.
Defined.

Lemma combined_error_is_first_settled_witness :
  (nth_error (firstn 3 (faults twice_rejecting_store)) 2 = Some (Some "E-ubicacion")
   /\ (settles stale_env 2 < settles stale_env 1)%nat)
  /\ fst (get_lectura_latest stale_env "D1" twice_rejecting_store)
     = res_status_json 500 (JError (Text "E-ubicacion")).
Proof.
  split; [split; [reflexivity | repeat constructor]|].
  apply (combined_error_is_first_settled stale_env "D1" twice_rejecting_store 2
           "E-ubicacion" eq_refl).
  intros [|[|[|j]]] msg' Hj Hm; try discriminate Hm.
  - repeat constructor.
  - now contradiction Hj.
  - destruct j; discriminate Hm.
Defined.
